(** * XRSP host protocol engine of the Quest Link driver

    A shallow embedding of [src/xrt/drivers/quest_link/ql_xrsp.cpp]
    (second revision in the file, the one with [QL_IDX_SLICE]) and of the
    structures of the driver's type header, followed by the properties of
    the host that the specification states.

    Conventions.
    - C integers are [Z]; where a stored field is narrower than the
      expression assigned to it the truncation is written out ([u8],
      [u16], [i32], [u64]).
    - The host is threaded through a small state-and-failure monad [M].
      A computation that can never return (a lock taken twice, a spin on a
      flag nobody clears, an access outside an array) ends in [Stuck].
    - What the code obtains from outside the repository (the monotonic
      clock, libusb) is an oracle in [platform], indexed by the number of
      calls made so far; what it obtains from parts of the driver that are
      not in the sources at hand (topic numbers, packet crafting, Cap'n
      Proto encoding, the RPC helpers) is a field of [externs]. *)

From Stdlib Require Import ZArith Lia Bool String.
From stdpp Require Import base numbers list sorting.

Local Open Scope Z_scope.

(** ** Integer widths *)

Definition u8 (x : Z) : Z := x mod 2 ^ 8.
Definition u16 (x : Z) : Z := x mod 2 ^ 16.
Definition u64 (x : Z) : Z := x mod 2 ^ 64.
Definition i32 (x : Z) : Z := (x + 2 ^ 31) mod 2 ^ 32 - 2 ^ 31.
Definition i64 (x : Z) : Z := (x + 2 ^ 63) mod 2 ^ 64 - 2 ^ 63.

Definition INT32_MAX : Z := 2 ^ 31 - 1.
Definition INT64_MAX : Z := 0x7FFFFFFFFFFFFFFF.

(** ** libusb constants (libusb.h) *)

Definition LIBUSB_SUCCESS : Z := 0.
Definition LIBUSB_ERROR_IO : Z := -1.
Definition LIBUSB_ERROR_NO_DEVICE : Z := -4.
Definition LIBUSB_ERROR_NOT_FOUND : Z := -5.
Definition LIBUSB_ERROR_TIMEOUT : Z := -7.
Definition LIBUSB_ERROR_PIPE : Z := -9.

Definition LIBUSB_SPEED_LOW : Z := 1.
Definition LIBUSB_SPEED_FULL : Z := 2.
Definition LIBUSB_SPEED_HIGH : Z := 3.
Definition LIBUSB_SPEED_SUPER : Z := 4.
Definition LIBUSB_SPEED_SUPER_PLUS : Z := 5.

Definition LIBUSB_ENDPOINT_IN : Z := 0x80.

(** ** Constants of the driver's type header *)

Definition QL_MESH_FOVEATED : Z := 1002.
Definition QL_SWAPCHAIN_DEPTH : Z := 3.
Definition QL_NUM_SLICES : Z := 1.
Definition QL_IDX_SLICE (_slice_idx _frame_idx : Z) : Z :=
  (_slice_idx * QL_SWAPCHAIN_DEPTH) + _frame_idx.

Definition U_TIME_1MS_IN_NS : Z := 1000000.

(** Modelled from the spec: [sizeof(xrsp_topic_header)]; the structure is
    declared in ql_xrsp_topic.h, which is not among the sources.  The spec
    gives the header as 8 bytes, and the reader skips [0x8] bytes for it. *)
Definition sizeof_xrsp_topic_header : Z := 8.

(** ** Enumerations *)

Inductive pairing_state_t : Set :=
| PAIRINGSTATE_WAIT_FIRST
| PAIRINGSTATE_WAIT_SECOND
| PAIRINGSTATE_PAIRING
| PAIRINGSTATE_PAIRED.

#[global] Instance pairing_state_eq_dec : EqDecision pairing_state_t.
Proof. solve_decision. Defined.

(** Message types of [TOPIC_HOSTINFO_ADV]; the numeric values live in
    ql_xrsp_hostinfo.h and play no role here. *)
Inductive builtin_msg : Set :=
| BUILTIN_INVITE
| BUILTIN_OK
| BUILTIN_ACK
| BUILTIN_CODE_GENERATION
| BUILTIN_CODE_GENERATION_ACK
| BUILTIN_PAIRING
| BUILTIN_PAIRING_ACK
| BUILTIN_ECHO
| BUILTIN_BYE
| BUILTIN_OTHER (n : Z).

#[global] Instance builtin_msg_eq_dec : EqDecision builtin_msg.
Proof. solve_decision. Defined.

Inductive mutex_id : Set :=
| usb_mutex_id
| pose_mutex_id
| stream_mutex_id (i : Z).

(** ** Packets *)

Record xrsp_topic_header : Set := {
  version_maybe : Z;
  has_alignment_padding : Z;
  packet_version_is_internal : Z;
  packet_version_number : Z;
  topic : Z;
  unk_14_15 : Z;
  num_words : Z;
  sequence_num : Z;
  pad : Z
}.

(** The buffer [msg] handed to [xrsp_send_usb]: the data frame's header,
    its payload (data followed by the alignment bytes), then, when a
    filler frame was written at [msg_end], the filler header and the
    number of zero bytes after it; [msg_size] is the length passed on. *)
Record usb_msg : Set := {
  msg_header : xrsp_topic_header;
  msg_payload : list Z;
  msg_fill : option (xrsp_topic_header * Z);
  msg_size : Z
}.

Record ql_xrsp_echo_payload : Set := {
  org : Z;
  recv : Z;
  xmt : Z;
  offset : Z
}.

(** What [xrsp_handle_invite] reads out of the INVITE's Cap'n Proto
    payload (the integer part; lens angles are floating point). *)
Record headset_description : Set := {
  deviceType : Z;
  resolutionWidth : Z;
  resolutionHeight : Z
}.

(** The packet's payload bytes appear through the two views the handlers
    take of them: [payload], the cast to [ql_xrsp_echo_payload], and
    [host_info], the [PayloadHostInfo] that the Cap'n Proto reader finds
    ([None] when the reader throws). *)
Record ql_xrsp_hostinfo_pkt : Set := {
  payload : ql_xrsp_echo_payload;
  host_info : option headset_description;
  message_type : builtin_msg;
  result : Z;
  unk_4 : Z;
  recv_ns : Z
}.

(** ** The host ([struct ql_xrsp_host]) and the HMD ([struct ql_hmd]) *)

Record ql_hmd : Set := {
  pose_ns : Z;
  encode_width : Z;
  encode_height : Z;
  fps : Z;
  device_type : Z
}.

Record ql_xrsp_host : Set := {
  dev : bool;                       (* the libusb handle is not NULL *)
  usb_valid : bool;
  usb_slow_cable : bool;
  usb_speed : Z;
  if_num : Z;
  ep_out : Z;
  ep_in : Z;
  client_id : Z;
  increment : Z;
  pairing_state : pairing_state_t;
  echo_idx : Z;
  ns_offset : Z;
  ns_offset_from_target : Z;
  echo_req_sent_ns : Z;
  echo_req_recv_ns : Z;
  echo_resp_sent_ns : Z;
  echo_resp_recv_ns : Z;
  last_xmt : Z;
  num_slices : Z;
  frame_sent_ns : Z;
  paired_ns : Z;
  last_read_ns : Z;
  add_test : Z;
  usb_mutex : bool;                 (* the mutex is held *)
  pose_mutex : bool;
  ready_to_send_frames : bool;
  sent_first_frame : bool;
  frame_idx : Z;
  stream_mutex : list bool;
  needs_flush : list bool;
  csd_stream : list (list Z);       (* the bytes below [csd_stream_len] *)
  idr_stream : list (list Z);
  csd_stream_len : list Z;
  idr_stream_len : list Z;
  stream_started_ns : list Z;
  stream_pose_ns : list Z;
  encode_started_ns : list Z;
  encode_done_ns : list Z;
  encode_duration_ns : list Z;
  tx_started_ns : list Z;
  tx_done_ns : list Z;
  tx_duration_ns : list Z;
  sent_mesh : bool;
  is_inactive : bool
}.

Definition ql_xrsp_host_eta (r : ql_xrsp_host) : ql_xrsp_host :=
  Build_ql_xrsp_host
    (dev r) (usb_valid r) (usb_slow_cable r) (usb_speed r) (if_num r)
    (ep_out r) (ep_in r) (client_id r) (increment r) (pairing_state r)
    (echo_idx r) (ns_offset r) (ns_offset_from_target r)
    (echo_req_sent_ns r) (echo_req_recv_ns r) (echo_resp_sent_ns r)
    (echo_resp_recv_ns r) (last_xmt r) (num_slices r) (frame_sent_ns r)
    (paired_ns r) (last_read_ns r) (add_test r) (usb_mutex r) (pose_mutex r)
    (ready_to_send_frames r) (sent_first_frame r) (frame_idx r)
    (stream_mutex r) (needs_flush r) (csd_stream r) (idr_stream r)
    (csd_stream_len r) (idr_stream_len r) (stream_started_ns r)
    (stream_pose_ns r) (encode_started_ns r) (encode_done_ns r)
    (encode_duration_ns r) (tx_started_ns r) (tx_done_ns r)
    (tx_duration_ns r) (sent_mesh r) (is_inactive r).

Definition ql_hmd_eta (r : ql_hmd) : ql_hmd :=
  Build_ql_hmd (pose_ns r) (encode_width r) (encode_height r) (fps r)
    (device_type r).

(** [host->f = v]: the record with field [f] replaced. *)
Ltac field_setter eta proj :=
  let v := fresh "v" in
  let r := fresh "r" in
  intros v r;
  let t := eval cbv delta [eta] beta in (eta r) in
  match eval pattern (proj r) in t with
  | ?f _ => let u := eval cbv beta in (f v) in exact u
  end.

Definition set_dev : bool -> ql_xrsp_host -> ql_xrsp_host :=
  ltac:(field_setter ql_xrsp_host_eta dev).
Definition set_usb_valid : bool -> ql_xrsp_host -> ql_xrsp_host :=
  ltac:(field_setter ql_xrsp_host_eta usb_valid).
Definition set_usb_slow_cable : bool -> ql_xrsp_host -> ql_xrsp_host :=
  ltac:(field_setter ql_xrsp_host_eta usb_slow_cable).
Definition set_usb_speed : Z -> ql_xrsp_host -> ql_xrsp_host :=
  ltac:(field_setter ql_xrsp_host_eta usb_speed).
Definition set_ep_out : Z -> ql_xrsp_host -> ql_xrsp_host :=
  ltac:(field_setter ql_xrsp_host_eta ep_out).
Definition set_ep_in : Z -> ql_xrsp_host -> ql_xrsp_host :=
  ltac:(field_setter ql_xrsp_host_eta ep_in).
Definition set_if_num : Z -> ql_xrsp_host -> ql_xrsp_host :=
  ltac:(field_setter ql_xrsp_host_eta if_num).
Definition set_client_id : Z -> ql_xrsp_host -> ql_xrsp_host :=
  ltac:(field_setter ql_xrsp_host_eta client_id).
Definition set_num_slices : Z -> ql_xrsp_host -> ql_xrsp_host :=
  ltac:(field_setter ql_xrsp_host_eta num_slices).
Definition set_increment : Z -> ql_xrsp_host -> ql_xrsp_host :=
  ltac:(field_setter ql_xrsp_host_eta increment).
Definition set_pairing_state : pairing_state_t -> ql_xrsp_host -> ql_xrsp_host :=
  ltac:(field_setter ql_xrsp_host_eta pairing_state).
Definition set_echo_idx : Z -> ql_xrsp_host -> ql_xrsp_host :=
  ltac:(field_setter ql_xrsp_host_eta echo_idx).
Definition set_ns_offset : Z -> ql_xrsp_host -> ql_xrsp_host :=
  ltac:(field_setter ql_xrsp_host_eta ns_offset).
Definition set_ns_offset_from_target : Z -> ql_xrsp_host -> ql_xrsp_host :=
  ltac:(field_setter ql_xrsp_host_eta ns_offset_from_target).
Definition set_echo_req_sent_ns : Z -> ql_xrsp_host -> ql_xrsp_host :=
  ltac:(field_setter ql_xrsp_host_eta echo_req_sent_ns).
Definition set_echo_req_recv_ns : Z -> ql_xrsp_host -> ql_xrsp_host :=
  ltac:(field_setter ql_xrsp_host_eta echo_req_recv_ns).
Definition set_echo_resp_sent_ns : Z -> ql_xrsp_host -> ql_xrsp_host :=
  ltac:(field_setter ql_xrsp_host_eta echo_resp_sent_ns).
Definition set_echo_resp_recv_ns : Z -> ql_xrsp_host -> ql_xrsp_host :=
  ltac:(field_setter ql_xrsp_host_eta echo_resp_recv_ns).
Definition set_last_xmt : Z -> ql_xrsp_host -> ql_xrsp_host :=
  ltac:(field_setter ql_xrsp_host_eta last_xmt).
Definition set_frame_sent_ns : Z -> ql_xrsp_host -> ql_xrsp_host :=
  ltac:(field_setter ql_xrsp_host_eta frame_sent_ns).
Definition set_paired_ns : Z -> ql_xrsp_host -> ql_xrsp_host :=
  ltac:(field_setter ql_xrsp_host_eta paired_ns).
Definition set_last_read_ns : Z -> ql_xrsp_host -> ql_xrsp_host :=
  ltac:(field_setter ql_xrsp_host_eta last_read_ns).
Definition set_add_test : Z -> ql_xrsp_host -> ql_xrsp_host :=
  ltac:(field_setter ql_xrsp_host_eta add_test).
Definition set_usb_mutex : bool -> ql_xrsp_host -> ql_xrsp_host :=
  ltac:(field_setter ql_xrsp_host_eta usb_mutex).
Definition set_pose_mutex : bool -> ql_xrsp_host -> ql_xrsp_host :=
  ltac:(field_setter ql_xrsp_host_eta pose_mutex).
Definition set_ready_to_send_frames : bool -> ql_xrsp_host -> ql_xrsp_host :=
  ltac:(field_setter ql_xrsp_host_eta ready_to_send_frames).
Definition set_sent_first_frame : bool -> ql_xrsp_host -> ql_xrsp_host :=
  ltac:(field_setter ql_xrsp_host_eta sent_first_frame).
Definition set_frame_idx : Z -> ql_xrsp_host -> ql_xrsp_host :=
  ltac:(field_setter ql_xrsp_host_eta frame_idx).
Definition set_stream_mutex : list bool -> ql_xrsp_host -> ql_xrsp_host :=
  ltac:(field_setter ql_xrsp_host_eta stream_mutex).
Definition set_needs_flush : list bool -> ql_xrsp_host -> ql_xrsp_host :=
  ltac:(field_setter ql_xrsp_host_eta needs_flush).
Definition set_csd_stream : list (list Z) -> ql_xrsp_host -> ql_xrsp_host :=
  ltac:(field_setter ql_xrsp_host_eta csd_stream).
Definition set_idr_stream : list (list Z) -> ql_xrsp_host -> ql_xrsp_host :=
  ltac:(field_setter ql_xrsp_host_eta idr_stream).
Definition set_csd_stream_len : list Z -> ql_xrsp_host -> ql_xrsp_host :=
  ltac:(field_setter ql_xrsp_host_eta csd_stream_len).
Definition set_idr_stream_len : list Z -> ql_xrsp_host -> ql_xrsp_host :=
  ltac:(field_setter ql_xrsp_host_eta idr_stream_len).
Definition set_stream_started_ns : list Z -> ql_xrsp_host -> ql_xrsp_host :=
  ltac:(field_setter ql_xrsp_host_eta stream_started_ns).
Definition set_stream_pose_ns : list Z -> ql_xrsp_host -> ql_xrsp_host :=
  ltac:(field_setter ql_xrsp_host_eta stream_pose_ns).
Definition set_encode_started_ns : list Z -> ql_xrsp_host -> ql_xrsp_host :=
  ltac:(field_setter ql_xrsp_host_eta encode_started_ns).
Definition set_encode_done_ns : list Z -> ql_xrsp_host -> ql_xrsp_host :=
  ltac:(field_setter ql_xrsp_host_eta encode_done_ns).
Definition set_encode_duration_ns : list Z -> ql_xrsp_host -> ql_xrsp_host :=
  ltac:(field_setter ql_xrsp_host_eta encode_duration_ns).
Definition set_tx_started_ns : list Z -> ql_xrsp_host -> ql_xrsp_host :=
  ltac:(field_setter ql_xrsp_host_eta tx_started_ns).
Definition set_tx_done_ns : list Z -> ql_xrsp_host -> ql_xrsp_host :=
  ltac:(field_setter ql_xrsp_host_eta tx_done_ns).
Definition set_tx_duration_ns : list Z -> ql_xrsp_host -> ql_xrsp_host :=
  ltac:(field_setter ql_xrsp_host_eta tx_duration_ns).
Definition set_sent_mesh : bool -> ql_xrsp_host -> ql_xrsp_host :=
  ltac:(field_setter ql_xrsp_host_eta sent_mesh).
Definition set_is_inactive : bool -> ql_xrsp_host -> ql_xrsp_host :=
  ltac:(field_setter ql_xrsp_host_eta is_inactive).

Definition set_pose_ns : Z -> ql_hmd -> ql_hmd :=
  ltac:(field_setter ql_hmd_eta pose_ns).
Definition set_fps : Z -> ql_hmd -> ql_hmd :=
  ltac:(field_setter ql_hmd_eta fps).
Definition set_device_type : Z -> ql_hmd -> ql_hmd :=
  ltac:(field_setter ql_hmd_eta device_type).

(** ** The world around the host *)

Record libusb_interface_descriptor : Set := {
  bInterfaceNumber : Z;
  endpoint : list Z                  (* bEndpointAddress of each endpoint *)
}.

(** [config->interface[i].altsetting[j]] *)
Definition libusb_config_descriptor : Set :=
  list (list libusb_interface_descriptor).

(** Results of the calls that leave the program; [f k] is what the k-th
    call of [f] returns. *)
Class platform : Type := {
  os_monotonic_get_ns : nat -> Z;
  (** [libusb_bulk_transfer] on [ep_out]: return code and [sent_len] *)
  libusb_bulk_transfer_out : nat -> Z * Z;
  (** whether the handle returned is non-NULL *)
  libusb_open_device_with_vid_pid : nat -> bool;
  libusb_reset_device : nat -> Z;
  libusb_claim_interface : nat -> Z;
  libusb_get_active_config_descriptor :
    nat -> Z * option libusb_config_descriptor;
  libusb_get_device_speed : nat -> Z;
  (** [QL_OVERRIDE_FPS] *)
  debug_get_num_option_force_fps : Z;
  (** whether the build defines [XRT_HAVE_VT] *)
  XRT_HAVE_VT : bool
}.

Inductive event : Set :=
| EvLock (m : mutex_id)
| EvUnlock (m : mutex_id)
(** [xrsp_send_usb] was handed [msg]; [None] when it returned without a
    transfer, otherwise the transfer's return code and [sent_len] *)
| EvSendUsb (msg : usb_msg) (r : option (Z * Z))
| EvClose
| EvOpen (ok : bool)
| EvReset (r : Z)
| EvClaim (r : Z)
| EvClearHalt (ep : Z)
| EvSleep (ns : Z)
(** the writer found index [to_present], started at [present_ns], ready *)
| EvPresent (to_present present_ns : Z).

Record state : Set := {
  st_host : ql_xrsp_host;
  st_hmd : option ql_hmd;           (* [host->sys->hmd], NULL as [None] *)
  st_ticks : nat;                   (* clock readings taken *)
  st_bulk_out : nat;                (* OUT transfers made *)
  st_open : nat;
  st_reset : nat;
  st_claim : nat;
  st_config : nat;
  st_speed : nat;
  st_trace : list event
}.

Definition state_eta (r : state) : state :=
  Build_state (st_host r) (st_hmd r) (st_ticks r) (st_bulk_out r) (st_open r)
    (st_reset r) (st_claim r) (st_config r) (st_speed r) (st_trace r).

Definition set_st_host : ql_xrsp_host -> state -> state :=
  ltac:(field_setter state_eta st_host).
Definition set_st_hmd : option ql_hmd -> state -> state :=
  ltac:(field_setter state_eta st_hmd).
Definition set_st_ticks : nat -> state -> state :=
  ltac:(field_setter state_eta st_ticks).
Definition set_st_bulk_out : nat -> state -> state :=
  ltac:(field_setter state_eta st_bulk_out).
Definition set_st_open : nat -> state -> state :=
  ltac:(field_setter state_eta st_open).
Definition set_st_reset : nat -> state -> state :=
  ltac:(field_setter state_eta st_reset).
Definition set_st_claim : nat -> state -> state :=
  ltac:(field_setter state_eta st_claim).
Definition set_st_config : nat -> state -> state :=
  ltac:(field_setter state_eta st_config).
Definition set_st_speed : nat -> state -> state :=
  ltac:(field_setter state_eta st_speed).
Definition set_st_trace : list event -> state -> state :=
  ltac:(field_setter state_eta st_trace).

(** ** The monad *)

Inductive stuck : Set :=
| Deadlock       (* [os_mutex_lock] on a mutex that is held *)
| BusyWait       (* a spin on a flag that this thread does not clear *)
| OutOfBounds    (* an index outside its array *)
| NullDeref
| OutOfFuel.

Inductive res (A : Type) : Type :=
| Ok (a : A) (s : state)
| Stuck (w : stuck).
Arguments Ok {A} a s.
Arguments Stuck {A} w.

Definition M (A : Type) : Type := state -> res A.

#[global] Instance M_ret : MRet M := fun A a s => Ok a s.
#[global] Instance M_bind : MBind M := fun A B f m s =>
  match m s with
  | Ok a s' => f a s'
  | Stuck w => Stuck w
  end.

Definition stop {A} (w : stuck) : M A := fun _ => Stuck w.
Definition get_host {A} (f : ql_xrsp_host -> A) : M A :=
  fun s => Ok (f (st_host s)) s.
Definition set_host (f : ql_xrsp_host -> ql_xrsp_host) : M unit :=
  fun s => Ok tt (set_st_host (f (st_host s)) s).
Definition log (e : event) : M unit :=
  fun s => Ok tt (set_st_trace (st_trace s ++ [e]) s).
Definition when (b : bool) (m : M unit) : M unit :=
  if b then m else mret tt.

(** [a[i]] and [a[i] = v] for the per-slot arrays *)
Definition rd {A} (a : ql_xrsp_host -> list A) (i : Z) : M A :=
  fun s =>
    if i <? 0 then Stuck OutOfBounds
    else match a (st_host s) !! Z.to_nat i with
         | Some v => Ok v s
         | None => Stuck OutOfBounds
         end.
Definition wr {A} (a : ql_xrsp_host -> list A)
    (set_a : list A -> ql_xrsp_host -> ql_xrsp_host) (i : Z) (v : A) : M unit :=
  _ ← rd a i; set_host (fun h => set_a (<[Z.to_nat i := v]> (a h)) h).

(** ** Parts of the driver outside the sources at hand *)

(** The Cap'n Proto messages the host builds, by the fields it sets. *)
Record payload_slice : Set := {
  frameIdx : Z;
  unk0p1 : Z;
  rectifyMeshId : Z;
  poseTimestamp : Z;
  sliceNum : Z;
  unk6p1 : Z;
  unk6p2 : Z;
  unk6p3 : Z;
  blitYPos : Z;
  cropBlocks : Z;
  unk8p1 : Z;
  timestamp09 : Z;
  unkA : Z;
  timestamp0B : Z;
  timestamp0C : Z;
  timestamp0D : Z;
  csdSize : Z;
  videoSize : Z
}.

Inductive capnp_message : Set :=
| PayloadAudioControl (a b c d e : Z)
| PayloadSlice (m : payload_slice)
| PayloadRectifyMesh (meshId inputResX inputResY outputResX outputResY : Z).

Inductive ripc_call : Set :=
| ripc_ensure_service_started (client : Z) (package_name service_name : string)
| ripc_connect_to_remote_server (client : Z)
    (package_name process_name server_name : string)
| ripc_void_bool_cmd (client : Z) (command_name : string).

Class externs : Type := {
  TOPIC_HOSTINFO_ADV : Z;
  TOPIC_COMMAND : Z;
  TOPIC_AUDIO_CONTROL : Z;
  TOPIC_INPUT_CONTROL : Z;
  TOPIC_VIDEO : Z;
  TOPIC_MESH : Z;
  TOPIC_RUNTIME_IPC : Z;
  TOPIC_SLICE_0 : Z;
  ECHO_PING : Z;
  ECHO_PONG : Z;
  COMMAND_TOGGLE_CHEMX : Z;
  COMMAND_TOGGLE_ASW : Z;
  COMMAND_DROP_FRAMES_STATE : Z;
  DEVICE_TYPE_QUEST_2 : Z;
  DEVICE_TYPE_QUEST_PRO : Z;
  DEVICE_TYPE_QUEST_3 : Z;
  RIPC_FAKE_CLIENT_1 : Z;
  RIPC_FAKE_CLIENT_2 : Z;
  RIPC_FAKE_CLIENT_3 : Z;
  (** [ql_xrsp_craft_capnp(message_type, result, unk_4, payload, ...)]:
      the bytes of the crafted packet *)
  ql_xrsp_craft_capnp : builtin_msg -> Z -> Z -> list Z -> list Z;
  (** [ql_xrsp_craft_echo(result, echo_id, org, recv, xmt, offset, ...)] *)
  ql_xrsp_craft_echo : Z -> Z -> Z -> Z -> Z -> Z -> list Z;
  (** [message.getSegmentsForOutput()], each segment as its bytes *)
  getSegmentsForOutput : capnp_message -> list (list Z);
  (** the packed preamble segment and the opaque payload of an RPC *)
  ripc_segments : ripc_call -> list Z * list Z;
  (** [xrsp_read_usb], where the handshake calls it: the loop re-enters
      the dispatcher through the framer of ql_xrsp_topic.c *)
  xrsp_read_usb : M bool
}.

(** ** Primitives *)

Definition mutex_held (m : mutex_id) : M bool :=
  match m with
  | usb_mutex_id => get_host usb_mutex
  | pose_mutex_id => get_host pose_mutex
  | stream_mutex_id i => rd stream_mutex i
  end.

Definition mutex_store (m : mutex_id) (b : bool) : M unit :=
  match m with
  | usb_mutex_id => set_host (set_usb_mutex b)
  | pose_mutex_id => set_host (set_pose_mutex b)
  | stream_mutex_id i => wr stream_mutex set_stream_mutex i b
  end.

(** No other thread runs in between, so a mutex found held stays held. *)
Definition os_mutex_lock (m : mutex_id) : M unit :=
  held ← mutex_held m;
  if held : bool then stop Deadlock
  else (mutex_store m true;; log (EvLock m)).

Definition os_mutex_unlock (m : mutex_id) : M unit :=
  mutex_store m false;; log (EvUnlock m).

Definition os_nanosleep (ns : Z) : M unit := log (EvSleep ns).

Section Host.
Context {P : platform} {X : externs}.

(** [xrsp_ts_ns]: [os_monotonic_get_ns()] *)
Definition xrsp_ts_ns : M Z := fun s =>
  Ok (os_monotonic_get_ns (st_ticks s)) (set_st_ticks (S (st_ticks s)) s).

Definition libusb_bulk_transfer : M (Z * Z) := fun s =>
  Ok (libusb_bulk_transfer_out (st_bulk_out s))
     (set_st_bulk_out (S (st_bulk_out s)) s).

(** ** Sending *)

Definition xrsp_send_usb (msg : usb_msg) : M unit :=
  valid ← get_host usb_valid;
  if negb valid then log (EvSendUsb msg None)
  else
    x ← libusb_bulk_transfer;
    let r := x.1 in
    let sent_len := x.2 in
    log (EvSendUsb msg (Some (r, sent_len)));;
    if negb (r =? 0) || (sent_len =? 0) then
      if (r =? LIBUSB_ERROR_NO_DEVICE) || (r =? LIBUSB_ERROR_TIMEOUT) then
        set_host (fun h =>
          set_pairing_state PAIRINGSTATE_WAIT_FIRST (set_usb_valid false h))
      else mret tt
    else mret tt.

End Host.

(** ** The topic framer *)

(** The buffer [xrsp_send_to_topic_raw] assembles before it calls
    [xrsp_send_usb], as a function of [host->increment], the topic and the
    data.  The arithmetic is [int32_t]; callers keep [data_size] within
    [0, 0x3FFF8], where nothing wraps. *)
Definition xrsp_topic_msg (increment topic : Z) (data : list Z)
    (data_size : Z) : usb_msg :=
  let align_up_bytes := Z.shiftl (Z.shiftr (4 + data_size) 2) 2 - data_size in
  let align_up_bytes := if align_up_bytes =? 4 then 0 else align_up_bytes in
  let msg_size := data_size + align_up_bytes + sizeof_xrsp_topic_header in
  (* Sometimes we can end up with 0x4 bytes leftover, so we have to pad a
     bit extra *)
  let to_fill_check := 0x400 - Z.land (msg_size + 0x400) 0x3FF in
  let extra := (0 <=? to_fill_check) && (to_fill_check <? 8) in
  let align_up_bytes :=
    if extra then align_up_bytes + to_fill_check else align_up_bytes in
  let msg_size :=
    if extra then data_size + align_up_bytes + sizeof_xrsp_topic_header
    else msg_size in
  let header := {|
    version_maybe := 0;
    has_alignment_padding := if align_up_bytes =? 0 then 0 else 1;
    packet_version_is_internal := 1;
    packet_version_number := 0;
    topic := topic;
    unk_14_15 := 0;
    num_words := u16 (Z.shiftr (data_size + align_up_bytes) 2 + 1);
    sequence_num := increment;
    pad := 0 |} in
  let msg_payload :=
    take (Z.to_nat data_size) data ++
    (if align_up_bytes =? 0 then []
     else
       (if 1 <? align_up_bytes
        then replicate (Z.to_nat (align_up_bytes - 1)) 0xDE else []) ++
       [u8 align_up_bytes]) in
  let to_fill := 0x400 - Z.land (msg_size + 0x400) 0x3FF - 8 in
  if (to_fill <? 0x3f8) && (0 <=? to_fill) then
    let fill_header := {|
      version_maybe := 0;
      has_alignment_padding := 0;
      packet_version_is_internal := 1;
      packet_version_number := 0;
      topic := 0;
      unk_14_15 := 0;
      num_words := u16 (Z.shiftr to_fill 2 + 1);
      sequence_num := increment;
      pad := 0 |} in
    {| msg_header := header;
       msg_payload := msg_payload;
       msg_fill := Some (fill_header, to_fill);
       msg_size := msg_size + to_fill + sizeof_xrsp_topic_header |}
  else
    {| msg_header := header;
       msg_payload := msg_payload;
       msg_fill := None;
       msg_size := msg_size |}.

Section Framer.
Context {P : platform} {X : externs}.

Definition xrsp_send_to_topic_raw (topic : Z) (data : list Z)
    (data_size : Z) : M unit :=
  seq ← get_host increment;
  xrsp_send_usb (xrsp_topic_msg seq topic data data_size);;
  set_host (fun h => set_increment (u16 (increment h + 1)) h).

(** The [while (true)] of [xrsp_send_to_topic]; [data + idx] is
    [drop idx data].  One unit of fuel per iteration. *)
Fixpoint xrsp_send_to_topic_loop (fuel : nat) (topic : Z) (data : list Z)
    (idx to_send : Z) : M unit :=
  match fuel with
  | O => stop OutOfFuel
  | S fuel =>
      if idx >=? to_send then mret tt
      else
        let amt := 0x3FFF8 in
        let amt := if i32 (idx + amt) >=? to_send then to_send - idx else amt in
        xrsp_send_to_topic_raw topic (drop (Z.to_nat idx) data) amt;;
        xrsp_send_to_topic_loop fuel topic data (i32 (idx + amt)) to_send
  end.

(** [xrsp_send_to_topic(host, topic, data, data_size)].  Every iteration
    advances [idx] by at least one, so [data_size + 1] iterations are
    enough ([xrsp_send_to_topic_loop_fuel] below). *)
Definition xrsp_send_to_topic (topic : Z) (data : list Z)
    (data_size : Z) : M unit :=
  os_mutex_lock usb_mutex_id;;
  if data_size <=? 0 then mret tt
  else
    xrsp_send_to_topic_loop (Z.to_nat (data_size + 1)) topic data 0 data_size;;
    os_mutex_unlock usb_mutex_id.

Definition le32 (x : Z) : list Z :=
  [Z.land x 0xFF; Z.land (Z.shiftr x 8) 0xFF; Z.land (Z.shiftr x 16) 0xFF;
   Z.land (Z.shiftr x 24) 0xFF].
Definition le64 (x : Z) : list Z :=
  le32 (Z.land x 0xFFFFFFFF) ++ le32 (Z.shiftr x 32).

Definition xrsp_send_to_topic_capnp_wrapped (topic idx : Z) (data : list Z)
    (data_size : Z) : M unit :=
  let preamble := le32 idx ++ le32 (Z.shiftr (Z.land data_size 0xFFFFFFFF) 3) in
  xrsp_send_to_topic topic preamble (4 * 2);;
  xrsp_send_to_topic topic data data_size.

Fixpoint send_each (topic : Z) (segs : list (list Z)) : M unit :=
  match segs with
  | [] => mret tt
  | seg :: segs =>
      xrsp_send_to_topic topic seg (i32 (Z.of_nat (length seg)));;
      send_each topic segs
  end.

(** Segment sizes are [data[i].size() * sizeof(uint64_t)]. *)
Definition xrsp_send_to_topic_capnp_segments (topic idx : Z)
    (data : list (list Z)) : M unit :=
  let num_segments := Z.of_nat (length data) in
  let preamble :=
    le32 idx ++
    concat (map (fun seg => le32 (Z.shiftr (Z.of_nat (length seg)) 3)) data) in
  xrsp_send_to_topic topic preamble (i32 (4 * (num_segments + 1)));;
  send_each topic data.

End Framer.

(** ** Echo and the handshake *)

Definition size_of (l : list Z) : Z := Z.of_nat (length l).

(** A run of [0x00] bytes in an initializer *)
Definition zeros (n : nat) : list Z := replicate n 0x00.

Definition get_hmd : M ql_hmd := fun s =>
  match st_hmd s with
  | Some hmd => Ok hmd s
  | None => Stuck NullDeref
  end.

(** [host->sys && host->sys->hmd] *)
Definition has_hmd : M bool := fun s =>
  Ok (match st_hmd s with Some _ => true | None => false end) s.

Definition set_hmd (f : ql_hmd -> ql_hmd) : M unit := fun s =>
  match st_hmd s with
  | Some hmd => Ok tt (set_st_hmd (Some (f hmd)) s)
  | None => Stuck NullDeref
  end.

Section Handshake.
Context {P : platform} {X : externs}.

Definition xrsp_reset_echo : M unit :=
  set_host (set_echo_idx 1);;
  set_host (set_ns_offset 0);;
  set_host (set_ns_offset_from_target 0);;
  set_host (set_last_xmt 0);;
  set_host (set_echo_req_sent_ns 0);;
  set_host (set_echo_req_recv_ns 0);;
  set_host (set_echo_resp_sent_ns 0);;
  set_host (set_echo_resp_recv_ns 0);;
  set_host (set_frame_sent_ns 0);;
  set_host (set_add_test 0);;
  set_host (set_sent_mesh false);;
  set_host (set_is_inactive false);;
  (* the segmented-packet contexts are destroyed and re-created here *)
  hmd ← has_hmd;
  when hmd (now ← xrsp_ts_ns; set_hmd (set_pose_ns now)).

Definition xrsp_ts_ns_from_target (ts : Z) : M Z :=
  ns_offset ← get_host ns_offset; mret (ts - ns_offset).

Definition xrsp_ts_ns_to_target (ts : Z) : M Z :=
  ns_offset ← get_host ns_offset; mret (ts + ns_offset).

Definition xrsp_send_ping : M unit :=
  now ← xrsp_ts_ns;
  sent ← get_host echo_req_sent_ns;
  if now - sent <? 16000000 then mret tt
  else
    now ← xrsp_ts_ns;
    set_host (set_echo_req_sent_ns now);;
    h ← get_host id;
    let request_echo_ping :=
      ql_xrsp_craft_echo ECHO_PING (echo_idx h) 0 0 (echo_req_sent_ns h)
        (ns_offset h) in
    xrsp_send_to_topic TOPIC_HOSTINFO_ADV request_echo_ping
      (size_of request_echo_ping);;
    set_host (fun h => set_echo_idx (echo_idx h + 1) h).

Definition xrsp_handle_echo (pkt : ql_xrsp_hostinfo_pkt) : M unit :=
  let payload := payload pkt in
  if Z.land (result pkt) 1 =? 1 then (* PONG *)
    set_host (set_echo_req_recv_ns (recv payload));;
    set_host (set_echo_resp_sent_ns (xmt payload));;
    set_host (set_echo_resp_recv_ns (recv_ns pkt));;
    now ← xrsp_ts_ns;
    set_host (set_echo_req_sent_ns now);;
    h ← get_host id;
    let calc_ns_offset :=
      Z.shiftr ((echo_req_recv_ns h - echo_req_sent_ns h)
                + (echo_resp_sent_ns h - recv_ns pkt)) 1 in
    (if ns_offset h =? 0 then set_host (set_ns_offset calc_ns_offset)
     else set_host (set_ns_offset (Z.quot (ns_offset h + calc_ns_offset) 2)));;
    state ← get_host pairing_state;
    when (bool_decide (state = PAIRINGSTATE_PAIRED)) xrsp_send_ping
  else (* PING *)
    set_host (set_last_xmt (xmt payload));;
    when (negb (offset payload =? 0))
      (set_host (set_ns_offset_from_target (offset payload));;
       set_host (fun h =>
         set_ns_offset (Z.quot (ns_offset h - ns_offset_from_target h) 2) h));;
    send_xmt ← xrsp_ts_ns;
    h ← get_host id;
    let request_echo_ping :=
      ql_xrsp_craft_echo ECHO_PONG (unk_4 pkt) (last_xmt h) (recv_ns pkt)
        send_xmt (ns_offset h) in
    xrsp_send_to_topic TOPIC_HOSTINFO_ADV request_echo_ping
      (size_of request_echo_ping);;
    state ← get_host pairing_state;
    when (bool_decide (state = PAIRINGSTATE_PAIRED)) xrsp_send_ping.

(** The integer part of [xrsp_handle_invite]: device type and frame rate.
    The field of view and the per-eye resolution are floating point and
    go to HMD fields that are not modelled. *)
Definition xrsp_handle_invite (pkt : ql_xrsp_hostinfo_pkt) : M unit :=
  match host_info pkt with
  | None => mret tt                  (* catch (...) *)
  | Some description =>
      _ ← get_hmd;
      os_mutex_lock pose_mutex_id;;
      set_hmd (set_device_type (deviceType description));;
      set_hmd (fun hmd =>
        if device_type hmd =? DEVICE_TYPE_QUEST_2 then set_fps 120 hmd
        else if device_type hmd =? DEVICE_TYPE_QUEST_PRO then set_fps 90 hmd
        else if device_type hmd =? DEVICE_TYPE_QUEST_3 then set_fps 90 hmd
        else set_fps 72 hmd);;
      slow ← get_host usb_slow_cable;
      when slow
        (set_hmd (fun hmd =>
           if device_type hmd =? DEVICE_TYPE_QUEST_2 then set_fps 90 hmd
           else hmd));;
      let fps_override := debug_get_num_option_force_fps in
      when (0 <? fps_override) (set_hmd (set_fps fps_override));;
      os_mutex_unlock pose_mutex_id
  end.

End Handshake.

Section Pairing.
Context {P : platform} {X : externs}.

Definition xrsp_init_session (pkt : ql_xrsp_hostinfo_pkt) : M unit :=
  let response_ok_payload :=
    [0x00; 0x00; 0x00; 0x00; 0x03; 0x00; 0x03; 0x00] ++
    [0x01; 0x00; 0x00; 0x00; 0x00; 0x00; 0x00; 0x00] ++
    zeros 24 ++
    [0x05; 0x00; 0x00; 0x00; 0x2B; 0x00; 0x00; 0x00] ++
    zeros 8 ++
    [0x01; 0x00; 0x03; 0x00; 0x02; 0x00; 0x04; 0x00] ++
    zeros 8 in
  let response_ok :=
    ql_xrsp_craft_capnp BUILTIN_OK 0x2C8 1 response_ok_payload in
  xrsp_send_to_topic TOPIC_HOSTINFO_ADV response_ok (size_of response_ok).

Definition xrsp_send_codegen_1 (pkt : ql_xrsp_hostinfo_pkt) : M unit :=
  let response_codegen_payload :=
    [0x00; 0x00; 0x00; 0x00; 0x01; 0x00; 0x01; 0x00] ++
    [0x01; 0x00; 0x00; 0x00; 0x00; 0x00; 0x00; 0x00] ++
    zeros 8 in
  let response_codegen :=
    ql_xrsp_craft_capnp BUILTIN_CODE_GENERATION 0xC8 1
      response_codegen_payload in
  xrsp_send_to_topic TOPIC_HOSTINFO_ADV response_codegen
    (size_of response_codegen).

Definition xrsp_send_pairing_1 (pkt : ql_xrsp_hostinfo_pkt) : M unit :=
  let response_pairing_payload :=
    [0x00; 0x00; 0x00; 0x00; 0x01; 0x00; 0x00; 0x00] ++
    [0x01; 0x00; 0x01; 0x00; 0x00; 0x00; 0x00; 0x00] in
  let response_pairing :=
    ql_xrsp_craft_capnp BUILTIN_PAIRING 0xC8 1 response_pairing_payload in
  xrsp_send_to_topic TOPIC_HOSTINFO_ADV response_pairing
    (size_of response_pairing).

Definition request_video_idk : list Z :=
  [0x00; 0x00; 0x00; 0x00; 0x01; 0x00; 0x00; 0x00] ++
  [0x02; 0x00; 0x00; 0x00; 0x00; 0x00; 0x00; 0x00].

Definition xrsp_trigger_bye : M unit :=
  xrsp_send_to_topic_capnp_wrapped TOPIC_VIDEO 0 request_video_idk
    (size_of request_video_idk).

Definition xrsp_finish_pairing_1 (pkt : ql_xrsp_hostinfo_pkt) : M unit :=
  xrsp_send_ping;;
  xrsp_send_to_topic_capnp_wrapped TOPIC_VIDEO 0 request_video_idk
    (size_of request_video_idk).

Definition xrsp_init_session_2 (pkt : ql_xrsp_hostinfo_pkt) : M unit :=
  xrsp_reset_echo;;
  _ ← xrsp_read_usb;
  hmd ← get_hmd;
  num_slices ← get_host num_slices;
  let fps := u8 (fps hmd) in
  let session_type := 0x03 in
  let error_code := 0x01 in
  (* 0x0 = AVC/H264, 0x1 = HEVC/H265 *)
  let encoding_type := if XRT_HAVE_VT then 0x1 else 0x0 in
  let response_ok_2_payload :=
    [0x00; 0x00; 0x00; 0x00; 0x03; 0x00; 0x03; 0x00] ++
    [session_type; 0x00; error_code; 0x00; 0x1F; 0x00; encoding_type; 0x00] ++
    [u8 (Z.land num_slices 0xF); 0x00; 0x00; 0x00; 0x00; 0x00; 0x00; 0x00] ++
    [fps; 0x00; 0x00; 0x00; 0x00; 0x00; 0x00; 0x00] ++
    zeros 8 ++
    [0x09; 0x00; 0x00; 0x00; 0x1B; 0x00; 0x00; 0x00] ++
    [0x01; 0x00; 0x00; 0x00; 0x2A; 0x00; 0x00; 0x00] ++
    [0x55; 0x53; 0x42; 0x33; 0x00; 0x00; 0x00; 0x00] ++
    [0x01; 0x00; 0x03; 0x00; 0x02; 0x00; 0x00; 0x00] in
  let response_ok_2 :=
    ql_xrsp_craft_capnp BUILTIN_OK 0x2C8 1 response_ok_2_payload in
  xrsp_send_to_topic TOPIC_HOSTINFO_ADV response_ok_2 (size_of response_ok_2).

Definition xrsp_send_codegen_2 (pkt : ql_xrsp_hostinfo_pkt) : M unit :=
  let response_codegen_payload :=
    [0x00; 0x00; 0x00; 0x00; 0x01; 0x00; 0x01; 0x00] ++
    [0x03; 0x00; 0x00; 0x00; 0x00; 0x00; 0x00; 0x00] ++
    zeros 8 in
  let response_codegen :=
    ql_xrsp_craft_capnp BUILTIN_CODE_GENERATION 0xC8 1
      response_codegen_payload in
  xrsp_send_to_topic TOPIC_HOSTINFO_ADV response_codegen
    (size_of response_codegen).

Definition xrsp_send_pairing_2 (pkt : ql_xrsp_hostinfo_pkt) : M unit :=
  let response_pairing_payload :=
    [0x00; 0x00; 0x00; 0x00; 0x01; 0x00; 0x00; 0x00] ++
    [0x03; 0x00; 0x00; 0x00; 0x00; 0x00; 0x00; 0x00] in
  let response_pairing :=
    ql_xrsp_craft_capnp BUILTIN_PAIRING 0xC8 1 response_pairing_payload in
  xrsp_send_to_topic TOPIC_HOSTINFO_ADV response_pairing
    (size_of response_pairing).

(** [struct cmd_pkt_idk], as it lies in memory (little endian, 32 bytes) *)
Definition cmd_pkt_idk (a cmd_idx b c d e f : Z) : list Z :=
  le64 a ++ le32 cmd_idx ++ le32 b ++ le32 c ++ le32 d ++ le32 e ++ le32 f.

Definition xrsp_send_mesh : M unit :=
  hmd ← get_hmd;
  let out :=
    getSegmentsForOutput
      (PayloadRectifyMesh QL_MESH_FOVEATED (encode_width hmd)
         (encode_height hmd) (encode_width hmd) (encode_height hmd)) in
  xrsp_send_to_topic_capnp_segments TOPIC_MESH 2 out;;
  set_host (set_sent_mesh true).

Definition xrsp_send_audio_control (a b c d e : Z) : M unit :=
  let out := getSegmentsForOutput (PayloadAudioControl a b c d e) in
  xrsp_send_to_topic_capnp_segments TOPIC_AUDIO_CONTROL 0 out.

Definition xrsp_send_input_control (a b c d e : Z) : M unit :=
  let out := getSegmentsForOutput (PayloadAudioControl a b c d e) in
  xrsp_send_to_topic_capnp_segments TOPIC_INPUT_CONTROL 0 out.

(** Modelled from the spec: the RPC helpers [xrsp_ripc_ensure_service_started],
    [xrsp_ripc_connect_to_remote_server] and [xrsp_ripc_void_bool_cmd]
    (ql_xrsp_ipc.c is not among the sources).  An RPC is a two-segment
    message on [TOPIC_RUNTIME_IPC], a preamble followed by an opaque
    payload, and goes out through the topic framer. *)
Definition xrsp_send_ripc (call : ripc_call) : M unit :=
  let preamble := (ripc_segments call).1 in
  let data := (ripc_segments call).2 in
  xrsp_send_to_topic_capnp_wrapped TOPIC_RUNTIME_IPC 0 preamble
    (size_of preamble);;
  xrsp_send_to_topic TOPIC_RUNTIME_IPC data (size_of data).

End Pairing.

Section HostInfo.
Context {P : platform} {X : externs}.

Definition xrsp_finish_pairing_2 (pkt : ql_xrsp_hostinfo_pkt) : M unit :=
  let send_cmd_chemx_toggle :=
    cmd_pkt_idk 0x0005EC94E91B9D4F COMMAND_TOGGLE_CHEMX 0 0 0 0 0 in
  let send_cmd_asw_toggle :=
    cmd_pkt_idk 0x0005EC94E91B9D83 COMMAND_TOGGLE_ASW 0 0 0 0 0 in
  let send_cmd_dropframestate_disable :=
    cmd_pkt_idk 0x0005EC94E91B9D83 COMMAND_DROP_FRAMES_STATE 0 1 0 0 0 in
  xrsp_send_ping;;
  xrsp_send_audio_control 1 1 0 0 0;;
  xrsp_send_to_topic TOPIC_COMMAND send_cmd_chemx_toggle
    (size_of send_cmd_chemx_toggle);;
  xrsp_send_to_topic TOPIC_COMMAND send_cmd_asw_toggle
    (size_of send_cmd_asw_toggle);;
  xrsp_send_to_topic TOPIC_COMMAND send_cmd_dropframestate_disable
    (size_of send_cmd_dropframestate_disable);;
  xrsp_send_input_control 1 1 0 0 0;; (* Hands enable *)
  xrsp_send_input_control 2 1 0 0 0;; (* Body enable *)
  client_id ← get_host client_id;
  xrsp_send_ripc
    (ripc_ensure_service_started client_id "com.oculus.systemdriver"
       "com.oculus.vrruntimeservice.VrRuntimeService");;
  xrsp_send_ripc
    (ripc_connect_to_remote_server RIPC_FAKE_CLIENT_1
       "com.oculus.systemdriver" "com.oculus.vrruntimeservice"
       "RuntimeServiceServer");;
  xrsp_send_ripc
    (ripc_ensure_service_started (client_id + 1) "com.oculus.bodyapiservice"
       "com.oculus.bodyapiservice.BodyApiService");;
  xrsp_send_ripc
    (ripc_connect_to_remote_server RIPC_FAKE_CLIENT_2
       "com.oculus.bodyapiservice" "com.oculus.bodyapiservice"
       "BodyApiServiceServer");;
  xrsp_send_ripc
    (ripc_ensure_service_started (client_id + 2) "com.oculus.bodyapiservice"
       "com.oculus.eyetrackingservice.EyeTrackingService");;
  xrsp_send_ripc
    (ripc_connect_to_remote_server RIPC_FAKE_CLIENT_3
       "com.oculus.bodyapiservice" "com.oculus.eyetrackingservice"
       "EyeTrackingServiceServer");;
  xrsp_send_mesh.

(** [hostinfo] is what [ql_xrsp_hostinfo_pkt_create] makes of
    [host->working_pkt]. *)
Definition xrsp_handle_hostinfo_adv (hostinfo : ql_xrsp_hostinfo_pkt)
    : M unit :=
  if bool_decide (message_type hostinfo = BUILTIN_ECHO) then
    xrsp_handle_echo hostinfo
  else
    (* Pull lens and distortion info *)
    when (bool_decide (message_type hostinfo = BUILTIN_INVITE))
      (xrsp_handle_invite hostinfo);;
    state ← get_host pairing_state;
    match state with
    | PAIRINGSTATE_WAIT_FIRST =>
        match message_type hostinfo with
        | BUILTIN_INVITE => xrsp_init_session hostinfo
        | BUILTIN_ACK => xrsp_send_codegen_1 hostinfo
        | BUILTIN_CODE_GENERATION_ACK => xrsp_send_pairing_1 hostinfo
        | BUILTIN_PAIRING_ACK =>
            xrsp_finish_pairing_1 hostinfo;;
            set_host (set_pairing_state PAIRINGSTATE_WAIT_SECOND)
        | _ => mret tt
        end
    | PAIRINGSTATE_WAIT_SECOND | PAIRINGSTATE_PAIRING =>
        match message_type hostinfo with
        | BUILTIN_INVITE =>
            set_host (set_pairing_state PAIRINGSTATE_PAIRING);;
            xrsp_init_session_2 hostinfo
        | BUILTIN_ACK => xrsp_send_codegen_2 hostinfo
        | BUILTIN_CODE_GENERATION_ACK => xrsp_send_pairing_2 hostinfo
        | BUILTIN_PAIRING_ACK =>
            xrsp_finish_pairing_2 hostinfo;;
            set_host (set_pairing_state PAIRINGSTATE_PAIRED);;
            now ← xrsp_ts_ns;
            set_host (set_paired_ns now)
        | _ => mret tt
        end
    | PAIRINGSTATE_PAIRED => mret tt
    end.

End HostInfo.

(** ** Opening and resetting the device *)

Section UsbInit.
Context {P : platform} {X : externs}.

Definition libusb_close : M unit := log EvClose.

Definition libusb_open : M bool := fun s =>
  let ok := libusb_open_device_with_vid_pid (st_open s) in
  Ok ok (set_st_trace (st_trace s ++ [EvOpen ok]) (set_st_open (S (st_open s)) s)).

Definition libusb_reset : M Z := fun s =>
  let r := libusb_reset_device (st_reset s) in
  Ok r (set_st_trace (st_trace s ++ [EvReset r])
          (set_st_reset (S (st_reset s)) s)).

Definition libusb_claim : M Z := fun s =>
  let r := libusb_claim_interface (st_claim s) in
  Ok r (set_st_trace (st_trace s ++ [EvClaim r])
          (set_st_claim (S (st_claim s)) s)).

Definition libusb_config : M (Z * option libusb_config_descriptor) := fun s =>
  Ok (libusb_get_active_config_descriptor (st_config s))
     (set_st_config (S (st_config s)) s).

Definition libusb_speed : M Z := fun s =>
  Ok (libusb_get_device_speed (st_speed s)) (set_st_speed (S (st_speed s)) s).

Definition libusb_clear_halt (ep : Z) : M unit := log (EvClearHalt ep).

(** [for (int i = 0; i < 10; i++)], with [n] iterations left *)
Fixpoint usb_init_reopen (n : nat) : M unit :=
  match n with
  | O => mret tt
  | S n =>
      (* Re-initialize the device *)
      ok ← libusb_open;
      set_host (set_dev ok);;
      if ok : bool then mret tt
      else (os_nanosleep (U_TIME_1MS_IN_NS * 500);; usb_init_reopen n)
  end.

(** The two endpoint-selection branches, for one endpoint *)
Definition usb_init_endpoint (bEndpointAddress : Z) : M unit :=
  h ← get_host id;
  if (ep_out h =? 0) && (Z.land bEndpointAddress LIBUSB_ENDPOINT_IN =? 0)
  then set_host (set_ep_out bEndpointAddress)
  else if (ep_in h =? 0)
          && negb (Z.land bEndpointAddress LIBUSB_ENDPOINT_IN =? 0)
  then set_host (set_ep_in bEndpointAddress)
  else mret tt.

Fixpoint usb_init_endpoints (eps : list Z) : M unit :=
  match eps with
  | [] => mret tt
  | ep :: eps => usb_init_endpoint ep;; usb_init_endpoints eps
  end.

Definition usb_init_cleanup : M Z :=
  os_mutex_unlock usb_mutex_id;; mret (-1).

(** The function from [libusb_claim_interface] on *)
Definition usb_init_claim : M Z :=
  ret ← libusb_claim;
  if ret <? 0 then
    (* Reset, there's probably something weird. *)
    _ ← libusb_reset; usb_init_cleanup
  else
    cfg ← libusb_config;
    match cfg.2 with
    | None => usb_init_cleanup
    | Some config =>
        if cfg.1 <? 0 then usb_init_cleanup
        else
          if_num ← get_host if_num;
          match List.find (fun pIfIt => bInterfaceNumber pIfIt =? if_num)
                  (concat config) with
          | None => stop NullDeref
          | Some pIf =>
              set_host (set_ep_out 0);;
              set_host (set_ep_in 0);;
              usb_init_endpoints (endpoint pIf);;
              set_host (set_usb_slow_cable false);;
              speed ← libusb_speed;
              set_host (set_usb_speed speed);;
              (if (speed =? LIBUSB_SPEED_SUPER)
                  || (speed =? LIBUSB_SPEED_SUPER_PLUS)
               then mret tt
               else set_host (set_usb_slow_cable true));;
              h ← get_host id;
              libusb_clear_halt (ep_in h);;
              libusb_clear_halt (ep_out h);;
              libusb_clear_halt (ep_in h);;
              libusb_clear_halt (ep_out h);;
              set_host (set_usb_valid true);;
              os_mutex_unlock usb_mutex_id;;
              mret 0
          end
    end.

Definition ql_xrsp_usb_init (do_reset : bool) : M Z :=
  os_mutex_lock usb_mutex_id;;
  open ← get_host dev;
  when open libusb_close;;
  set_host (set_usb_speed LIBUSB_SPEED_LOW);;
  set_host (set_usb_valid false);;
  set_host (set_pairing_state PAIRINGSTATE_WAIT_FIRST);;
  set_host (set_ready_to_send_frames false);;
  set_host (set_sent_first_frame false);;
  ok ← libusb_open;
  set_host (set_dev ok);;
  if negb ok then usb_init_cleanup
  else if do_reset then
    ret ← libusb_reset;
    if ret =? LIBUSB_ERROR_NOT_FOUND then
      (* We're reconnecting anyhow. *)
      usb_init_reopen 10;;
      open ← get_host dev;
      if negb open then usb_init_cleanup else usb_init_claim
    else if negb (ret =? LIBUSB_SUCCESS) then usb_init_cleanup
    else
      libusb_close;;
      usb_init_reopen 10;;
      open ← get_host dev;
      if negb open then usb_init_cleanup else usb_init_claim
  else usb_init_claim.

(** One turn of the loop of [ql_xrsp_read_thread] *)
Definition ql_xrsp_read_thread_iter : M unit :=
  now ← xrsp_ts_ns;
  h ← get_host id;
  when ((now - last_read_ns h >? 1000000000)
        && bool_decide (pairing_state h = PAIRINGSTATE_WAIT_FIRST)
        && negb (usb_valid h))
    (_ ← ql_xrsp_usb_init false;
     now ← xrsp_ts_ns;
     set_host (set_last_read_ns now));;
  _ ← xrsp_read_usb;
  os_nanosleep (U_TIME_1MS_IN_NS / 10).

End UsbInit.

(** ** The video pipeline: the encoder's side *)

(** [memcpy(buf + off, data, data_len)] on the bytes written so far *)
Definition memcpy_at (buf : list Z) (off : Z) (data : list Z) : list Z :=
  take (Z.to_nat off) buf ++ data
  ++ drop (Z.to_nat off + length data) buf.

Section Pipeline.
Context {P : platform} {X : externs}.

Definition xrsp_flush_stream (target_ns index slice_idx : Z) : M unit :=
  ready ← get_host ready_to_send_frames;
  if negb ready then mret tt
  else
    let stream_write_idx := QL_IDX_SLICE slice_idx index in
    now ← xrsp_ts_ns;
    wr encode_done_ns set_encode_done_ns stream_write_idx now;;
    os_mutex_lock (stream_mutex_id stream_write_idx);;
    csd_len ← rd csd_stream_len stream_write_idx;
    idr_len ← rd idr_stream_len stream_write_idx;
    if negb (csd_len =? 0) || negb (idr_len =? 0) then
      wr needs_flush set_needs_flush stream_write_idx true;;
      wr stream_started_ns set_stream_started_ns stream_write_idx target_ns;;
      done ← rd encode_done_ns stream_write_idx;
      started ← rd encode_started_ns stream_write_idx;
      wr encode_duration_ns set_encode_duration_ns stream_write_idx
        (done - started);;
      os_mutex_unlock (stream_mutex_id stream_write_idx)
    else os_mutex_unlock (stream_mutex_id stream_write_idx).

(** [while (host->needs_flush[write_index]) os_nanosleep(...)]: only the
    writer clears the flag. *)
Definition wait_flushed (write_index : Z) : M unit :=
  busy ← rd needs_flush write_index;
  if busy : bool then stop BusyWait else mret tt.

Definition xrsp_start_encode (target_ns index slice_idx : Z) : M unit :=
  let write_index := QL_IDX_SLICE slice_idx index in
  wait_flushed write_index;;
  os_mutex_lock (stream_mutex_id write_index);;
  now ← xrsp_ts_ns;
  wr encode_started_ns set_encode_started_ns write_index now;;
  _ ← get_hmd;
  (* the tracked head pose at [target_ns] goes to [stream_poses] *)
  wr stream_pose_ns set_stream_pose_ns write_index target_ns;;
  os_mutex_unlock (stream_mutex_id write_index).

(** [data_len] is the length of [data]; lengths are [size_t]. *)
Definition xrsp_send_csd (data : list Z) (index slice_idx : Z) : M unit :=
  let data_len := size_of data in
  let write_index := QL_IDX_SLICE slice_idx index in
  wait_flushed write_index;;
  os_mutex_lock (stream_mutex_id write_index);;
  len ← rd csd_stream_len write_index;
  when (u64 (len + data_len) <? 0x1000000)
    (buf ← rd csd_stream write_index;
     wr csd_stream set_csd_stream write_index (memcpy_at buf len data);;
     wr csd_stream_len set_csd_stream_len write_index (u64 (len + data_len)));;
  os_mutex_unlock (stream_mutex_id write_index).

Definition xrsp_send_idr (data : list Z) (index slice_idx : Z) : M unit :=
  let data_len := size_of data in
  let write_index := QL_IDX_SLICE slice_idx index in
  wait_flushed write_index;;
  os_mutex_lock (stream_mutex_id write_index);;
  len ← rd idr_stream_len write_index;
  when (u64 (len + data_len) <? 0x1000000)
    (buf ← rd idr_stream write_index;
     wr idr_stream set_idr_stream write_index (memcpy_at buf len data);;
     wr idr_stream_len set_idr_stream_len write_index (u64 (len + data_len)));;
  os_mutex_unlock (stream_mutex_id write_index).

End Pipeline.

(** ** The video pipeline: the writer's side *)

Section Writer.
Context {P : platform} {X : externs}.

(** [frame_started_ns] and [blit_y_pos] are passed and never used.  The
    captured pose (floating point) is left out of the slice message. *)
Definition xrsp_send_video (index slice_idx frame_idx frame_started_ns : Z)
    (csd_dat : list Z) (csd_len : Z) (video_dat : list Z) (video_len : Z)
    (blit_y_pos : Z) : M unit :=
  sending_pose_ns ← rd stream_pose_ns (QL_IDX_SLICE 0 index);
  let read_index := QL_IDX_SLICE slice_idx index in
  h ← get_host id;
  (* Pause frame sending *)
  if negb (bool_decide (pairing_state h = PAIRINGSTATE_PAIRED))
     || negb (ready_to_send_frames h)
  then
    wr tx_started_ns set_tx_started_ns read_index 0;;
    wr tx_done_ns set_tx_done_ns read_index 0;;
    wr tx_duration_ns set_tx_duration_ns read_index 0
  else
    _ ← xrsp_ts_ns;                  (* roundtrip_ns *)
    _ ← xrsp_ts_ns;                  (* last_roundtrip *)
    ts_before ← xrsp_ts_ns;
    wr tx_started_ns set_tx_started_ns read_index ts_before;;
    let bits := 0 in
    let bits := if 0 <? csd_len then Z.lor bits 1 else bits in
    let bits :=
      if slice_idx =? num_slices h - 1 then Z.lor bits 2 else bits in
    hmd ← get_hmd;
    encode_done ← rd encode_done_ns (QL_IDX_SLICE slice_idx index);
    encode_started ← rd encode_started_ns (QL_IDX_SLICE 0 index);
    let pipeline_pred_delta_ma := u64 (encode_done - encode_started) in
    (* [(uint64_t)(1000000000.0/hmd->fps)], for a whole frame rate *)
    let duration_a := 1000000000 / fps hmd in
    let duration_c := pipeline_pred_delta_ma in
    let duration_b := u64 (duration_a + duration_c) in
    base_ts ← xrsp_ts_ns_to_target encode_started;
    let base_ts := u64 base_ts in
    tx_start_ts ← rd tx_started_ns (QL_IDX_SLICE 0 index);
    pose_ts ← xrsp_ts_ns_to_target sending_pose_ns;
    tx_ts ← xrsp_ts_ns_to_target tx_start_ts;
    let msg := {|
      frameIdx := frame_idx;
      unk0p1 := 0;
      rectifyMeshId := QL_MESH_FOVEATED;
      poseTimestamp := pose_ts;
      sliceNum := slice_idx;
      unk6p1 := bits;
      unk6p2 := 0;
      unk6p3 := 0;
      blitYPos := Z.quot (encode_height hmd) (num_slices h) * slice_idx;
      cropBlocks := Z.quot (Z.quot (encode_height hmd) 16) (num_slices h);
      unk8p1 := 0;
      timestamp09 := u64 (tx_ts - pipeline_pred_delta_ma);
      unkA := pipeline_pred_delta_ma;
      timestamp0B := u64 (base_ts + duration_a + duration_b + duration_c);
      timestamp0C := u64 (base_ts + duration_a + duration_b);
      timestamp0D := u64 (base_ts + duration_a);
      csdSize := csd_len;
      videoSize := video_len |} in
    let out := getSegmentsForOutput (PayloadSlice msg) in
    (* The first frame of every session *must* be a keyframe with a CSD. *)
    let should_send :=
      if (csd_len =? 0) && negb (sent_first_frame h) then 0 else 1 in
    when (negb (should_send =? 0))
      (xrsp_send_to_topic_capnp_segments (u8 (TOPIC_SLICE_0 + slice_idx)) 0 out;;
       when (negb (csd_len =? 0))
         (xrsp_send_to_topic (u8 (TOPIC_SLICE_0 + slice_idx)) csd_dat
            (i32 csd_len));;
       xrsp_send_to_topic (u8 (TOPIC_SLICE_0 + slice_idx)) video_dat
         (i32 video_len);;
       set_host (set_sent_first_frame true));;
    ts_after ← xrsp_ts_ns;
    wr tx_done_ns set_tx_done_ns read_index ts_after;;
    wr tx_duration_ns set_tx_duration_ns read_index (ts_after - ts_before);;
    xrsp_send_ripc
      (ripc_void_bool_cmd (client_id h) "EnableEyeTrackingForPCLink").

End Writer.

Section WriteThread.
Context {P : platform} {X : externs}.

(** [for (int i = 0; i < n; i++) acc = body(i, acc)] *)
Fixpoint for_up {S : Type} (range : list Z) (body : Z -> S -> M S) (acc : S)
    : M S :=
  match range with
  | [] => mret acc
  | i :: range => acc ← body i acc; for_up range body acc
  end.

(** One turn of the scan for the frame to present, for the index [i];
    [acc] is [(present_ns, to_present)]. *)
Definition write_thread_select_turn (i : Z) (acc : Z * Z) : M (Z * Z) :=
  let '(present_ns, to_present) := acc in
  all_slices_present ←
    for_up (seqZ 0 QL_NUM_SLICES)
      (fun j all_slices_present =>
         let full_idx := QL_IDX_SLICE j i in
         os_mutex_lock (stream_mutex_id full_idx);;
         flush ← rd needs_flush full_idx;
         os_mutex_unlock (stream_mutex_id full_idx);;
         mret (if negb flush then false else all_slices_present))
      true;
  let first_idx := QL_IDX_SLICE 0 i in
  os_mutex_lock (stream_mutex_id first_idx);;
  started ← rd stream_started_ns first_idx;
  os_mutex_unlock (stream_mutex_id first_idx);;
  mret (if (all_slices_present : bool) && (started <? present_ns)
        then (started, i) else (present_ns, to_present)).

(** The scan: [(present_ns, to_present)] *)
Definition write_thread_select : M (Z * Z) :=
  for_up (seqZ 0 QL_SWAPCHAIN_DEPTH) write_thread_select_turn (INT64_MAX, -1).

(** The body of [if (to_present >= 0)] *)
Definition write_thread_present (to_present present_ns : Z) : M unit :=
  log (EvPresent to_present present_ns);;
  for_up (seqZ 0 QL_NUM_SLICES)
    (fun slice _ =>
       let to_present_idx := QL_IDX_SLICE slice to_present in
       os_mutex_lock (stream_mutex_id to_present_idx);;
       csd_len ← rd csd_stream_len to_present_idx;
       idr_len ← rd idr_stream_len to_present_idx;
       when (negb (csd_len =? 0) || negb (idr_len =? 0))
         (csd ← rd csd_stream to_present_idx;
          idr ← rd idr_stream to_present_idx;
          frame_idx ← get_host frame_idx;
          xrsp_send_video to_present slice frame_idx present_ns csd csd_len
            idr idr_len 0);;
       when (slice =? 0)
         (now ← xrsp_ts_ns; set_host (set_frame_sent_ns now));;
       wr csd_stream_len set_csd_stream_len to_present_idx 0;;
       wr idr_stream_len set_idr_stream_len to_present_idx 0;;
       wr needs_flush set_needs_flush to_present_idx false;;
       os_mutex_unlock (stream_mutex_id to_present_idx))
    tt;;
  set_host (fun h => set_frame_idx (i32 (frame_idx h + 1)) h).

(** Arming the pipeline once the host has been paired for a second *)
Definition write_thread_arm : M unit :=
  set_host (set_ready_to_send_frames true);;
  set_host (set_sent_first_frame false);;
  for_up (seqZ 0 (QL_NUM_SLICES * QL_SWAPCHAIN_DEPTH))
    (fun i _ =>
       wr csd_stream_len set_csd_stream_len i 0;;
       wr idr_stream_len set_idr_stream_len i 0;;
       wr needs_flush set_needs_flush i false)
    tt.

(** One turn of the loop of [ql_xrsp_write_thread] *)
Definition ql_xrsp_write_thread_iter : M unit :=
  sel ← write_thread_select;
  let present_ns := sel.1 in
  let to_present := sel.2 in
  when (0 <=? to_present) (write_thread_present to_present present_ns);;
  now ← xrsp_ts_ns;
  h ← get_host id;
  when ((now - paired_ns h >? 1000000000)
        && bool_decide (pairing_state h = PAIRINGSTATE_PAIRED)
        && negb (ready_to_send_frames h))
    write_thread_arm;;
  now ← xrsp_ts_ns;
  h ← get_host id;
  when ((now - last_read_ns h >? 1000000000)
        && bool_decide (pairing_state h = PAIRINGSTATE_WAIT_FIRST)
        && usb_valid h)
    (xrsp_trigger_bye;;
     now ← xrsp_ts_ns;
     set_host (set_last_read_ns now));;
  hmd ← has_hmd;
  when hmd
    (hmd ← get_hmd;
     now ← xrsp_ts_ns;
     when (now - pose_ns hmd >? 1000000000) (set_host (set_is_inactive true)));;
  os_nanosleep U_TIME_1MS_IN_NS.

End WriteThread.

(** ** Creating the host *)

Definition slots : nat := Z.to_nat (QL_SWAPCHAIN_DEPTH * QL_NUM_SLICES).

(** [(struct ql_xrsp_host){0}] *)
Definition host_zero : ql_xrsp_host := {|
  dev := false; usb_valid := false; usb_slow_cable := false; usb_speed := 0;
  if_num := 0; ep_out := 0; ep_in := 0; client_id := 0; increment := 0;
  pairing_state := PAIRINGSTATE_WAIT_FIRST; echo_idx := 0; ns_offset := 0;
  ns_offset_from_target := 0; echo_req_sent_ns := 0; echo_req_recv_ns := 0;
  echo_resp_sent_ns := 0; echo_resp_recv_ns := 0; last_xmt := 0;
  num_slices := 0; frame_sent_ns := 0; paired_ns := 0; last_read_ns := 0;
  add_test := 0; usb_mutex := false; pose_mutex := false;
  ready_to_send_frames := false; sent_first_frame := false; frame_idx := 0;
  stream_mutex := replicate slots false; needs_flush := replicate slots false;
  csd_stream := replicate slots []; idr_stream := replicate slots [];
  csd_stream_len := replicate slots 0; idr_stream_len := replicate slots 0;
  stream_started_ns := replicate slots 0; stream_pose_ns := replicate slots 0;
  encode_started_ns := replicate slots 0; encode_done_ns := replicate slots 0;
  encode_duration_ns := replicate slots 0; tx_started_ns := replicate slots 0;
  tx_done_ns := replicate slots 0; tx_duration_ns := replicate slots 0;
  sent_mesh := false; is_inactive := false
|}.

Definition state_zero (hmd : option ql_hmd) : state := {|
  st_host := host_zero; st_hmd := hmd; st_ticks := 0; st_bulk_out := 0;
  st_open := 0; st_reset := 0; st_claim := 0; st_config := 0; st_speed := 0;
  st_trace := []
|}.

Section Create.
Context {P : platform} {X : externs}.

Definition ql_xrsp_host_create (vid pid if_num_arg : Z) : M Z :=
  set_host (fun _ => set_if_num if_num_arg host_zero);;
  set_host (set_num_slices QL_NUM_SLICES);;
  set_host (set_ready_to_send_frames false);;
  set_host (set_sent_first_frame false);;
  for_up (seqZ 0 QL_SWAPCHAIN_DEPTH)
    (fun i _ =>
       for_up (seqZ 0 QL_NUM_SLICES)
         (fun j _ =>
            let k := QL_IDX_SLICE j i in
            wr csd_stream_len set_csd_stream_len k 0;;
            wr idr_stream_len set_idr_stream_len k 0;;
            wr stream_started_ns set_stream_started_ns k 0;;
            wr encode_started_ns set_encode_started_ns k 0;;
            wr encode_done_ns set_encode_done_ns k 0;;
            wr encode_duration_ns set_encode_duration_ns k 0;;
            wr tx_started_ns set_tx_started_ns k 0;;
            wr tx_done_ns set_tx_done_ns k 0;;
            wr tx_duration_ns set_tx_duration_ns k 0)
         tt)
    tt;;
  set_host (set_frame_idx 0);;
  set_host (set_dev false);;
  ret ← ql_xrsp_usb_init false;
  if negb (ret =? 0) then mret (-1)
  else
    set_host (set_pairing_state PAIRINGSTATE_WAIT_FIRST);;
    _ ← xrsp_ts_ns;                  (* start_ns *)
    now ← xrsp_ts_ns;
    set_host (set_paired_ns (now * 2));;
    set_host (set_last_read_ns 0);;
    xrsp_reset_echo;;
    set_host (set_client_id 0x4a60dcca);;
    mret 0.

End Create.

(** ** A sample world, for running the model *)

Definition sample_platform (clock : nat -> Z) (bulk : nat -> Z * Z)
    (opens : nat -> bool) : platform := {|
  os_monotonic_get_ns := clock;
  libusb_bulk_transfer_out := bulk;
  libusb_open_device_with_vid_pid := opens;
  libusb_reset_device := fun _ => LIBUSB_SUCCESS;
  libusb_claim_interface := fun _ => 0;
  libusb_get_active_config_descriptor := fun _ =>
    (0, Some [[ {| bInterfaceNumber := 0; endpoint := [0x81; 0x01] |} ]]);
  libusb_get_device_speed := fun _ => LIBUSB_SPEED_SUPER;
  debug_get_num_option_force_fps := -1;
  XRT_HAVE_VT := false
|}.

(** Every transfer moves 1024 bytes and succeeds. *)
Definition bulk_ok : nat -> Z * Z := fun _ => (0, 1024).

(** A clock that stands still and a link that works *)
Definition sample_world : platform :=
  sample_platform (fun _ => 0) bulk_ok (fun _ => true).

(** The topic numbers are placeholders; crafted packets are a 16-byte
    head before the payload, encoded messages one 64-byte segment. *)
Definition sample_externs : externs := {|
  TOPIC_HOSTINFO_ADV := 1;
  TOPIC_COMMAND := 2;
  TOPIC_AUDIO_CONTROL := 3;
  TOPIC_INPUT_CONTROL := 4;
  TOPIC_VIDEO := 5;
  TOPIC_MESH := 6;
  TOPIC_RUNTIME_IPC := 7;
  TOPIC_SLICE_0 := 16;
  ECHO_PING := 0;
  ECHO_PONG := 1;
  COMMAND_TOGGLE_CHEMX := 1;
  COMMAND_TOGGLE_ASW := 2;
  COMMAND_DROP_FRAMES_STATE := 3;
  DEVICE_TYPE_QUEST_2 := 1;
  DEVICE_TYPE_QUEST_PRO := 2;
  DEVICE_TYPE_QUEST_3 := 3;
  RIPC_FAKE_CLIENT_1 := 0xF0000001;
  RIPC_FAKE_CLIENT_2 := 0xF0000002;
  RIPC_FAKE_CLIENT_3 := 0xF0000003;
  ql_xrsp_craft_capnp := fun _ _ _ payload => replicate 16 0 ++ payload;
  ql_xrsp_craft_echo := fun _ _ _ _ _ _ => replicate 48 0;
  getSegmentsForOutput := fun _ => [replicate 64 0];
  ripc_segments := fun _ => (replicate 24 0, replicate 8 0);
  xrsp_read_usb := fun s => Ok (usb_valid (st_host s)) s
|}.

(** A link on which every transfer times out, and a clock that advances
    two seconds per reading *)
Definition timeout_world : platform :=
  sample_platform (fun n => 2000000000 * (Z.of_nat n + 1))
    (fun _ => (LIBUSB_ERROR_TIMEOUT, 0)) (fun _ => true).

(** A device that comes back at the fourth attempt after a reset *)
Definition retry_world : platform :=
  sample_platform (fun _ => 0) bulk_ok
    (fun k => bool_decide (k = 0 \/ 3 < k)%nat).

Definition sample_hmd : ql_hmd := {|
  pose_ns := 0; encode_width := 3680; encode_height := 1920; fps := 72;
  device_type := 0
|}.

(** A paired host with an open, valid transport *)
Definition host_live : ql_xrsp_host :=
  set_pairing_state PAIRINGSTATE_PAIRED
    (set_dev true (set_usb_valid true host_zero)).

Definition state_live : state :=
  set_st_host host_live (state_zero (Some sample_hmd)).

(** The spec's ping exchange: a clock that reads 1000, 1020, 1040 (and
    stays there), three readings taken, a PING sent at 1000, and the PONG
    [org = 1000, recv = 1010, xmt = 1030] received at 1040 *)
Definition pong_world : platform :=
  sample_platform (fun n => nth n [1000; 1020; 1040] 1040) bulk_ok (fun _ => true).

Definition pong_state : state :=
  set_st_ticks 3
    (set_st_host
       (set_echo_req_sent_ns 1000
          (set_pairing_state PAIRINGSTATE_WAIT_SECOND host_live))
       (state_zero (Some sample_hmd))).

Definition pong_pkt : ql_xrsp_hostinfo_pkt := {|
  payload := {| org := 1000; recv := 1010; xmt := 1030; offset := 0 |};
  host_info := None;
  message_type := BUILTIN_ECHO;
  result := 1;
  unk_4 := 1;
  recv_ns := 1040
|}.

(** ** Closed forms used in the statements below *)

(** The final value of [align_up_bytes] in [xrsp_send_to_topic_raw]:
    the bytes up to the next multiple of four, and four more when the
    frame would otherwise end four bytes short of a 1024-byte boundary. *)
Definition pad_bytes (n : Z) : Z :=
  let a := (- n) mod 4 in
  if (n + a) mod 1024 =? 1012 then a + 4 else a.

Definition topic_header (pad_flag topic nw seq : Z) : xrsp_topic_header :=
  {| version_maybe := 0; has_alignment_padding := pad_flag;
     packet_version_is_internal := 1; packet_version_number := 0;
     topic := topic; unk_14_15 := 0; num_words := nw; sequence_num := seq;
     pad := 0 |}.

(** The data of a frame as its receiver recovers it: the payload without
    the padding that the header announces and the last byte measures. *)
Definition unpadded (m : usb_msg) : list Z :=
  let payload := msg_payload m in
  if has_alignment_padding (msg_header m) =? 0 then payload
  else take (length payload - Z.to_nat (default 0 (last payload))) payload.

Definition frame_data (e : event) : list Z :=
  match e with
  | EvSendUsb m _ => unpadded m
  | _ => []
  end.

(** The host with the fields that [xrsp_send_usb] and
    [xrsp_send_to_topic_raw] write blanked out *)
Definition wire_view (h : ql_xrsp_host) : ql_xrsp_host :=
  set_usb_valid false (set_pairing_state PAIRINGSTATE_WAIT_FIRST
  (set_increment 0 h)).

(** The host with the fields that the transport and the handshake write
    blanked out: what is left is the pipeline, the locks and the
    configuration. *)
Definition pipe_view (h : ql_xrsp_host) : ql_xrsp_host :=
  set_usb_valid false (set_pairing_state PAIRINGSTATE_WAIT_FIRST
  (set_increment 0 (set_echo_idx 0 (set_ns_offset 0
  (set_ns_offset_from_target 0 (set_echo_req_sent_ns 0
  (set_echo_req_recv_ns 0 (set_echo_resp_sent_ns 0
  (set_echo_resp_recv_ns 0 (set_last_xmt 0 (set_frame_sent_ns 0
  (set_paired_ns 0 (set_add_test 0 (set_sent_mesh false
  (set_is_inactive false h))))))))))))))).

Definition hmd_view (hmd : option ql_hmd) : option ql_hmd :=
  (fun hmd => set_pose_ns 0 (set_fps 0 (set_device_type 0 hmd))) <$> hmd.

Definition send_failed (x : Z * Z) : Prop :=
  x.1 = LIBUSB_ERROR_NO_DEVICE \/ x.1 = LIBUSB_ERROR_TIMEOUT.

(** Data that [xrsp_send_to_topic] accepts: not empty, and short enough
    for [idx + amt] to stay an [int32_t]. *)
Definition sendable (n : Z) : Prop := 0 < n <= INT32_MAX - 0x3FFF8.

(** A topic frame on [tp] handed to the transport *)
Definition is_frame (tp : Z) (e : event) : Prop :=
  exists m r, e = EvSendUsb m r /\ topic (msg_header m) = tp.

(** One failed attempt of the retry loop of [ql_xrsp_usb_init] *)
Definition reopen_failure : list event :=
  [EvOpen false; EvSleep (U_TIME_1MS_IN_NS * 500)].

(** Events that are neither an open nor a sleep *)
Definition no_open (e : event) : Prop :=
  match e with
  | EvOpen _ | EvSleep _ => False
  | _ => True
  end.

(** ** Relations between the states before and after a call *)

Section Relations.
Context {P : platform}.

(** [s'] comes after [s] by transfers alone: the trace grows by [evs],
    transfers are consumed, and the host changes only in its sequence
    counter and, after a transfer that failed with NO_DEVICE or TIMEOUT,
    in [usb_valid] and the pairing state. *)
Record wired (s : state) (evs : list event) (s' : state) : Prop := {
  w_host : wire_view (st_host s') = wire_view (st_host s);
  w_hmd : st_hmd s' = st_hmd s;
  w_ticks : st_ticks s' = st_ticks s;
  w_open : st_open s' = st_open s;
  w_reset : st_reset s' = st_reset s;
  w_claim : st_claim s' = st_claim s;
  w_config : st_config s' = st_config s;
  w_speed : st_speed s' = st_speed s;
  w_bulk : (st_bulk_out s <= st_bulk_out s')%nat;
  w_link :
    (pairing_state (st_host s') = pairing_state (st_host s) /\
     usb_valid (st_host s') = usb_valid (st_host s)) \/
    (pairing_state (st_host s') = PAIRINGSTATE_WAIT_FIRST /\
     usb_valid (st_host s') = false /\
     exists k, (st_bulk_out s <= k < st_bulk_out s')%nat /\
       send_failed (libusb_bulk_transfer_out k));
  w_trace : st_trace s' = st_trace s ++ evs
}.

(** [s'] comes after [s] by steps that leave the pipeline alone, add the
    events [evs] to the trace, and touch the pairing state only by the
    reset that follows a failed transfer. *)
Record quiet (s : state) (evs : list event) (s' : state) : Prop := {
  q_host : pipe_view (st_host s') = pipe_view (st_host s);
  q_hmd : hmd_view (st_hmd s') = hmd_view (st_hmd s);
  q_bulk : (st_bulk_out s <= st_bulk_out s')%nat;
  q_link :
    (pairing_state (st_host s') = pairing_state (st_host s) /\
     usb_valid (st_host s') = usb_valid (st_host s)) \/
    (pairing_state (st_host s') = PAIRINGSTATE_WAIT_FIRST /\
     usb_valid (st_host s') = false /\
     exists k, (st_bulk_out s <= k < st_bulk_out s')%nat /\
       send_failed (libusb_bulk_transfer_out k));
  q_trace : st_trace s' = st_trace s ++ evs
}.

End Relations.

(** [m], whenever it returns, relates the state it started from to the
    state it leaves. *)
Definition steps {A} (R : state -> state -> Prop) (m : M A) : Prop :=
  forall s a s', m s = Ok a s' -> R s s'.

(** The part [view] of the host is the same before and after. *)
Definition same {V} (view : ql_xrsp_host -> V) (s s' : state) : Prop :=
  view (st_host s') = view (st_host s).

(** The property [I] of the state survives. *)
Definition keeps (I : state -> Prop) (s s' : state) : Prop := I s -> I s'.

(** The host as the video pipeline sees it: [pipe_view] without the two
    locks of the transport and the pose. *)
Definition stream_view (h : ql_xrsp_host) : ql_xrsp_host :=
  set_usb_mutex false (set_pose_mutex false (pipe_view h)).

(** ** The stream buffers *)

Definition len_ok (l : Z) : Prop := 0 <= l < 0x1000000.

Definition lens_view (h : ql_xrsp_host) : list Z * list Z :=
  (csd_stream_len h, idr_stream_len h).

Definition lens_ok (s : state) : Prop :=
  Forall len_ok (csd_stream_len (st_host s)) /\
  Forall len_ok (idr_stream_len (st_host s)).

(** ** Runs of the driver *)

(** The entry points: the encoder's four callbacks, one turn of either
    thread, a handshake message handed to the dispatcher, and a
    re-initialisation of the transport.  A call runs to its end before
    the next one starts. *)
Inductive call : Set :=
| CallStartEncode (target_ns index slice_idx : Z)
| CallSendCsd (data : list Z) (index slice_idx : Z)
| CallSendIdr (data : list Z) (index slice_idx : Z)
| CallFlushStream (target_ns index slice_idx : Z)
| CallWriteThread
| CallReadThread
| CallHostinfoAdv (pkt : ql_xrsp_hostinfo_pkt)
| CallUsbInit (do_reset : bool).

Section Calls.
Context {P : platform} {X : externs}.

Definition run_call (c : call) : M unit :=
  match c with
  | CallStartEncode target_ns index slice_idx =>
      xrsp_start_encode target_ns index slice_idx
  | CallSendCsd data index slice_idx => xrsp_send_csd data index slice_idx
  | CallSendIdr data index slice_idx => xrsp_send_idr data index slice_idx
  | CallFlushStream target_ns index slice_idx =>
      xrsp_flush_stream target_ns index slice_idx
  | CallWriteThread => ql_xrsp_write_thread_iter
  | CallReadThread => ql_xrsp_read_thread_iter
  | CallHostinfoAdv pkt => xrsp_handle_hostinfo_adv pkt
  | CallUsbInit do_reset => _ ← ql_xrsp_usb_init do_reset; mret tt
  end.

(** The states [ql_xrsp_host_create] returns *)
Definition created (s : state) : Prop :=
  exists hmd vid pid if_num_arg ret,
    ql_xrsp_host_create vid pid if_num_arg (state_zero hmd) = Ok ret s.

Inductive reachable : state -> Prop :=
| reach_created s : created s -> reachable s
| reach_call c s s' : reachable s -> run_call c s = Ok tt s' -> reachable s'.

End Calls.

(** ** The handshake *)

(** The handshake table of the spec *)
Definition pairing_step (st : pairing_state_t) (msg : builtin_msg)
    : pairing_state_t :=
  match st, msg with
  | PAIRINGSTATE_WAIT_FIRST, BUILTIN_PAIRING_ACK => PAIRINGSTATE_WAIT_SECOND
  | (PAIRINGSTATE_WAIT_SECOND | PAIRINGSTATE_PAIRING), BUILTIN_INVITE =>
      PAIRINGSTATE_PAIRING
  | (PAIRINGSTATE_WAIT_SECOND | PAIRINGSTATE_PAIRING), BUILTIN_PAIRING_ACK =>
      PAIRINGSTATE_PAIRED
  | _, _ => st
  end.

(** The order in which the handshake advances *)
Definition pairing_rank (st : pairing_state_t) : nat :=
  match st with
  | PAIRINGSTATE_WAIT_FIRST => 0
  | PAIRINGSTATE_WAIT_SECOND => 1
  | PAIRINGSTATE_PAIRING => 2
  | PAIRINGSTATE_PAIRED => 3
  end.

Section Assumed.
Context {P : platform} {X : externs}.

(** What the handshake needs of the code outside the sources: packets
    and segments of sizes that [xrsp_send_to_topic] accepts, and a nested
    [xrsp_read_usb] that finds nothing to read. *)
Record externs_ok : Prop := {
  craft_capnp_ok : forall t r u payload,
    size_of payload < 0x10000 ->
    sendable (size_of (ql_xrsp_craft_capnp t r u payload));
  craft_echo_ok : forall r i o rc x off,
    sendable (size_of (ql_xrsp_craft_echo r i o rc x off));
  segments_ok : forall m,
    Forall (fun seg => sendable (size_of seg)) (getSegmentsForOutput m) /\
    Z.of_nat (length (getSegmentsForOutput m)) < 0x10000;
  ripc_ok : forall c,
    sendable (size_of (ripc_segments c).1) /\
    sendable (size_of (ripc_segments c).2);
  read_usb_idle : forall s, exists more, xrsp_read_usb s = Ok more s
}.

(** Both locks free and an HMD attached *)
Definition calm (s : state) : Prop :=
  usb_mutex (st_host s) = false /\ pose_mutex (st_host s) = false /\
  is_Some (st_hmd s).

(** Handshake steps: the pipeline is left alone. *)
Definition hush (s s' : state) : Prop := exists evs, quiet s evs s'.

(** [m] returns from every calm state, by handshake steps. *)
Definition runs {A} (m : M A) : Prop :=
  forall s, calm s -> exists a s', m s = Ok a s' /\ hush s s'.
(** What a branch of the dispatcher leaves of the pairing state: as it
    was, or reset by a transfer that failed. *)
Definition linked (s s' : state) : Prop :=
  pairing_state (st_host s') = pairing_state (st_host s) \/
  (pairing_state (st_host s') = PAIRINGSTATE_WAIT_FIRST /\
   usb_valid (st_host s') = false /\
   exists k, (st_bulk_out s <= k < st_bulk_out s')%nat /\
     send_failed (libusb_bulk_transfer_out k)).

End Assumed.


(** ** Sample handshake messages *)

Definition ack_pkt : ql_xrsp_hostinfo_pkt := {|
  payload := {| org := 0; recv := 0; xmt := 0; offset := 0 |};
  host_info := None;
  message_type := BUILTIN_ACK;
  result := 0;
  unk_4 := 0;
  recv_ns := 0
|}.

Definition pairing_ack_pkt : ql_xrsp_hostinfo_pkt := {|
  payload := {| org := 0; recv := 0; xmt := 0; offset := 0 |};
  host_info := None;
  message_type := BUILTIN_PAIRING_ACK;
  result := 0;
  unk_4 := 0;
  recv_ns := 0
|}.

(** A host that has been through the first round of the handshake *)
Definition state_second : state :=
  set_st_host (set_pairing_state PAIRINGSTATE_WAIT_SECOND host_live)
    (state_zero (Some sample_hmd)).

(** ** Returning calls *)

(** The per-slot arrays that [xrsp_send_video] reads and writes have
    their [slots] entries. *)
Definition video_arrays (h : ql_xrsp_host) : Prop :=
  length (stream_pose_ns h) = slots /\ length (encode_started_ns h) = slots /\
  length (encode_done_ns h) = slots /\ length (tx_started_ns h) = slots /\
  length (tx_done_ns h) = slots /\ length (tx_duration_ns h) = slots.

Section Sound.
Context {P : platform}.

(** A calm state with its arrays in place *)
Definition sound (s : state) : Prop := calm s /\ video_arrays (st_host s).

(** [m] returns from every sound state, to a sound state. *)
Definition returns {A} (m : M A) : Prop :=
  forall s, sound s -> exists a s', m s = Ok a s' /\ sound s'.
End Sound.

(** ** Watching the trace *)

(** The events under watch: frames on the topics [topics], and, with
    [present], the writer's choices. *)
Definition watch (topics : Z -> bool) (present : bool) (e : event) : bool :=
  match e with
  | EvSendUsb m _ => topics (topic (msg_header m))
  | EvPresent _ _ => present
  | _ => false
  end.

(** Nothing under watch is added to the trace. *)
Definition mute (p : event -> bool) (s s' : state) : Prop :=
  List.filter p (st_trace s') = List.filter p (st_trace s).

(** The trace is as it was. *)
Definition same_trace (s s' : state) : Prop := st_trace s' = st_trace s.

Section Topics.
Context {X : externs}.

(** The topics of the handshake and of the control messages *)
Definition control_topics : list Z :=
  [TOPIC_HOSTINFO_ADV; TOPIC_COMMAND; TOPIC_AUDIO_CONTROL; TOPIC_INPUT_CONTROL;
   TOPIC_VIDEO; TOPIC_MESH; TOPIC_RUNTIME_IPC].

(** [topics] holds no control topic. *)
Definition off_control (topics : Z -> bool) : Prop :=
  Forall (fun t => topics t = false) control_topics.

(** The nested [xrsp_read_usb] finds nothing to read. *)
Definition read_usb_still : Prop :=
  forall s more s', xrsp_read_usb s = Ok more s' -> s' = s.
End Topics.


(** The first frame of the session has not gone out. *)
Definition unsent (s : state) : Prop := sent_first_frame (st_host s) = false.

Definition meet (R1 R2 : state -> state -> Prop) (s s' : state) : Prop :=
  R1 s s' /\ R2 s s'.

(** While the first frame has not gone out: it still has not, and
    nothing under watch was added to the trace. *)
Definition held (p : event -> bool) (s s' : state) : Prop :=
  unsent s -> unsent s' /\ mute p s s'.

(** The queue of the writer: which slots wait to be presented, and
    their timestamps *)
Definition queue_view (h : ql_xrsp_host) : list bool * list Z :=
  (needs_flush h, stream_started_ns h).


(** What the writer's scan returns, [(present_ns, to_present)], in terms
    of the queue it scanned: nothing, when no waiting slot has a timestamp
    below [INT64_MAX]; otherwise a waiting slot with the least timestamp,
    and among those the one of least index. *)
Definition selected (nf : list bool) (st : list Z) (r : Z * Z) : Prop :=
  (r.2 = -1 /\ r.1 = INT64_MAX /\
   forall k t, 0 <= k < QL_SWAPCHAIN_DEPTH ->
     nf !! Z.to_nat k = Some true -> st !! Z.to_nat k = Some t ->
     INT64_MAX <= t) \/
  (0 <= r.2 < QL_SWAPCHAIN_DEPTH /\
   nf !! Z.to_nat r.2 = Some true /\ st !! Z.to_nat r.2 = Some r.1 /\
   r.1 < INT64_MAX /\
   forall k t, 0 <= k < QL_SWAPCHAIN_DEPTH ->
     nf !! Z.to_nat k = Some true -> st !! Z.to_nat k = Some t ->
     r.1 <= t /\ (t = r.1 -> r.2 <= k)).


(** The timestamps the writer has presented, in order *)
Definition presents (tr : list event) : list Z :=
  omap (fun e => match e with EvPresent _ ns => Some ns | _ => None end) tr.

(** Slot [k] waits to be presented, with timestamp [t]. *)
Definition waiting (s : state) (k : Z) (t : Z) : Prop :=
  0 <= k < QL_SWAPCHAIN_DEPTH /\
  needs_flush (st_host s) !! Z.to_nat k = Some true /\
  stream_started_ns (st_host s) !! Z.to_nat k = Some t.

(** Nothing is queued: timestamps stay, and no slot starts to wait. *)
Definition shrink (s s' : state) : Prop :=
  stream_started_ns (st_host s') = stream_started_ns (st_host s) /\
  forall k, needs_flush (st_host s') !! k = Some true ->
            needs_flush (st_host s) !! k = Some true.

(** Only the writer's choices are under watch. *)
Definition choices : event -> bool := watch (fun _ => false) true.


(** ** Sequences of calls *)

Section CallSequences.
Context {P : platform} {X : externs}.

Fixpoint run_calls (cs : list call) : M unit :=
  match cs with
  | [] => mret tt
  | c :: cs => run_call c;; run_calls cs
  end.

End CallSequences.

(** The timestamps of the encodes completed by [cs], in order *)
Definition flushes (cs : list call) : list Z :=
  omap (fun c => match c with
                 | CallFlushStream target_ns _ _ => Some target_ns
                 | _ => None
                 end) cs.

(** What holds of the queue after the encodes with timestamps [F]: the
    writer's choices so far are increasing and among [F]; every waiting
    slot has a timestamp of [F] above all choices so far; no two waiting
    slots have the same timestamp. *)
Definition fifo_inv (F : list Z) (s : state) : Prop :=
  StronglySorted Z.lt (presents (st_trace s)) /\
  Forall (fun p => p ∈ F) (presents (st_trace s)) /\
  (forall k t, waiting s k t ->
     t ∈ F /\ Forall (fun p => p < t) (presents (st_trace s))) /\
  (forall k k' t, waiting s k t -> waiting s k' t -> k = k').


Section SliceTopics.
Context {X : externs}.

(** The topics of the video slices *)
Definition slice_topics (t : Z) : bool :=
  existsb (fun j => t =? u8 (TOPIC_SLICE_0 + j)) (seqZ 0 QL_NUM_SLICES).

End SliceTopics.

(** ** A sample pipeline *)

(** A paired host whose pipeline has been armed *)
Definition state_armed : state :=
  set_st_host (set_ready_to_send_frames true host_live)
    (state_zero (Some sample_hmd)).

(** Two encodes, completed for the slots 1 and 0 in that order, and two
    turns of the writer *)
Definition sample_calls : list call :=
  [CallSendCsd [1] 1 0; CallSendIdr [2] 1 0; CallFlushStream 100 1 0;
   CallSendCsd [3] 0 0; CallSendIdr [4] 0 0; CallFlushStream 200 0 0;
   CallWriteThread; CallWriteThread].

(** * Properties *)

(** ** Bit operations as arithmetic *)

Lemma land_0x3FF x : Z.land x 0x3FF = x mod 1024.
Proof.
  change 0x3FF with (Z.ones 10). rewrite Z.land_ones by lia. reflexivity.
Qed.

Lemma shiftr_2 x : Z.shiftr x 2 = x / 4.
Proof. rewrite Z.shiftr_div_pow2 by lia. reflexivity. Qed.

Lemma shiftl_2 x : Z.shiftl x 2 = x * 4.
Proof. rewrite Z.shiftl_mul_pow2 by lia. reflexivity. Qed.

(** ** The frame that [xrsp_send_to_topic_raw] builds *)

Lemma pad_bytes_range n : 0 <= pad_bytes n <= 7.
Proof. unfold pad_bytes. destruct (_ =? _); Z.div_mod_to_equations; lia. Qed.

Lemma pad_bytes_aligned n : (n + pad_bytes n) mod 4 = 0.
Proof. unfold pad_bytes. destruct (_ =? _); Z.div_mod_to_equations; lia. Qed.

Lemma xrsp_topic_msg_eq inc tp data n :
  0 <= n ->
  xrsp_topic_msg inc tp data n =
  let p := pad_bytes n in
  let size := n + p + 8 in
  let gap := 1024 - size mod 1024 in
  {| msg_header :=
       topic_header (if p =? 0 then 0 else 1) tp (u16 ((n + p) / 4 + 1)) inc;
     msg_payload :=
       take (Z.to_nat n) data ++
       (if p =? 0 then [] else replicate (Z.to_nat (p - 1)) 0xDE ++ [p]);
     msg_fill :=
       if gap =? 1024 then None
       else Some (topic_header 0 0 (u16 ((gap - 8) / 4 + 1)) inc, gap - 8);
     msg_size := if gap =? 1024 then size else size + gap |}.
Proof.
  intros Hn. unfold xrsp_topic_msg, sizeof_xrsp_topic_header.
  rewrite !land_0x3FF, !shiftr_2, !shiftl_2.
  cbv zeta.
  assert (Ha : (if (4 + n) / 4 * 4 - n =? 4 then 0 else (4 + n) / 4 * 4 - n) = (- n) mod 4).
  { destruct (Z.eqb_spec ((4 + n) / 4 * 4 - n) 4); Z.div_mod_to_equations; lia. }
  rewrite !Ha. clear Ha.
  assert (Hm : forall x, (x + 1024) mod 1024 = x mod 1024).
  { intros x. rewrite <- (Z.mod_add x 1 1024) by lia. f_equal; lia. }
  rewrite !Hm.
  unfold pad_bytes.
  set (a := (- n) mod 4).
  assert (Ha : 0 <= a < 4 /\ (n + a) mod 4 = 0).
  { subst a. Z.div_mod_to_equations; lia. }
  destruct (Z.eqb_spec ((n + a) mod 1024) 1012) as [He|He].
  - assert (Hc : 1024 - (n + a + 8) mod 1024 = 4) by (Z.div_mod_to_equations; lia).
    rewrite Hc. change ((0 <=? 4) && (4 <? 8)) with true. cbv iota.
    assert (Hz : (n + (a + 4) + 8) mod 1024 = 0) by (Z.div_mod_to_equations; lia).
    rewrite !Hz. change (1024 - 0 - 8 <? 1016) with false.
    change (1024 - 0 =? 1024) with true. cbv iota. simpl andb. cbv iota.
    destruct (Z.eqb_spec (a + 4) 0) as [?|_]; [lia|].
    destruct (Z.ltb_spec 1 (a + 4)) as [_|?]; [|lia].
    unfold u8 at 1. rewrite (Z.mod_small (a + 4)) by lia.
    reflexivity.
  - assert (Hc : ~ (0 <= 1024 - (n + a + 8) mod 1024 < 8)) by (Z.div_mod_to_equations; lia).
    replace ((0 <=? 1024 - (n + a + 8) mod 1024) && (1024 - (n + a + 8) mod 1024 <? 8)) with false by lia.
    cbv iota.
    destruct (Z.eqb_spec (1024 - (n + a + 8) mod 1024) 1024) as [Hg|Hg].
    + replace ((1024 - (n + a + 8) mod 1024 - 8 <? 1016) && (0 <=? 1024 - (n + a + 8) mod 1024 - 8)) with false by lia.
      destruct (Z.eqb_spec a 0) as [->|Hne]; [reflexivity|].
      destruct (Z.ltb_spec 1 a).
      * unfold u8 at 1. rewrite (Z.mod_small a) by lia. reflexivity.
      * replace a with 1 by lia. reflexivity.
    + assert (1024 - (n + a + 8) mod 1024 - 8 < 1016 /\ 0 <= 1024 - (n + a + 8) mod 1024 - 8) by (Z.div_mod_to_equations; lia).
      replace ((1024 - (n + a + 8) mod 1024 - 8 <? 1016) && (0 <=? 1024 - (n + a + 8) mod 1024 - 8)) with true by lia.
      replace (n + a + 8 + (1024 - (n + a + 8) mod 1024 - 8) + 8) with (n + a + 8 + (1024 - (n + a + 8) mod 1024)) by lia.
      destruct (Z.eqb_spec a 0) as [->|Hne]; [reflexivity|].
      destruct (Z.ltb_spec 1 a).
      * unfold u8 at 1. rewrite (Z.mod_small a) by lia. reflexivity.
      * replace a with 1 by lia. reflexivity.
Qed.

Lemma size_of_app (l k : list Z) : size_of (l ++ k) = size_of l + size_of k.
Proof. unfold size_of. rewrite length_app. lia. Qed.

Lemma take_size_of (data :
  list Z) n : size_of data = n -> take (Z.to_nat n) data = data.
Proof. unfold size_of. intros <-. rewrite Nat2Z.id. apply firstn_all. Qed.

Lemma size_of_replicate n (x : Z) : size_of (replicate n x) = Z.of_nat n.
Proof. unfold size_of. by rewrite length_replicate. Qed.

Lemma pad_bytes_zero n :
  pad_bytes n = 0 <-> ~ (n mod 4 <> 0 \/ n mod 1024 = 1012).
Proof.
  unfold pad_bytes. destruct (Z.eqb_spec ((n + (- n) mod 4) mod 1024) 1012);
    Z.div_mod_to_equations; lia.
Qed.

Lemma pad_bytes_small n :
  pad_bytes n <= 3 <-> (n + 8 + (- n) mod 4) mod 1024 <> 1020.
Proof.
  unfold pad_bytes. destruct (Z.eqb_spec ((n + (- n) mod 4) mod 1024) 1012);
    Z.div_mod_to_equations; lia.
Qed.

(** C5, as amended.  For a frame built from [n] bytes, [0 <= n <= 0x3FFF8]:
    [has_alignment_padding] is 0 or 1, and is 1 exactly when [n] is not a
    multiple of 4 or [n mod 1024 = 1012]; without padding the payload is
    the data; with padding the payload is the data, then [p - 1] bytes
    [0xDE], then the byte [p], where the pad length [p] lies in [1, 7] and
    is at most 3 unless the 4-aligned frame would end 4 bytes short of a
    1024-byte boundary; the padded length minus [p] is [n]. *)
Theorem xrsp_topic_msg_alignment inc tp (data : list Z) n :
  0 <= n <= 0x3FFF8 -> size_of data = n ->
  let m := xrsp_topic_msg inc tp data n in
  let flag := has_alignment_padding (msg_header m) in
  (flag = 0 \/ flag = 1) /\
  (flag = 1 <-> n mod 4 <> 0 \/ n mod 1024 = 1012) /\
  (flag = 0 -> msg_payload m = data) /\
  (flag = 1 ->
   exists p, 1 <= p <= 7 /\
     (p <= 3 <-> (n + 8 + (- n) mod 4) mod 1024 <> 1020) /\
     msg_payload m = data ++ replicate (Z.to_nat (p - 1)) 0xDE ++ [p] /\
     size_of (msg_payload m) - p = n).
Proof.
  intros Hn Hlen m flag. subst flag m.
  rewrite xrsp_topic_msg_eq by lia. cbv zeta. cbn [msg_header msg_payload topic_header has_alignment_padding].
  rewrite (take_size_of _ _ Hlen).
  pose proof (pad_bytes_range n) as Hr.
  pose proof (pad_bytes_zero n) as Hz.
  pose proof (pad_bytes_small n) as Hs.
  destruct (Z.eqb_spec (pad_bytes n) 0) as [E|E].
  - pose proof (proj1 Hz E) as Hno.
    split; [by left|]. split; [split; [lia | tauto]|].
    split; [intros _; by rewrite app_nil_r | lia].
  - assert (Hyes : n mod 4 <> 0 \/ n mod 1024 = 1012).
    { destruct (Z.eq_dec (n mod 4) 0); [|tauto].
      destruct (Z.eq_dec (n mod 1024) 1012); [tauto|].
      exfalso. apply E, Hz. lia. }
    split; [by right|]. split; [tauto|]. split; [lia|].
    intros _. exists (pad_bytes n).
    split; [lia|]. split; [exact Hs|]. split; [reflexivity|].
    rewrite !size_of_app, size_of_replicate. unfold size_of at 2. simpl. lia.
Qed.

Lemma xrsp_topic_msg_alignment_witness :
  0 <= 5 <= 0x3FFF8 /\ size_of [1; 2; 3; 4; 5] = 5 /\
  (has_alignment_padding (msg_header (xrsp_topic_msg 0 1 [1; 2; 3; 4; 5] 5)) = 1
   <-> 5 mod 4 <> 0 \/ 5 mod 1024 = 1012).
Proof.
  split; [lia|]. split; [reflexivity|].
  destruct (xrsp_topic_msg_alignment 0 1 [1; 2; 3; 4; 5] 5) as (_ & H & _);
    [lia | reflexivity |].
  exact H.
Defined.

(** C5 as stated fails on a 1012-byte payload: the flag is set although
    1012 is a multiple of 4, and the final payload byte is 4. *)
Lemma xrsp_topic_msg_alignment_counterexample :
  let m := xrsp_topic_msg 0 1 (replicate 1012 0) 1012 in
  ~ ((has_alignment_padding (msg_header m) = 1 <-> 1012 mod 4 <> 0) /\
     (has_alignment_padding (msg_header m) = 1 ->
      exists p, last (msg_payload m) = Some p /\ 1 <= p <= 3)).
Proof.
  intros m [H1 H2].
  assert (E : has_alignment_padding (msg_header m) = 1) by reflexivity.
  apply H1 in E. apply E. reflexivity.
Qed.

Lemma xrsp_topic_msg_payload_size inc tp (data : list Z) n :
  0 <= n -> size_of data = n ->
  size_of (msg_payload (xrsp_topic_msg inc tp data n)) = n + pad_bytes n.
Proof.
  intros Hn Hlen. rewrite xrsp_topic_msg_eq by lia. cbv zeta. cbn [msg_payload].
  rewrite (take_size_of _ _ Hlen), size_of_app.
  pose proof (pad_bytes_range n).
  destruct (Z.eqb_spec (pad_bytes n) 0) as [E|E].
  - unfold size_of at 2. simpl. lia.
  - rewrite size_of_app, size_of_replicate. unfold size_of at 2. simpl. lia.
Qed.

(** C6, as amended.  With [frame] the size of the data frame (header and
    padded payload) and [gap] the distance from its end to the next
    1024-byte boundary: if [8 <= gap < 1024] one filler frame follows, of
    topic 0, without padding, [gap - 8] zero bytes long after its header,
    with [num_words = (gap - 8) / 4 + 1] and the data frame's sequence
    number, and the message is [frame + gap] bytes; if the frame ends on a
    boundary there is no filler; the gap is never below 8, so the message
    length is always a multiple of 1024.  An 8-byte payload gives a
    16-byte frame and a filler with [num_words = 0xFB] (0x3E8 / 4 + 1),
    1024 bytes in all. *)
Theorem xrsp_topic_msg_filler inc tp (data : list Z) n :
  0 <= n <= 0x3FFF8 -> size_of data = n ->
  let m := xrsp_topic_msg inc tp data n in
  let frame := sizeof_xrsp_topic_header + size_of (msg_payload m) in
  let gap := 1024 - frame mod 1024 in
  (8 <= gap < 1024 ->
   exists fill,
     msg_fill m = Some (fill, gap - 8) /\
     topic fill = 0 /\ has_alignment_padding fill = 0 /\
     num_words fill = (gap - 8) / 4 + 1 /\
     sequence_num fill = sequence_num (msg_header m) /\
     msg_size m = frame + gap) /\
  (gap = 1024 -> msg_fill m = None /\ msg_size m = frame) /\
  (8 <= gap <= 1024) /\
  msg_size m mod 1024 = 0 /\
  (n = 8 ->
   exists fill,
     msg_fill m = Some (fill, 0x3E8) /\ topic fill = 0 /\
     num_words fill = 0xFB /\ frame = 16 /\ msg_size m = 1024).
Proof.
  intros Hn Hlen m frame gap.
  assert (Hframe : frame = n + pad_bytes n + 8).
  { subst frame m. rewrite xrsp_topic_msg_payload_size by lia.
    unfold sizeof_xrsp_topic_header. lia. }
  pose proof (pad_bytes_range n) as Hr.
  pose proof (pad_bytes_aligned n) as Ha.
  assert (Hne : frame mod 1024 <> 1020).
  { rewrite Hframe. unfold pad_bytes in *.
    destruct (Z.eqb_spec ((n + (- n) mod 4) mod 1024) 1012);
      Z.div_mod_to_equations; lia. }
  assert (Hgap : 8 <= gap <= 1024).
  { subst gap. rewrite Hframe in *. Z.div_mod_to_equations; lia. }
  assert (Hm : m = xrsp_topic_msg inc tp data n) by reflexivity.
  rewrite xrsp_topic_msg_eq in Hm by lia. cbv zeta in Hm.
  rewrite <- Hframe in Hm. fold gap in Hm.
  assert (Hgapdef : gap = 1024 - frame mod 1024) by reflexivity.
  assert (H8 : n = 8 -> frame = 16 /\ gap = 1008).
  { intros E. rewrite Hgapdef, Hframe, E. split; reflexivity. }
  clearbody gap frame m. clear Hframe Hlen.
  destruct (Z.eqb_spec gap 1024) as [E|E].
  - rewrite Hm. cbn [msg_fill msg_size msg_header sequence_num topic_header].
    split; [lia|]. split; [done|]. split; [lia|].
    split; [Z.div_mod_to_equations; lia|].
    intros E8. destruct (H8 E8). lia.
  - rewrite Hm. cbn [msg_fill msg_size msg_header sequence_num topic_header].
    split.
    { intros _. eexists. split; [reflexivity|].
      cbn [topic has_alignment_padding num_words sequence_num topic_header].
      repeat split. unfold u16. apply Z.mod_small.
      Z.div_mod_to_equations; lia. }
    split; [lia|]. split; [lia|].
    split; [Z.div_mod_to_equations; lia|].
    intros E8. destruct (H8 E8) as [Hf Hg]. rewrite Hg.
    eexists. split; [reflexivity|].
    cbn [topic num_words topic_header]. repeat split; try done. lia.
Qed.

Lemma xrsp_topic_msg_filler_witness :
  0 <= 8 <= 0x3FFF8 /\ size_of (replicate 8 7) = 8 /\
  msg_size (xrsp_topic_msg 3 1 (replicate 8 7) 8) mod 1024 = 0.
Proof.
  split; [lia|]. split; [reflexivity|].
  destruct (xrsp_topic_msg_filler 3 1 (replicate 8 7) 8) as (_ & _ & _ & H & _);
    [lia | reflexivity |].
  exact H.
Defined.

(** C6 as stated fails in its example: the filler after an 8-byte
    payload does not have [num_words = 0xF5]. *)
Lemma xrsp_topic_msg_filler_counterexample :
  ~ (exists fill zeros,
       msg_fill (xrsp_topic_msg 0 1 (replicate 8 0) 8) = Some (fill, zeros) /\
       num_words fill = 0xF5).
Proof.
  intros (fill & zeros & H & Hn). vm_compute in H.
  injection H as <- <-. discriminate Hn.
Qed.

(** ** Running the monad *)

Ltac munfold :=
  cbv beta iota delta [mbind M_bind mret M_ret get_host set_host log when stop
                       xrsp_ts_ns libusb_bulk_transfer id].
Ltac ssimpl :=
  cbn [st_host st_hmd st_ticks st_bulk_out st_open st_reset st_claim st_config
       st_speed st_trace set_st_host set_st_hmd set_st_ticks set_st_bulk_out
       set_st_open set_st_reset set_st_claim set_st_config set_st_speed
       set_st_trace fst snd negb orb andb].
Ltac hsimpl :=
  cbn [
       dev usb_valid usb_slow_cable usb_speed if_num ep_out ep_in
       client_id increment pairing_state echo_idx ns_offset
       ns_offset_from_target echo_req_sent_ns echo_req_recv_ns
       echo_resp_sent_ns echo_resp_recv_ns last_xmt num_slices
       frame_sent_ns paired_ns last_read_ns add_test usb_mutex
       pose_mutex ready_to_send_frames sent_first_frame frame_idx
       stream_mutex needs_flush csd_stream idr_stream csd_stream_len
       idr_stream_len stream_started_ns stream_pose_ns
       encode_started_ns encode_done_ns encode_duration_ns
       tx_started_ns tx_done_ns tx_duration_ns sent_mesh is_inactive
       set_dev set_usb_valid set_usb_slow_cable set_usb_speed
       set_ep_out set_ep_in set_if_num set_client_id set_num_slices
       set_increment set_pairing_state set_echo_idx set_ns_offset
       set_ns_offset_from_target set_echo_req_sent_ns
       set_echo_req_recv_ns set_echo_resp_sent_ns
       set_echo_resp_recv_ns set_last_xmt set_frame_sent_ns
       set_paired_ns set_last_read_ns set_add_test set_usb_mutex
       set_pose_mutex set_ready_to_send_frames set_sent_first_frame
       set_frame_idx set_stream_mutex set_needs_flush set_csd_stream
       set_idr_stream set_csd_stream_len set_idr_stream_len
       set_stream_started_ns set_stream_pose_ns set_encode_started_ns
       set_encode_done_ns set_encode_duration_ns set_tx_started_ns
       set_tx_done_ns set_tx_duration_ns set_sent_mesh set_is_inactive
       pose_ns encode_width encode_height fps device_type set_pose_ns
       set_fps set_device_type].
Ltac mrun := munfold; ssimpl; hsimpl.

(** ** The transport: sending frames *)

Section Transport.
Context {P : platform} {X : externs}.

Lemma wired_refl s : wired s [] s.
Proof. split; auto. by rewrite app_nil_r. Qed.

Lemma wired_trans s1 e1 s2 e2 s3 :
  wired s1 e1 s2 -> wired s2 e2 s3 -> wired s1 (e1 ++ e2) s3.
Proof.
  intros [h1 m1 k1 o1 r1 c1 g1 p1 b1 l1 t1] [h2 m2 k2 o2 r2 c2 g2 p2 b2 l2 t2].
  split; try congruence.
  - lia.
  - destruct l2 as [[q2 v2]|(q2 & v2 & k & Hk & Hf)].
    + destruct l1 as [[q1 v1]|(q1 & v1 & k & Hk & Hf)].
      * left. split; congruence.
      * right. repeat split; try congruence. exists k. split; [lia | done].
    + right. repeat split; try done. exists k. split; [lia | done].
  - by rewrite t2, t1, app_assoc.
Qed.

Lemma quiet_refl s : quiet s [] s.
Proof. split; auto. by rewrite app_nil_r. Qed.

Lemma quiet_trans s1 e1 s2 e2 s3 :
  quiet s1 e1 s2 -> quiet s2 e2 s3 -> quiet s1 (e1 ++ e2) s3.
Proof.
  intros [h1 m1 b1 l1 t1] [h2 m2 b2 l2 t2]. split.
  - congruence.
  - congruence.
  - lia.
  - destruct l2 as [[p2 v2]|(p2 & v2 & k & Hk & Hf)].
    + destruct l1 as [[p1 v1]|(p1 & v1 & k & Hk & Hf)].
      * left. split; congruence.
      * right. repeat split; try congruence. exists k. split; [lia | done].
    + right. repeat split; try done. exists k. split; [lia | done].
  - by rewrite t2, t1, app_assoc.
Qed.

Lemma wired_quiet s evs s' : wired s evs s' -> quiet s evs s'.
Proof.
  intros [h m k o r c g p b l t]. split; auto.
  - apply (f_equal pipe_view) in h. exact h.
  - by rewrite m.
Qed.

Lemma bind_Ok {A B} (m : M A) (k : A -> M B) s a s' :
  m s = Ok a s' -> (m ≫= k) s = k a s'.
Proof. unfold mbind, M_bind. intros ->. reflexivity. Qed.

Lemma bind_Stuck {A B} (m : M A) (k : A -> M B) s w :
  m s = Stuck w -> (m ≫= k) s = Stuck w.
Proof. unfold mbind, M_bind. intros ->. reflexivity. Qed.

Lemma bind_inv {A B} (m : M A) (k : A -> M B) s b s'' :
  (m ≫= k) s = Ok b s'' -> exists a s', m s = Ok a s' /\ k a s' = Ok b s''.
Proof. unfold mbind, M_bind. destruct (m s); [eauto | discriminate]. Qed.




Lemma xrsp_send_usb_spec msg s :
  exists r s', xrsp_send_usb msg s = Ok tt s' /\
    wired s [EvSendUsb msg r] s' /\
    increment (st_host s') = increment (st_host s).
Proof.
  unfold xrsp_send_usb. mrun.
  destruct (usb_valid (st_host s)) eqn:Hv; mrun.
  - destruct (libusb_bulk_transfer_out (st_bulk_out s)) as [r sent] eqn:Hx.
    cbn [fst snd].
    destruct (negb (r =? 0) || (sent =? 0)) eqn:E1; mrun.
    + destruct ((r =? LIBUSB_ERROR_NO_DEVICE) || (r =? LIBUSB_ERROR_TIMEOUT)) eqn:E2; mrun.
      * do 2 eexists. split; [reflexivity|]. split; [|reflexivity].
        split; ssimpl; try reflexivity; try lia.
        right. repeat split. exists (st_bulk_out s). split; [lia|].
        rewrite Hx. unfold send_failed. cbn [fst]. lia.
      * do 2 eexists. split; [reflexivity|]. split; [|reflexivity].
        split; ssimpl; try reflexivity; try lia. by left.
    + do 2 eexists. split; [reflexivity|]. split; [|reflexivity].
      split; ssimpl; try reflexivity; try lia. by left.
  - do 2 eexists. split; [reflexivity|]. split; [|reflexivity].
    split; ssimpl; try reflexivity; try lia. by left.
Qed.

Lemma xrsp_send_to_topic_raw_spec tp data n s :
  exists r s', xrsp_send_to_topic_raw tp data n s = Ok tt s' /\
    wired s [EvSendUsb (xrsp_topic_msg (increment (st_host s)) tp data n) r] s' /\
    increment (st_host s') = u16 (increment (st_host s) + 1).
Proof.
  unfold xrsp_send_to_topic_raw. munfold.
  destruct (xrsp_send_usb_spec (xrsp_topic_msg (increment (st_host s)) tp data n) s)
    as (r & s1 & E & Q & I).
  rewrite E. ssimpl.
  exists r. eexists. split; [reflexivity|]. split; [|by rewrite <- I].
  destruct Q as [h m k o r0 c g p b l t]. split; ssimpl; auto.
Qed.

Lemma xrsp_send_to_topic_loop_unfold fuel tp data idx to_send :
  xrsp_send_to_topic_loop (S fuel) tp data idx to_send =
  if idx >=? to_send then mret tt
  else
    let amt := if i32 (idx + 0x3FFF8) >=? to_send then to_send - idx else 0x3FFF8 in
    xrsp_send_to_topic_raw tp (drop (Z.to_nat idx) data) amt;;
    xrsp_send_to_topic_loop fuel tp data (i32 (idx + amt)) to_send.
Proof. reflexivity. Qed.

Lemma i32_small x : - 2 ^ 31 <= x < 2 ^ 31 -> i32 x = x.
Proof. intros. unfold i32. rewrite Z.mod_small by lia. lia. Qed.

Lemma xrsp_topic_msg_topic seq tp data n :
  topic (msg_header (xrsp_topic_msg seq tp data n)) = tp.
Proof. unfold xrsp_topic_msg. cbv zeta. by destruct (_ && _). Qed.



Lemma unpadded_topic_msg seq tp (data : list Z) n :
  0 <= n <= size_of data ->
  unpadded (xrsp_topic_msg seq tp data n) = take (Z.to_nat n) data.
Proof.
  intros Hn. rewrite xrsp_topic_msg_eq by lia. unfold unpadded. cbv zeta.
  cbn [msg_payload msg_header has_alignment_padding topic_header].
  pose proof (pad_bytes_range n) as Hr.
  assert (Hl : length (take (Z.to_nat n) data) = Z.to_nat n).
  { rewrite length_take. unfold size_of in Hn. lia. }
  destruct (Z.eqb_spec (pad_bytes n) 0) as [E|E].
  - change (0 =? 0) with true. cbv iota. by rewrite app_nil_r.
  - change (1 =? 0) with false. cbv iota.
    rewrite app_assoc, last_snoc. cbn [default].
    rewrite !length_app, length_replicate, Hl. cbn [length].
    rewrite <- app_assoc. rewrite take_app_length'; [done|].
    rewrite Hl. unfold id. lia.
Qed.

Lemma xrsp_send_to_topic_loop_spec fuel : forall tp (data : list Z) n idx s,
  size_of data = n -> n <= INT32_MAX - 0x3FFF8 -> 0 <= idx <= n ->
  n - idx < Z.of_nat fuel ->
  exists evs s', xrsp_send_to_topic_loop fuel tp data idx n s = Ok tt s' /\
    wired s evs s' /\
    Forall (is_frame tp) evs /\
    Forall (fun e => 0 < size_of (frame_data e) <= 0x3FFF8) evs /\
    concat (map frame_data evs) = drop (Z.to_nat idx) data.
Proof.
  induction fuel as [|fuel IH]; intros tp data n idx s Hlen Hmax Hidx Hfuel; [lia|].
  rewrite xrsp_send_to_topic_loop_unfold.
  destruct (Z.geb_spec idx n) as [Hge|Hlt].
  - exists [], s. split; [reflexivity|]. split; [apply wired_refl|].
    repeat split; try constructor.
    cbn. rewrite drop_ge; [done|]. unfold size_of in Hlen. lia.
  - cbv zeta. unfold INT32_MAX in Hmax.
    rewrite (i32_small (idx + 0x3FFF8)) by lia.
    set (amt := if idx + 0x3FFF8 >=? n then n - idx else 0x3FFF8).
    assert (Hamt : 0 < amt <= 0x3FFF8 /\ idx + amt <= n).
    { subst amt. destruct (Z.geb_spec (idx + 0x3FFF8) n); lia. }
    rewrite (i32_small (idx + amt)) by lia.
    destruct (xrsp_send_to_topic_raw_spec tp (drop (Z.to_nat idx) data) amt s)
      as (r & s1 & E1 & W1 & _).
    rewrite (bind_Ok _ _ _ _ _ E1).
    destruct (IH tp data n (idx + amt) s1) as (evs & s2 & E2 & W2 & F2 & S2 & C2);
      [done | unfold INT32_MAX; lia | lia | lia |].
    eexists (_ :: evs), s2. split; [exact E2|].
    split; [exact (wired_trans _ _ _ _ _ W1 W2)|].
    assert (Hu : unpadded (xrsp_topic_msg (increment (st_host s)) tp
                             (drop (Z.to_nat idx) data) amt)
                 = take (Z.to_nat amt) (drop (Z.to_nat idx) data)).
    { apply unpadded_topic_msg. unfold size_of in *. rewrite length_drop. lia. }
    split; [constructor; [|done]|].
    { do 2 eexists. split; [reflexivity|]. apply xrsp_topic_msg_topic. }
    split; [constructor; [|done]|].
    { cbn [frame_data]. rewrite Hu. unfold size_of in *.
      rewrite length_take, length_drop. lia. }
    cbn [map concat frame_data]. rewrite Hu, C2.
    replace (Z.to_nat (idx + amt)) with (Z.to_nat idx + Z.to_nat amt)%nat by lia.
    rewrite <- drop_drop. apply take_drop.
Qed.

Lemma wire_view_usb_mutex b h :
  wire_view (set_usb_mutex b h) = set_usb_mutex b (wire_view h).
Proof. reflexivity. Qed.

Lemma set_usb_mutex_id h : set_usb_mutex (usb_mutex h) h = h.
Proof. by destruct h. Qed.

Lemma set_usb_mutex_twice a b h :
  set_usb_mutex a (set_usb_mutex b h) = set_usb_mutex a h.
Proof. reflexivity. Qed.

Lemma os_mutex_lock_usb s :
  usb_mutex (st_host s) = false ->
  os_mutex_lock usb_mutex_id s =
  Ok tt (set_st_trace (st_trace s ++ [EvLock usb_mutex_id])
           (set_st_host (set_usb_mutex true (st_host s)) s)).
Proof.
  intros Hm. unfold os_mutex_lock, mutex_held, mutex_store. mrun.
  rewrite Hm. mrun. reflexivity.
Qed.

Lemma os_mutex_lock_usb_held s :
  usb_mutex (st_host s) = true ->
  os_mutex_lock usb_mutex_id s = Stuck Deadlock.
Proof.
  intros Hm. unfold os_mutex_lock, mutex_held, mutex_store. mrun.
  rewrite Hm. reflexivity.
Qed.

Lemma os_mutex_unlock_usb s :
  os_mutex_unlock usb_mutex_id s =
  Ok tt (set_st_trace (st_trace s ++ [EvUnlock usb_mutex_id])
           (set_st_host (set_usb_mutex false (st_host s)) s)).
Proof. reflexivity. Qed.

Lemma xrsp_send_to_topic_spec tp (data : list Z) n s :
  usb_mutex (st_host s) = false -> size_of data = n -> sendable n ->
  exists evs s', xrsp_send_to_topic tp data n s = Ok tt s' /\
    wired s ([EvLock usb_mutex_id] ++ evs ++ [EvUnlock usb_mutex_id]) s' /\
    Forall (is_frame tp) evs /\
    Forall (fun e => 0 < size_of (frame_data e) <= 0x3FFF8) evs /\
    concat (map frame_data evs) = data.
Proof.
  intros Hm Hlen [Hpos Hmax]. unfold xrsp_send_to_topic.
  rewrite (bind_Ok _ _ _ _ _ (os_mutex_lock_usb s Hm)).
  destruct (Z.leb_spec n 0) as [?|_]; [lia|].
  set (s0 := set_st_trace _ _).
  destruct (xrsp_send_to_topic_loop_spec (Z.to_nat (n + 1)) tp data n 0 s0)
    as (evs & s1 & E & Q & F & S & C); [done | lia | lia | lia |].
  rewrite (bind_Ok _ _ _ _ _ E), os_mutex_unlock_usb.
  exists evs. eexists. split; [reflexivity|].
  split; [|by rewrite drop_0 in C].
  destruct Q as [h m k o r0 c g p b l t]. subst s0. revert h m k o r0 c g p b l t. ssimpl. intros h m k o r0 c g p b l t.
  split; ssimpl; auto.
  - rewrite wire_view_usb_mutex, h, <- wire_view_usb_mutex, set_usb_mutex_twice.
    by rewrite <- Hm, set_usb_mutex_id.
  - rewrite t. by rewrite <- !app_assoc.
Qed.

Lemma xrsp_topic_msg_payload_size_le seq tp (data : list Z) n :
  0 <= n <= size_of data ->
  size_of (msg_payload (xrsp_topic_msg seq tp data n)) = n + pad_bytes n.
Proof.
  intros Hn. rewrite xrsp_topic_msg_eq by lia. cbv zeta. cbn [msg_payload].
  rewrite size_of_app. unfold size_of at 1. rewrite length_take.
  unfold size_of in Hn. pose proof (pad_bytes_range n).
  destruct (Z.eqb_spec (pad_bytes n) 0) as [E|E].
  - unfold size_of. simpl. lia.
  - rewrite size_of_app, size_of_replicate. unfold size_of. simpl. lia.
Qed.

Lemma xrsp_send_to_topic_loop_0x80000 fuel tp (data : list Z) s :
  size_of data = 0x80000 ->
  exists m1 m2 m3 r1 r2 r3 s',
    xrsp_send_to_topic_loop (S (S (S (S fuel)))) tp data 0 0x80000 s = Ok tt s' /\
    wired s [EvSendUsb m1 r1; EvSendUsb m2 r2; EvSendUsb m3 r3] s' /\
    size_of (msg_payload m1) = 0x3FFF8 /\
    size_of (msg_payload m2) = 0x3FFF8 /\
    size_of (msg_payload m3) = 0x0010.
Proof.
  intros Hlen.
  rewrite xrsp_send_to_topic_loop_unfold.
  change (0 >=? 0x80000) with false. cbv iota zeta.
  change (i32 (0 + 262136) >=? 524288) with false. cbv iota.
  destruct (xrsp_send_to_topic_raw_spec tp (drop (Z.to_nat 0) data) 0x3FFF8 s)
    as (r1 & s1 & E1 & W1 & _).
  rewrite (bind_Ok _ _ _ _ _ E1).
  change (i32 (0 + 262136)) with 262136.
  rewrite xrsp_send_to_topic_loop_unfold.
  change (262136 >=? 0x80000) with false. cbv iota zeta.
  change (i32 (262136 + 262136) >=? 524288) with false. cbv iota.
  destruct (xrsp_send_to_topic_raw_spec tp (drop (Z.to_nat 262136) data) 0x3FFF8 s1)
    as (r2 & s2 & E2 & W2 & _).
  rewrite (bind_Ok _ _ _ _ _ E2).
  change (i32 (262136 + 262136)) with 524272.
  rewrite xrsp_send_to_topic_loop_unfold.
  change (524272 >=? 0x80000) with false. cbv iota zeta.
  change (i32 (524272 + 262136) >=? 524288) with true. cbv iota.
  change (524288 - 524272) with 16.
  destruct (xrsp_send_to_topic_raw_spec tp (drop (Z.to_nat 524272) data) 16 s2)
    as (r3 & s3 & E3 & W3 & _).
  rewrite (bind_Ok _ _ _ _ _ E3).
  change (i32 (524272 + 16)) with 524288.
  rewrite xrsp_send_to_topic_loop_unfold.
  change (524288 >=? 0x80000) with true. cbv iota.
  do 6 eexists. exists s3. split; [reflexivity|].
  split; [exact (wired_trans _ _ _ _ _ W1 (wired_trans _ _ _ _ _ W2 W3))|].
  unfold size_of in Hlen.
  rewrite !xrsp_topic_msg_payload_size_le
    by (unfold size_of; rewrite length_drop; lia).
  repeat split; reflexivity.
Qed.

(** C7.  A call with [data_size] positive (and at most
    [INT32_MAX - 0x3FFF8], so that [idx + amt] does not overflow) on a free
    transport lock returns; it takes the lock once, hands the transport a
    run of frames of the given topic and releases the lock, with nothing
    else in between; the frames carry, in order, consecutive non-empty
    chunks of the data of at most 0x3FFF8 bytes each.  For 0x80000 bytes
    there are exactly three frames, with payloads of 0x3FFF8, 0x3FFF8 and
    0x10 bytes. *)
Theorem xrsp_send_to_topic_chunks tp (data : list Z) n s :
  usb_mutex (st_host s) = false -> size_of data = n -> sendable n ->
  exists evs s',
    xrsp_send_to_topic tp data n s = Ok tt s' /\
    st_trace s' =
      st_trace s ++ [EvLock usb_mutex_id] ++ evs ++ [EvUnlock usb_mutex_id] /\
    usb_mutex (st_host s') = false /\
    Forall (is_frame tp) evs /\
    Forall (fun e => 0 < size_of (frame_data e) <= 0x3FFF8) evs /\
    concat (map frame_data evs) = data /\
    (n = 0x80000 ->
     exists m1 m2 m3 r1 r2 r3,
       evs = [EvSendUsb m1 r1; EvSendUsb m2 r2; EvSendUsb m3 r3] /\
       size_of (msg_payload m1) = 0x3FFF8 /\
       size_of (msg_payload m2) = 0x3FFF8 /\
       size_of (msg_payload m3) = 0x0010).
Proof.
  intros Hm Hlen Hs.
  destruct (xrsp_send_to_topic_spec tp data n s Hm Hlen Hs)
    as (evs & s' & E & Q & F & S & C).
  exists evs, s'. split; [exact E|]. split; [exact (w_trace _ _ _ Q)|].
  split.
  { pose proof (f_equal usb_mutex (w_host _ _ _ Q)) as Hu. cbn in Hu. congruence. }
  do 3 (split; [done|]).
  intros ->. clear F S C.
  revert E. unfold xrsp_send_to_topic.
  rewrite (bind_Ok _ _ _ _ _ (os_mutex_lock_usb s Hm)).
  change (0x80000 <=? 0) with false. cbv iota.
  replace (Z.to_nat (0x80000 + 1)) with (S (S (S (S (Z.to_nat 0x7FFFD))))) by lia.
  set (s0 := set_st_trace _ _).
  destruct (xrsp_send_to_topic_loop_0x80000 (Z.to_nat 0x7FFFD) tp data s0 Hlen)
    as (m1 & m2 & m3 & r1 & r2 & r3 & s3 & E3 & W3 & S1 & S2 & S3).
  rewrite (bind_Ok _ _ _ _ _ E3), os_mutex_unlock_usb.
  intros [= <-]. exists m1, m2, m3, r1, r2, r3.
  split; [|done].
  pose proof (w_trace _ _ _ Q) as T. revert T. ssimpl.
  rewrite (w_trace _ _ _ W3). subst s0. ssimpl.
  rewrite <- !app_assoc. intros T.
  apply app_inv_head in T. cbn in T. injection T as T.
  change [EvSendUsb m1 r1; EvSendUsb m2 r2; EvSendUsb m3 r3; EvUnlock usb_mutex_id]
    with ([EvSendUsb m1 r1; EvSendUsb m2 r2; EvSendUsb m3 r3] ++ [EvUnlock usb_mutex_id]) in T.
  apply app_inv_tail in T. done.
Qed.

(** C9, what the code does where the claim fails: with [data_size <= 0]
    the call returns right after taking the transport lock, without
    releasing it, and every later call blocks on the lock. *)
Theorem xrsp_send_to_topic_keeps_lock tp (data : list Z) n s :
  usb_mutex (st_host s) = false -> n <= 0 ->
  exists s',
    xrsp_send_to_topic tp data n s = Ok tt s' /\
    st_trace s' = st_trace s ++ [EvLock usb_mutex_id] /\
    usb_mutex (st_host s') = true /\
    forall tp' data' n', xrsp_send_to_topic tp' data' n' s' = Stuck Deadlock.
Proof.
  intros Hm Hn. unfold xrsp_send_to_topic at 1.
  rewrite (bind_Ok _ _ _ _ _ (os_mutex_lock_usb s Hm)).
  destruct (Z.leb_spec n 0) as [_|?]; [|lia].
  eexists. split; [reflexivity|]. ssimpl. split; [done|]. split; [done|].
  intros tp' data' n'. unfold xrsp_send_to_topic.
  rewrite (bind_Stuck _ (fun _ => _) _ Deadlock); [done|].
  by apply os_mutex_lock_usb_held.
Qed.
End Transport.

Lemma xrsp_send_to_topic_chunks_witness :
  usb_mutex (st_host (state_zero None)) = false /\
  size_of [1; 2; 3] = 3 /\ sendable 3 /\
  exists evs s',
    xrsp_send_to_topic (P := sample_world) 1 [1; 2; 3] 3 (state_zero None) = Ok tt s' /\
    concat (map frame_data evs) = [1; 2; 3].
Proof.
  assert (Hs : sendable 3) by (unfold sendable, INT32_MAX; lia).
  split; [reflexivity|]. split; [reflexivity|]. split; [exact Hs|].
  destruct (xrsp_send_to_topic_chunks (P := sample_world) 1 [1; 2; 3] 3
              (state_zero None) eq_refl eq_refl Hs)
    as (evs & s' & E & _ & _ & _ & _ & C & _).
  exists evs, s'. split; [exact E | exact C].
Defined.

Lemma xrsp_send_to_topic_keeps_lock_witness :
  usb_mutex (st_host (state_zero None)) = false /\ 0 <= 0 /\
  exists s',
    xrsp_send_to_topic (P := sample_world) 1 [] 0 (state_zero None) = Ok tt s' /\
    usb_mutex (st_host s') = true /\
    xrsp_send_to_topic (P := sample_world) 1 [1; 2; 3] 3 s' = Stuck Deadlock.
Proof.
  split; [reflexivity|]. split; [lia|].
  destruct (xrsp_send_to_topic_keeps_lock (P := sample_world) 1 [] 0
              (state_zero None) eq_refl)
    as (s' & E & _ & Hm & Hd); [lia|].
  exists s'. split; [exact E|]. split; [exact Hm | apply Hd].
Defined.

(** ** Transport failure and re-initialisation *)

Section Failure.
Context {P : platform} {X : externs}.

Lemma usb_init_reopen_spec n : forall s,
  exists k s', (k <= n)%nat /\
    usb_init_reopen n s = Ok tt s' /\
    st_trace s' = st_trace s ++ concat (replicate k reopen_failure)
                    ++ (if (k <? n)%nat then [EvOpen true] else []) /\
    (0 < n -> dev (st_host s') = (k <? n)%nat)%nat /\
    usb_mutex (st_host s') = usb_mutex (st_host s) /\
    if_num (st_host s') = if_num (st_host s).
Proof.
  induction n as [|n IH]; intros s.
  - exists 0%nat, s. split; [lia|]. split; [reflexivity|].
    cbn. rewrite app_nil_r. repeat split; try done. lia.
  - cbn [usb_init_reopen]. unfold libusb_open, os_nanosleep. mrun.
    destruct (libusb_open_device_with_vid_pid (st_open s)) eqn:Ho; mrun.
    + exists 0%nat. eexists. split; [lia|]. split; [reflexivity|]. ssimpl.
      cbn. repeat split; done.
    + match goal with |- context [usb_init_reopen n ?s1] =>
        destruct (IH s1) as (k & s' & Hk & E & T & D & Mx & I) end.
      exists (S k), s'. split; [lia|]. split; [exact E|].
      revert T D Mx I. ssimpl. intros T D Mx I.
      split.
      { rewrite T. cbn [replicate concat reopen_failure].
        rewrite <- !app_assoc. cbn [app].
        replace (S k <? S n)%nat with (k <? n)%nat; [done|].
        destruct (Nat.ltb_spec k n), (Nat.ltb_spec (S k) (S n)); try done; lia. }
      split; [|done].
      intros _. destruct n as [|n'].
      * assert (k = 0)%nat as -> by lia. revert E. cbn. intros [= <-]. reflexivity.
      * rewrite D by lia.
        destruct (Nat.ltb_spec k (S n')), (Nat.ltb_spec (S k) (S (S n'))); try done; lia.
Qed.

Lemma usb_init_endpoints_spec eps : forall s,
  exists h', usb_init_endpoints eps s = Ok tt (set_st_host h' s).
Proof.
  induction eps as [|ep eps IH]; intros s.
  - exists (st_host s). by destruct s.
  - cbn [usb_init_endpoints]. unfold usb_init_endpoint. mrun.
    destruct (_ && _); mrun.
    + destruct (IH (set_st_host (set_ep_out ep (st_host s)) s)) as (h' & E).
      rewrite E. exists h'. reflexivity.
    + destruct (_ && _); mrun.
      * destruct (IH (set_st_host (set_ep_in ep (st_host s)) s)) as (h' & E).
        rewrite E. exists h'. reflexivity.
      * apply IH.
Qed.

Lemma usb_init_claim_trace s ret s' :
  usb_init_claim s = Ok ret s' ->
  exists evs, st_trace s' = st_trace s ++ evs /\ Forall no_open evs /\
    (forall r, EvReset r ∈ evs -> libusb_claim_interface (st_claim s) < 0).
Proof.
  unfold usb_init_claim, usb_init_cleanup, libusb_claim, libusb_reset,
    libusb_config, libusb_speed, libusb_clear_halt, os_mutex_unlock, mutex_store.
  mrun.
  destruct (Z.ltb_spec (libusb_claim_interface (st_claim s)) 0) as [Hc|Hc]; mrun.
  - intros [= <- <-]. ssimpl. eexists. rewrite <- !app_assoc. split; [reflexivity|].
    split; [repeat constructor|]. intros; lia.
  - destruct (libusb_get_active_config_descriptor (st_config s)) as [r [config|]]; mrun.
    2:{ intros [= <- <-]. ssimpl. eexists. rewrite <- !app_assoc. split; [reflexivity|].
        split; [repeat constructor|]. intros r0 Hr. cbn in Hr.
        repeat (apply elem_of_cons in Hr as [Hr|Hr]; [discriminate|]). by apply elem_of_nil in Hr. }
    destruct (r <? 0); mrun.
    { intros [= <- <-]. ssimpl. eexists. rewrite <- !app_assoc. split; [reflexivity|].
        split; [repeat constructor|]. intros r0 Hr. cbn in Hr.
        repeat (apply elem_of_cons in Hr as [Hr|Hr]; [discriminate|]). by apply elem_of_nil in Hr. }
    destruct (List.find _ _) as [pIf|]; mrun; [|discriminate].
    match goal with |- context [usb_init_endpoints ?e ?s1] =>
      destruct (usb_init_endpoints_spec e s1) as (h' & E); rewrite E end.
    ssimpl.
    destruct (_ || _); mrun.
    + intros [= <- <-]. ssimpl. eexists. rewrite <- !app_assoc. split; [reflexivity|].
        split; [repeat constructor|]. intros r0 Hr. cbn in Hr.
        repeat (apply elem_of_cons in Hr as [Hr|Hr]; [discriminate|]). by apply elem_of_nil in Hr.
    + intros [= <- <-]. ssimpl. eexists. rewrite <- !app_assoc. split; [reflexivity|].
        split; [repeat constructor|]. intros r0 Hr. cbn in Hr.
        repeat (apply elem_of_cons in Hr as [Hr|Hr]; [discriminate|]). by apply elem_of_nil in Hr.
Qed.

Lemma ql_xrsp_usb_init_reopen s ret s' :
  usb_mutex (st_host s) = false ->
  ql_xrsp_usb_init false s = Ok ret s' ->
  exists evs,
    st_trace s' =
      st_trace s ++ [EvLock usb_mutex_id]
      ++ (if dev (st_host s) then [EvClose] else [])
      ++ [EvOpen (libusb_open_device_with_vid_pid (st_open s))] ++ evs /\
    Forall no_open evs /\
    (forall r, EvReset r ∈ evs -> libusb_claim_interface (st_claim s) < 0).
Proof.
  intros Hm. unfold ql_xrsp_usb_init.
  rewrite (bind_Ok _ _ _ _ _ (os_mutex_lock_usb s Hm)).
  unfold libusb_close, libusb_open, usb_init_cleanup, os_mutex_unlock, mutex_store.
  mrun.
  destruct (dev (st_host s)) eqn:Hd; mrun.
  - destruct (libusb_open_device_with_vid_pid (st_open s)) eqn:Ho; mrun.
    + intros E. apply usb_init_claim_trace in E. revert E. ssimpl.
      intros (evs & T & F & R). exists evs. rewrite T, <- !app_assoc. done.
    + intros [= <- <-]. ssimpl. eexists. rewrite <- !app_assoc. split; [reflexivity|].
      split; [repeat constructor|]. intros r0 Hr.
      repeat (apply elem_of_cons in Hr as [Hr|Hr]; [discriminate|]). by apply elem_of_nil in Hr.
  - destruct (libusb_open_device_with_vid_pid (st_open s)) eqn:Ho; mrun.
    + intros E. apply usb_init_claim_trace in E. revert E. ssimpl.
      intros (evs & T & F & R). exists evs. rewrite T, <- !app_assoc. done.
    + intros [= <- <-]. ssimpl. eexists. rewrite <- !app_assoc. split; [reflexivity|].
      split; [repeat constructor|]. intros r0 Hr.
      repeat (apply elem_of_cons in Hr as [Hr|Hr]; [discriminate|]). by apply elem_of_nil in Hr.
Qed.

Lemma ql_xrsp_usb_init_reset s ret s' :
  usb_mutex (st_host s) = false ->
  ql_xrsp_usb_init true s = Ok ret s' ->
  libusb_open_device_with_vid_pid (st_open s) = true ->
  let r := libusb_reset_device (st_reset s) in
  r = LIBUSB_SUCCESS \/ r = LIBUSB_ERROR_NOT_FOUND ->
  exists k rest, (k <= 10)%nat /\
    st_trace s' =
      st_trace s ++ [EvLock usb_mutex_id]
      ++ (if dev (st_host s) then [EvClose] else [])
      ++ [EvOpen true; EvReset r]
      ++ (if r =? LIBUSB_SUCCESS then [EvClose] else [])
      ++ concat (replicate k reopen_failure) ++ rest /\
    (k = 10%nat -> rest = [EvUnlock usb_mutex_id] /\ ret = -1) /\
    (k < 10 -> exists rest', rest = EvOpen true :: rest' /\ Forall no_open rest')%nat.
Proof.
  intros Hm E Ho r Hr. revert E. unfold ql_xrsp_usb_init.
  rewrite (bind_Ok _ _ _ _ _ (os_mutex_lock_usb s Hm)).
  unfold libusb_close, libusb_open, libusb_reset, usb_init_cleanup,
    os_mutex_unlock, mutex_store.
  assert (Hcase : forall s0 : state,
    usb_mutex (st_host s0) = true ->
    (x ← usb_init_reopen 10; (fun _ : unit =>
       open ← get_host dev;
       if negb open then usb_init_cleanup else usb_init_claim) x) s0 = Ok ret s' ->
    exists k rest, (k <= 10)%nat /\
      st_trace s' = st_trace s0 ++ concat (replicate k reopen_failure) ++ rest /\
      (k = 10%nat -> rest = [EvUnlock usb_mutex_id] /\ ret = -1) /\
      (k < 10 -> exists rest', rest = EvOpen true :: rest' /\ Forall no_open rest')%nat).
  { intros s0 Hm0.
    destruct (usb_init_reopen_spec 10 s0) as (k & s1 & Hk & E1 & T1 & D1 & M1 & _).
    rewrite (bind_Ok _ _ _ _ _ E1). mrun. rewrite D1 by lia.
    destruct (Nat.ltb_spec k 10) as [Hlt|Hge]; cbn [negb].
    - intros E. apply usb_init_claim_trace in E as (evs & T & F & _).
      exists k. eexists. split; [lia|]. split.
      { rewrite T, T1, <- !app_assoc. reflexivity. }
      split; [lia|]. intros _. eexists. split; [reflexivity | done].
    - unfold usb_init_cleanup, os_mutex_unlock, mutex_store. mrun.
      intros [= <- <-]. ssimpl. exists k. eexists. split; [lia|]. split.
      { rewrite T1, <- !app_assoc. cbn [app]. reflexivity. }
      split; [done | lia]. }
  fold r. unfold LIBUSB_SUCCESS, LIBUSB_ERROR_NOT_FOUND in *.
  cbv beta iota delta [mbind M_bind mret M_ret get_host] in Hcase.
  assert (Hfin : forall s0 : state,
    usb_mutex (st_host s0) = true ->
    match usb_init_reopen 10 s0 with
    | Ok _ s1 =>
        (if negb (dev (st_host s1))
         then usb_init_cleanup else usb_init_claim) s1
    | Stuck w => Stuck w
    end = Ok ret s' ->
    forall pre, st_trace s0 = st_trace s ++ pre ->
    exists k rest, (k <= 10)%nat /\
      st_trace s' = st_trace s ++ pre ++ concat (replicate k reopen_failure) ++ rest /\
      (k = 10%nat -> rest = [EvUnlock usb_mutex_id] /\ ret = -1) /\
      (k < 10 -> exists rest', rest = EvOpen true :: rest' /\ Forall no_open rest')%nat).
  { intros s0 Hm0 E pre Hpre. apply (Hcase s0 Hm0) in E.
    destruct E as (k & rest & Hk & T & H10 & Hlt).
    exists k, rest. split; [lia|]. split; [|done].
    rewrite T, Hpre, <- !app_assoc. reflexivity. }
  clear Hcase. mrun.
  destruct (dev (st_host s)) eqn:Hd; mrun; rewrite Ho; mrun; fold r.
  - destruct Hr as [Hr|Hr]; rewrite Hr; cbn [Z.eqb Pos.eqb negb]; munfold.
    + intros E. eapply Hfin in E; [|reflexivity|].
      2:{ ssimpl. rewrite <- !app_assoc. reflexivity. }
      exact E.
    + intros E. eapply Hfin in E; [|reflexivity|].
      2:{ ssimpl. rewrite <- !app_assoc. reflexivity. }
      exact E.
  - destruct Hr as [Hr|Hr]; rewrite Hr; cbn [Z.eqb Pos.eqb negb]; munfold.
    + intros E. eapply Hfin in E; [|reflexivity|].
      2:{ ssimpl. rewrite <- !app_assoc. reflexivity. }
      exact E.
    + intros E. eapply Hfin in E; [|reflexivity|].
      2:{ ssimpl. rewrite <- !app_assoc. reflexivity. }
      exact E.
Qed.

Lemma xrsp_send_usb_failed msg s :
  usb_valid (st_host s) = true ->
  send_failed (libusb_bulk_transfer_out (st_bulk_out s)) ->
  xrsp_send_usb msg s =
  Ok tt (set_st_host
           (set_pairing_state PAIRINGSTATE_WAIT_FIRST
              (set_usb_valid false (st_host s)))
           (set_st_trace
              (st_trace s ++
               [EvSendUsb msg (Some (libusb_bulk_transfer_out (st_bulk_out s)))])
              (set_st_bulk_out (S (st_bulk_out s)) s))).
Proof.
  intros Hv Hf. unfold xrsp_send_usb, send_failed in *. mrun. rewrite Hv. mrun.
  destruct (libusb_bulk_transfer_out (st_bulk_out s)) as [r sent]. cbn [fst snd] in *.
  unfold LIBUSB_ERROR_NO_DEVICE, LIBUSB_ERROR_TIMEOUT in *.
  replace (negb (r =? 0) || (sent =? 0)) with true by lia.
  replace ((r =? -4) || (r =? -7)) with true by lia.
  reflexivity.
Qed.

Lemma ql_xrsp_read_thread_iter_reopen s :
  pairing_state (st_host s) = PAIRINGSTATE_WAIT_FIRST ->
  usb_valid (st_host s) = false ->
  os_monotonic_get_ns (st_ticks s) - last_read_ns (st_host s) > 1000000000 ->
  ql_xrsp_read_thread_iter s =
  (_ ← ql_xrsp_usb_init false;
   now ← xrsp_ts_ns;
   set_host (set_last_read_ns now);;
   _ ← xrsp_read_usb;
   os_nanosleep (U_TIME_1MS_IN_NS / 10)) (set_st_ticks (S (st_ticks s)) s).
Proof.
  intros Hp Hv Ht. unfold ql_xrsp_read_thread_iter.
  mrun. rewrite Hp, Hv.
  replace (os_monotonic_get_ns (st_ticks s) - last_read_ns (st_host s) >? 1000000000)
    with true by lia.
  rewrite bool_decide_eq_true_2 by done. cbn [andb negb].
  destruct (ql_xrsp_usb_init false _); reflexivity.
Qed.


End Failure.



(** ** Clock synchronisation *)

Section Echo.
Context {P : platform} {X : externs}.

(** C4, what the code computes on a PONG (host not yet paired, so no
    PING follows): [echo_req_sent_ns] is overwritten with the clock
    reading [now] taken while the PONG is handled, and the new sample is
    [((recv - now) + (xmt - recv_ns)) >> 1], not the claim's
    [((recv - org) + (xmt - t_recv)) / 2]; [payload->org] is never read.
    The sample replaces a zero [ns_offset] and is otherwise averaged with
    it by a truncating division.  In the spec's scenario the result is
    -20, not 0. *)
Theorem xrsp_handle_echo_pong pkt s :
  Z.land (result pkt) 1 = 1 ->
  pairing_state (st_host s) <> PAIRINGSTATE_PAIRED ->
  let now := os_monotonic_get_ns (st_ticks s) in
  let calc_ns_offset :=
    Z.shiftr ((recv (payload pkt) - now) + (xmt (payload pkt) - recv_ns pkt)) 1 in
  exists s',
    xrsp_handle_echo pkt s = Ok tt s' /\
    echo_req_sent_ns (st_host s') = now /\
    ns_offset (st_host s') =
      (if ns_offset (st_host s) =? 0 then calc_ns_offset
       else Z.quot (ns_offset (st_host s) + calc_ns_offset) 2).
Proof.
  intros Hr Hp now calc. unfold xrsp_handle_echo. rewrite Hr.
  change (1 =? 1) with true. cbv iota. mrun.
  destruct (ns_offset (st_host s) =? 0); mrun;
    rewrite bool_decide_eq_false_2 by done;
    (eexists; split; [reflexivity|]; hsimpl; ssimpl; hsimpl; split; reflexivity).
Qed.
End Echo.

Lemma xrsp_handle_echo_pong_witness :
  Z.land (result pong_pkt) 1 = 1 /\
  pairing_state (st_host pong_state) <> PAIRINGSTATE_PAIRED /\
  exists s',
    xrsp_handle_echo (P := pong_world) (X := sample_externs) pong_pkt pong_state
      = Ok tt s' /\
    ns_offset (st_host s') = -20.
Proof.
  split; [reflexivity|]. split; [discriminate|].
  destruct (xrsp_handle_echo_pong (P := pong_world) (X := sample_externs)
              pong_pkt pong_state eq_refl)
    as (s' & E & _ & N); [discriminate|].
  exists s'. split; [exact E | exact N].
Defined.

(** * Invariants of the runs *)

(** ** A logic of returning calls *)

#[local] Instance same_preorder {V} (view : ql_xrsp_host -> V) : PreOrder (same view).
Proof.
  split; unfold same; [intros s; reflexivity | intros s1 s2 s3; congruence].
Qed.

Section Steps.
Context (R : relation state) {HR : PreOrder R}.

Lemma steps_ret {A} (a : A) : steps R (mret a).
Proof. intros s b s' [= <- <-]. reflexivity. Qed.

Lemma steps_stop {A} w : steps R (@stop A w).
Proof. intros s b s' [=]. Qed.

Lemma steps_bind {A B} (m : M A) (k : A -> M B) :
  steps R m -> (forall a, steps R (k a)) -> steps R (m ≫= k).
Proof.
  intros Hm Hk s b s'' H. apply bind_inv in H as (a & s' & H1 & H2).
  etransitivity; [eapply Hm | eapply Hk]; eauto.
Qed.

Lemma steps_when b m : steps R m -> steps R (when b m).
Proof. destruct b; [done | intros _; apply steps_ret]. Qed.

Lemma steps_get_host {A} (f : ql_xrsp_host -> A) : steps R (get_host f).
Proof. intros s b s' [= <- <-]. reflexivity. Qed.

Lemma steps_rd {A} (a : ql_xrsp_host -> list A) i : steps R (rd a i).
Proof.
  intros s b s'. unfold rd. destruct (i <? 0); [done|].
  destruct (_ !! _); [|done]. intros [= <- <-]. reflexivity.
Qed.

Lemma steps_get_hmd : steps R get_hmd.
Proof.
  intros s b s'. unfold get_hmd. destruct (st_hmd s); [|done].
  intros [= <- <-]. reflexivity.
Qed.

Lemma steps_has_hmd : steps R has_hmd.
Proof. intros s b s' [= <- <-]. reflexivity. Qed.

Lemma steps_for_up {S} range (body : Z -> S -> M S) acc :
  (forall i a, steps R (body i a)) -> steps R (for_up range body acc).
Proof.
  intros Hb. revert acc. induction range as [|i range IH]; intros acc; cbn [for_up].
  - apply steps_ret.
  - apply steps_bind; [apply Hb | intros a; apply IH].
Qed.

End Steps.

Lemma steps_same_host {V A} (view : ql_xrsp_host -> V) (m : M A) :
  steps (same id) m -> steps (same view) m.
Proof.
  intros H s a s' E. unfold same. specialize (H s a s' E).
  unfold same, id in H. by rewrite H.
Qed.

Lemma steps_set_host {V} (view : ql_xrsp_host -> V) f :
  (forall h, view (f h) = view h) -> steps (same view) (set_host f).
Proof. intros H s a s' [= _ <-]. unfold same. ssimpl. apply H. Qed.

Lemma steps_wr {V A} (view : ql_xrsp_host -> V) (a : ql_xrsp_host -> list A) set_a i v :
  (forall l h, view (set_a l h) = view h) -> steps (same view) (wr a set_a i v).
Proof.
  intros H. unfold wr. apply steps_bind; [apply _ | apply steps_rd; apply _ |].
  intros _. apply steps_set_host. intros h. apply H.
Qed.

Section Prims.
Context {P : platform} {X : externs}.
Lemma host_log e : steps (same id) (log e).
Proof. by intros s a s' [= _ <-]. Qed.
Lemma host_ts : steps (same id) xrsp_ts_ns.
Proof. by intros s a s' [= _ <-]. Qed.
Lemma host_bulk : steps (same id) libusb_bulk_transfer.
Proof. by intros s a s' [= _ <-]. Qed.
Lemma host_set_hmd f : steps (same id) (set_hmd f).
Proof.
  intros s a s'. unfold set_hmd. destruct (st_hmd s); [|done].
  by intros [= _ <-].
Qed.
Lemma host_open : steps (same id) libusb_open.
Proof. by intros s a s' [= _ <-]. Qed.
Lemma host_reset : steps (same id) libusb_reset.
Proof. by intros s a s' [= _ <-]. Qed.
Lemma host_claim : steps (same id) libusb_claim.
Proof. by intros s a s' [= _ <-]. Qed.
Lemma host_config : steps (same id) libusb_config.
Proof. by intros s a s' [= _ <-]. Qed.
Lemma host_speed : steps (same id) libusb_speed.
Proof. by intros s a s' [= _ <-]. Qed.
End Prims.

Create HintDb steps discriminated.
#[export] Hint Resolve host_log host_ts host_bulk host_set_hmd host_open host_reset
  host_claim host_config host_speed : steps.

#[local] Instance keeps_preorder I : PreOrder (keeps I).
Proof. split; unfold keeps; [intros s; tauto | intros s1 s2 s3; tauto]. Qed.

Lemma steps_coarser {V W A} (v : ql_xrsp_host -> V) (w : ql_xrsp_host -> W) (m : M A) :
  (forall h h', v h = v h' -> w h = w h') -> steps (same v) m -> steps (same w) m.
Proof. intros Hc H s a s' E. apply Hc. exact (H s a s' E). Qed.

Lemma stream_lens h h' :
  stream_view h = stream_view h' -> lens_view h = lens_view h'.
Proof. intros E. apply (f_equal lens_view) in E. exact E. Qed.

Lemma same_lens_keeps {A} (m : M A) :
  steps (same lens_view) m -> steps (keeps lens_ok) m.
Proof.
  intros H s a s' E. specialize (H s a s' E). unfold same, lens_view in H.
  injection H as H1 H2. unfold keeps, lens_ok. by rewrite H1, H2.
Qed.

Ltac steps_atom :=
  lazymatch goal with
  | |- steps (same _) (set_host _) => apply steps_set_host; intros; reflexivity
  | |- steps (same _) (wr _ _ _ _) => apply steps_wr; intros; reflexivity
  | |- steps (same _) _ =>
      first [ solve [auto with steps]
            | apply steps_same_host; solve [auto with steps]
            | apply (steps_coarser stream_view); [exact stream_lens|];
              solve [auto with steps] ]
  end.

Ltac steps_step :=
  lazymatch goal with
  | |- steps _ (mbind _ _) => apply steps_bind; [apply _ | | intros ?]
  | |- steps _ (mret _) => apply steps_ret; apply _
  | |- steps _ (stop _) => apply steps_stop
  | |- steps _ (when _ _) => apply steps_when; [apply _ |]
  | |- steps _ (get_host _) => apply steps_get_host; apply _
  | |- steps _ (rd _ _) => apply steps_rd; apply _
  | |- steps _ get_hmd => apply steps_get_hmd; apply _
  | |- steps _ has_hmd => apply steps_has_hmd; apply _
  | |- steps _ (for_up _ _ _) => apply steps_for_up; [apply _ | intros ? ?]
  | |- steps _ (if ?b then _ else _) => destruct b
  | |- steps _ (match ?x with _ => _ end) => destruct x
  | |- steps _ (let _ := _ in _) => cbv zeta
  | |- steps (keeps lens_ok) _ =>
      first [ solve [auto with steps] | apply same_lens_keeps; steps_atom ]
  | |- _ => steps_atom
  end.
Ltac steps_go := repeat steps_step.

(** ** Appending to a stream buffer *)

Lemma stream_lock_unlock (l : list bool) k :
  l !! k = Some false -> <[k := false]> (<[k := true]> l) = l.
Proof. intros H. rewrite list_insert_insert_eq. by apply list_insert_id. Qed.

Section Append.
Context {P : platform} {X : externs}.

Lemma xrsp_send_csd_step (data : list Z) index slice_idx s len buf :
  let k := QL_IDX_SLICE slice_idx index in
  let h := st_host s in
  0 <= k ->
  needs_flush h !! Z.to_nat k = Some false ->
  stream_mutex h !! Z.to_nat k = Some false ->
  csd_stream_len h !! Z.to_nat k = Some len ->
  csd_stream h !! Z.to_nat k = Some buf ->
  0 <= len -> len + size_of data < 2 ^ 64 ->
  exists s',
    xrsp_send_csd data index slice_idx s = Ok tt s' /\
    st_host s' =
      if len + size_of data <? 0x1000000 then
        set_csd_stream_len (<[Z.to_nat k := len + size_of data]> (csd_stream_len h))
          (set_csd_stream (<[Z.to_nat k := memcpy_at buf len data]> (csd_stream h)) h)
      else h.
Proof.
  intros k h Hk Hf Hm Hl Hb Hlen Hdata. subst h.
  assert (Hu : u64 (len + size_of data) = len + size_of data).
  { unfold u64. apply Z.mod_small. unfold size_of in *. lia. }
  unfold xrsp_send_csd, wait_flushed, os_mutex_lock, os_mutex_unlock, mutex_held,
    mutex_store, wr, rd. cbv zeta. fold k.
  replace (k <? 0) with false by lia.
  destruct s as [h hm t b o r c g p tr]. cbn [st_host] in *.
  destruct h. cbn in Hf, Hm, Hl, Hb. mrun.
  repeat (first [rewrite Hf | rewrite Hm | rewrite Hl | rewrite Hb
                 | rewrite list_lookup_insert_eq
                     by (eapply lookup_lt_Some; eassumption)
                 | rewrite Hu ]; mrun).
  destruct (len + size_of data <? 16777216); mrun;
  repeat (first [rewrite Hf | rewrite Hm | rewrite Hl | rewrite Hb
                 | rewrite list_lookup_insert_eq
                     by (eapply lookup_lt_Some; eassumption) ]; mrun);
  (eexists; split; [reflexivity|]); ssimpl;
  rewrite stream_lock_unlock by done; reflexivity.
Qed.


Lemma xrsp_send_idr_step (data : list Z) index slice_idx s len buf :
  let k := QL_IDX_SLICE slice_idx index in
  let h := st_host s in
  0 <= k ->
  needs_flush h !! Z.to_nat k = Some false ->
  stream_mutex h !! Z.to_nat k = Some false ->
  idr_stream_len h !! Z.to_nat k = Some len ->
  idr_stream h !! Z.to_nat k = Some buf ->
  0 <= len -> len + size_of data < 2 ^ 64 ->
  exists s',
    xrsp_send_idr data index slice_idx s = Ok tt s' /\
    st_host s' =
      if len + size_of data <? 0x1000000 then
        set_idr_stream_len (<[Z.to_nat k := len + size_of data]> (idr_stream_len h))
          (set_idr_stream (<[Z.to_nat k := memcpy_at buf len data]> (idr_stream h)) h)
      else h.
Proof.
  intros k h Hk Hf Hm Hl Hb Hlen Hdata. subst h.
  assert (Hu : u64 (len + size_of data) = len + size_of data).
  { unfold u64. apply Z.mod_small. unfold size_of in *. lia. }
  unfold xrsp_send_idr, wait_flushed, os_mutex_lock, os_mutex_unlock, mutex_held,
    mutex_store, wr, rd. cbv zeta. fold k.
  replace (k <? 0) with false by lia.
  destruct s as [h hm t b o r c g p tr]. cbn [st_host] in *.
  destruct h. cbn in Hf, Hm, Hl, Hb. mrun.
  repeat (first [rewrite Hf | rewrite Hm | rewrite Hl | rewrite Hb
                 | rewrite list_lookup_insert_eq
                     by (eapply lookup_lt_Some; eassumption)
                 | rewrite Hu ]; mrun).
  destruct (len + size_of data <? 16777216); mrun;
  repeat (first [rewrite Hf | rewrite Hm | rewrite Hl | rewrite Hb
                 | rewrite list_lookup_insert_eq
                     by (eapply lookup_lt_Some; eassumption) ]; mrun);
  (eexists; split; [reflexivity|]); ssimpl;
  rewrite stream_lock_unlock by done; reflexivity.
Qed.


End Append.

(** ** What every call preserves *)

Section Invariants.
Context {P : platform} {X : externs}.
Hypothesis read_usb_frames : steps (same stream_view) xrsp_read_usb.

Lemma xrsp_send_usb_frames msg : steps (same stream_view) (xrsp_send_usb msg).
Proof. unfold xrsp_send_usb. steps_go. Qed.
Hint Resolve xrsp_send_usb_frames : steps.

Lemma xrsp_send_to_topic_raw_frames tp data n :
  steps (same stream_view) (xrsp_send_to_topic_raw tp data n).
Proof. unfold xrsp_send_to_topic_raw. steps_go. Qed.
Hint Resolve xrsp_send_to_topic_raw_frames : steps.

Lemma xrsp_send_to_topic_loop_frames fuel tp data idx n :
  steps (same stream_view) (xrsp_send_to_topic_loop fuel tp data idx n).
Proof.
  revert idx. induction fuel as [|fuel IH]; intros idx; cbn [xrsp_send_to_topic_loop].
  - steps_go.
  - steps_go.
Qed.
Hint Resolve xrsp_send_to_topic_loop_frames : steps.

Lemma os_mutex_lock_usb_frames :
  steps (same stream_view) (os_mutex_lock usb_mutex_id).
Proof. unfold os_mutex_lock, mutex_held, mutex_store. steps_go. Qed.
Lemma os_mutex_unlock_usb_frames :
  steps (same stream_view) (os_mutex_unlock usb_mutex_id).
Proof. unfold os_mutex_unlock, mutex_held, mutex_store. steps_go. Qed.
Lemma os_mutex_lock_pose_frames :
  steps (same stream_view) (os_mutex_lock pose_mutex_id).
Proof. unfold os_mutex_lock, mutex_held, mutex_store. steps_go. Qed.
Lemma os_mutex_unlock_pose_frames :
  steps (same stream_view) (os_mutex_unlock pose_mutex_id).
Proof. unfold os_mutex_unlock, mutex_held, mutex_store. steps_go. Qed.
Hint Resolve os_mutex_lock_usb_frames os_mutex_unlock_usb_frames
  os_mutex_lock_pose_frames os_mutex_unlock_pose_frames : steps.

Lemma xrsp_send_to_topic_frames tp data n :
  steps (same stream_view) (xrsp_send_to_topic tp data n).
Proof. unfold xrsp_send_to_topic. steps_go. Qed.
Hint Resolve xrsp_send_to_topic_frames : steps.

Lemma xrsp_send_to_topic_capnp_wrapped_frames tp idx data n :
  steps (same stream_view) (xrsp_send_to_topic_capnp_wrapped tp idx data n).
Proof. unfold xrsp_send_to_topic_capnp_wrapped. steps_go. Qed.
Hint Resolve xrsp_send_to_topic_capnp_wrapped_frames : steps.

Lemma send_each_frames tp segs : steps (same stream_view) (send_each tp segs).
Proof. induction segs; cbn [send_each]; steps_go. Qed.
Hint Resolve send_each_frames : steps.

Lemma xrsp_send_to_topic_capnp_segments_frames tp idx data :
  steps (same stream_view) (xrsp_send_to_topic_capnp_segments tp idx data).
Proof. unfold xrsp_send_to_topic_capnp_segments. steps_go. Qed.
Hint Resolve xrsp_send_to_topic_capnp_segments_frames : steps.

Lemma xrsp_send_ripc_frames c : steps (same stream_view) (xrsp_send_ripc c).
Proof. unfold xrsp_send_ripc. steps_go. Qed.
Hint Resolve xrsp_send_ripc_frames : steps.

Lemma xrsp_reset_echo_frames : steps (same stream_view) xrsp_reset_echo.
Proof. unfold xrsp_reset_echo. steps_go. Qed.
Lemma xrsp_send_ping_frames : steps (same stream_view) xrsp_send_ping.
Proof. unfold xrsp_send_ping. steps_go. Qed.
Hint Resolve xrsp_reset_echo_frames xrsp_send_ping_frames : steps.
Lemma xrsp_handle_echo_frames pkt :
  steps (same stream_view) (xrsp_handle_echo pkt).
Proof. unfold xrsp_handle_echo. steps_go. Qed.
Lemma xrsp_handle_invite_frames pkt :
  steps (same stream_view) (xrsp_handle_invite pkt).
Proof. unfold xrsp_handle_invite. steps_go. Qed.
Hint Resolve xrsp_handle_echo_frames xrsp_handle_invite_frames : steps.

Lemma xrsp_finish_pairing_2_frames pkt :
  steps (same stream_view) (xrsp_finish_pairing_2 pkt).
Proof.
  unfold xrsp_finish_pairing_2, xrsp_send_audio_control, xrsp_send_input_control,
    xrsp_send_mesh. steps_go.
Qed.
Hint Resolve xrsp_finish_pairing_2_frames : steps.

Lemma xrsp_handle_hostinfo_adv_frames pkt :
  steps (same stream_view) (xrsp_handle_hostinfo_adv pkt).
Proof.
  unfold xrsp_handle_hostinfo_adv, xrsp_init_session, xrsp_send_codegen_1,
    xrsp_send_pairing_1, xrsp_finish_pairing_1, xrsp_init_session_2,
    xrsp_send_codegen_2, xrsp_send_pairing_2.
  steps_go.
Qed.

Lemma os_mutex_lock_lens m : steps (same lens_view) (os_mutex_lock m).
Proof. unfold os_mutex_lock, mutex_held, mutex_store. destruct m; steps_go. Qed.
Lemma os_mutex_unlock_lens m : steps (same lens_view) (os_mutex_unlock m).
Proof.
  unfold os_mutex_unlock, mutex_held, mutex_store. destruct m; steps_go.
Qed.
Hint Resolve os_mutex_lock_lens os_mutex_unlock_lens : steps.

Lemma usb_init_reopen_lens n : steps (same lens_view) (usb_init_reopen n).
Proof. induction n; cbn [usb_init_reopen]; unfold os_nanosleep; steps_go. Qed.
Lemma usb_init_endpoints_lens eps :
  steps (same lens_view) (usb_init_endpoints eps).
Proof.
  induction eps; cbn [usb_init_endpoints]; unfold usb_init_endpoint; steps_go.
Qed.
Hint Resolve usb_init_reopen_lens usb_init_endpoints_lens : steps.
Lemma usb_init_cleanup_lens : steps (same lens_view) usb_init_cleanup.
Proof. unfold usb_init_cleanup. steps_go. Qed.
Hint Resolve usb_init_cleanup_lens : steps.
Lemma usb_init_claim_lens : steps (same lens_view) usb_init_claim.
Proof. unfold usb_init_claim, libusb_clear_halt. steps_go. Qed.
Hint Resolve usb_init_claim_lens : steps.
Lemma ql_xrsp_usb_init_lens do_reset :
  steps (same lens_view) (ql_xrsp_usb_init do_reset).
Proof. unfold ql_xrsp_usb_init, libusb_close. steps_go. Qed.
Hint Resolve ql_xrsp_usb_init_lens : steps.

Lemma ql_xrsp_read_thread_iter_lens :
  steps (same lens_view) ql_xrsp_read_thread_iter.
Proof. unfold ql_xrsp_read_thread_iter, os_nanosleep. steps_go. Qed.

Lemma xrsp_flush_stream_lens t i j :
  steps (same lens_view) (xrsp_flush_stream t i j).
Proof. unfold xrsp_flush_stream. steps_go. Qed.
Lemma xrsp_start_encode_lens t i j :
  steps (same lens_view) (xrsp_start_encode t i j).
Proof. unfold xrsp_start_encode, wait_flushed. steps_go. Qed.

Lemma xrsp_send_video_lens i j f t c cl v vl b :
  steps (same lens_view) (xrsp_send_video i j f t c cl v vl b).
Proof. unfold xrsp_send_video, xrsp_ts_ns_to_target. steps_go. Qed.
Hint Resolve xrsp_send_video_lens : steps.

Lemma rd_inv {A} (a : ql_xrsp_host -> list A) i v s s' :
  rd a i s = Ok v s' -> s' = s.
Proof.
  unfold rd. destruct (i <? 0); [done|]. destruct (_ !! _); [|done]. by intros [= _ <-].
Qed.

Lemma wr_csd_len_keeps i v :
  len_ok v -> steps (keeps lens_ok) (wr csd_stream_len set_csd_stream_len i v).
Proof.
  intros Hv s a s' E [Hc Hi]. unfold wr in E. apply bind_inv in E as (x & s1 & E1 & E2).
  apply rd_inv in E1 as ->. injection E2 as E2. subst s'. split; ssimpl; hsimpl.
  - by apply Forall_insert.
  - done.
Qed.

Lemma wr_idr_len_keeps i v :
  len_ok v -> steps (keeps lens_ok) (wr idr_stream_len set_idr_stream_len i v).
Proof.
  intros Hv s a s' E [Hc Hi]. unfold wr in E. apply bind_inv in E as (x & s1 & E1 & E2).
  apply rd_inv in E1 as ->. injection E2 as E2. subst s'. split; ssimpl; hsimpl.
  - done.
  - by apply Forall_insert.
Qed.

Lemma len_ok_0 : len_ok 0.
Proof. unfold len_ok. lia. Qed.
Hint Resolve len_ok_0 : steps.

Lemma len_ok_u64 x : (u64 x <? 0x1000000) = true -> len_ok (u64 x).
Proof.
  unfold len_ok, u64. intros H. apply Z.ltb_lt in H. split; [|done].
  apply Z.mod_pos_bound. lia.
Qed.

Lemma xrsp_send_csd_keeps data i j :
  steps (keeps lens_ok) (xrsp_send_csd data i j).
Proof.
  unfold xrsp_send_csd, wait_flushed. cbv zeta.
  apply steps_bind; [apply _ | steps_go | intros _].
  apply steps_bind; [apply _ | steps_go | intros _].
  apply steps_bind; [apply _ | steps_go | intros len].
  apply steps_bind; [apply _ | | intros _; steps_go].
  destruct (u64 _ <? _) eqn:E; cbn [when]; steps_go.
  by apply wr_csd_len_keeps, len_ok_u64.
Qed.

Lemma xrsp_send_idr_keeps data i j :
  steps (keeps lens_ok) (xrsp_send_idr data i j).
Proof.
  unfold xrsp_send_idr, wait_flushed. cbv zeta.
  apply steps_bind; [apply _ | steps_go | intros _].
  apply steps_bind; [apply _ | steps_go | intros _].
  apply steps_bind; [apply _ | steps_go | intros len].
  apply steps_bind; [apply _ | | intros _; steps_go].
  destruct (u64 _ <? _) eqn:E; cbn [when]; steps_go.
  by apply wr_idr_len_keeps, len_ok_u64.
Qed.

Lemma write_thread_select_lens : steps (same lens_view) write_thread_select.
Proof. unfold write_thread_select, write_thread_select_turn. steps_go. Qed.
Hint Resolve write_thread_select_lens : steps.

Lemma write_thread_present_keeps i ns :
  steps (keeps lens_ok) (write_thread_present i ns).
Proof.
  unfold write_thread_present. steps_go.
  - apply wr_csd_len_keeps, len_ok_0.
  - apply wr_idr_len_keeps, len_ok_0.
Qed.

Lemma write_thread_arm_keeps : steps (keeps lens_ok) write_thread_arm.
Proof.
  unfold write_thread_arm. steps_go.
  - apply wr_csd_len_keeps, len_ok_0.
  - apply wr_idr_len_keeps, len_ok_0.
Qed.
Hint Resolve write_thread_present_keeps write_thread_arm_keeps : steps.

Lemma ql_xrsp_write_thread_iter_keeps :
  steps (keeps lens_ok) ql_xrsp_write_thread_iter.
Proof.
  unfold ql_xrsp_write_thread_iter, xrsp_trigger_bye, os_nanosleep. steps_go.
Qed.

Lemma run_call_keeps c : steps (keeps lens_ok) (run_call c).
Proof.
  destruct c; cbn [run_call].
  - apply same_lens_keeps, xrsp_start_encode_lens.
  - apply xrsp_send_csd_keeps.
  - apply xrsp_send_idr_keeps.
  - apply same_lens_keeps, xrsp_flush_stream_lens.
  - apply ql_xrsp_write_thread_iter_keeps.
  - apply same_lens_keeps, ql_xrsp_read_thread_iter_lens.
  - apply same_lens_keeps. apply (steps_coarser stream_view); [exact stream_lens|].
    apply xrsp_handle_hostinfo_adv_frames.
  - steps_go.
Qed.

Lemma lens_ok_zero hmd : lens_ok (state_zero hmd).
Proof. split; cbn; repeat constructor; unfold len_ok; lia. Qed.

Lemma ql_xrsp_host_create_keeps vid pid ifn :
  steps (keeps lens_ok) (ql_xrsp_host_create vid pid ifn).
Proof.
  unfold ql_xrsp_host_create. steps_step.
  { intros s a s' [= _ <-] _. apply (lens_ok_zero None). }
  steps_go.
  - apply wr_csd_len_keeps, len_ok_0.
  - apply wr_idr_len_keeps, len_ok_0.
Qed.

Lemma reachable_lens_ok s : reachable s -> lens_ok s.
Proof.
  induction 1 as [s (hmd & vid & pid & ifn & ret & E)|c s s' _ IH E].
  - exact (ql_xrsp_host_create_keeps vid pid ifn _ _ _ E (lens_ok_zero hmd)).
  - exact (run_call_keeps c _ _ _ E IH).
Qed.


(** C10.  In every state the driver reaches from [ql_xrsp_host_create] by
    calls of its entry points, every [csd_stream_len] and every
    [idr_stream_len] is at least 0 and strictly below 0x1000000.
    [xrsp_send_csd] (and [xrsp_send_idr] likewise), called for a slot that
    is not waiting to be flushed, returns: when the length so far plus the
    incoming length is below 0x1000000 it has copied the data to the end
    of the buffer and added its length, and otherwise it has left the
    whole host, buffer and length included, as it was. *)
Theorem stream_len_bounded :
  (forall s, reachable s -> lens_ok s) /\
  (forall data index slice_idx s len buf,
     let k := QL_IDX_SLICE slice_idx index in
     let h := st_host s in
     0 <= k ->
     needs_flush h !! Z.to_nat k = Some false ->
     stream_mutex h !! Z.to_nat k = Some false ->
     csd_stream_len h !! Z.to_nat k = Some len ->
     csd_stream h !! Z.to_nat k = Some buf ->
     0 <= len -> len + size_of data < 2 ^ 64 ->
     exists s',
       xrsp_send_csd data index slice_idx s = Ok tt s' /\
       st_host s' =
         if len + size_of data <? 0x1000000 then
           set_csd_stream_len
             (<[Z.to_nat k := len + size_of data]> (csd_stream_len h))
             (set_csd_stream
                (<[Z.to_nat k := memcpy_at buf len data]> (csd_stream h)) h)
         else h) /\
  (forall data index slice_idx s len buf,
     let k := QL_IDX_SLICE slice_idx index in
     let h := st_host s in
     0 <= k ->
     needs_flush h !! Z.to_nat k = Some false ->
     stream_mutex h !! Z.to_nat k = Some false ->
     idr_stream_len h !! Z.to_nat k = Some len ->
     idr_stream h !! Z.to_nat k = Some buf ->
     0 <= len -> len + size_of data < 2 ^ 64 ->
     exists s',
       xrsp_send_idr data index slice_idx s = Ok tt s' /\
       st_host s' =
         if len + size_of data <? 0x1000000 then
           set_idr_stream_len
             (<[Z.to_nat k := len + size_of data]> (idr_stream_len h))
             (set_idr_stream
                (<[Z.to_nat k := memcpy_at buf len data]> (idr_stream h)) h)
         else h).
Proof.
  split; [exact reachable_lens_ok|].
  split; intros data index slice_idx s len buf k h.
  - apply xrsp_send_csd_step.
  - apply xrsp_send_idr_step.
Qed.

End Invariants.

Lemma sample_read_usb_frames :
  steps (same stream_view) (xrsp_read_usb (externs := sample_externs)).
Proof. by intros s a s' [= _ <-]. Qed.

Lemma stream_len_bounded_witness :
  exists s',
    (ql_xrsp_host_create (P := sample_world) 0x2833 0x0137 0
     ≫= fun _ => xrsp_send_csd [1; 2; 3; 4] 0 0)
      (state_zero (Some sample_hmd)) = Ok tt s' /\
    lens_ok s'.
Proof.
  assert (E : exists s',
    (ql_xrsp_host_create (P := sample_world) 0x2833 0x0137 0
     ≫= fun _ => xrsp_send_csd [1; 2; 3; 4] 0 0)
      (state_zero (Some sample_hmd)) = Ok tt s').
  { vm_compute. eexists. reflexivity. }
  destruct E as (s' & E). exists s'. split; [exact E|].
  apply bind_inv in E as (ret & s & E1 & E2).
  apply (proj1 (stream_len_bounded (P := sample_world) (X := sample_externs)
                  sample_read_usb_frames)).
  apply (reach_call (CallSendCsd [1; 2; 3; 4] 0 0) s); [|exact E2].
  apply reach_created. by exists (Some sample_hmd), 0x2833, 0x0137, 0, ret.
Defined.

(** * The handshake *)

Create HintDb runs discriminated.
Section Runs.
Context {P : platform} {X : externs}.
Hypothesis HX : externs_ok.

Lemma hush_refl s : hush s s.
Proof. exists []. apply quiet_refl. Qed.

Lemma hush_trans s1 s2 s3 : hush s1 s2 -> hush s2 s3 -> hush s1 s3.
Proof. intros [e1 H1] [e2 H2]. exists (e1 ++ e2). by eapply quiet_trans. Qed.

Lemma hush_calm s s' : calm s -> hush s s' -> calm s'.
Proof.
  intros (Hu & Hp & Hh) [evs [qh qm _ _ _]]. repeat split.
  - apply (f_equal usb_mutex) in qh. cbn in qh. congruence.
  - apply (f_equal pose_mutex) in qh. cbn in qh. congruence.
  - destruct Hh as [x Hx]. rewrite Hx in qm. destruct (st_hmd s'); [eauto | discriminate].
Qed.

Lemma runs_ret {A} (a : A) : runs (mret a).
Proof. intros s _. exists a, s. split; [reflexivity | apply hush_refl]. Qed.

Lemma runs_bind {A B} (m : M A) (k : A -> M B) :
  runs m -> (forall a, runs (k a)) -> runs (m ≫= k).
Proof.
  intros Hm Hk s Hs. destruct (Hm s Hs) as (a & s1 & E1 & H1).
  destruct (Hk a s1 (hush_calm _ _ Hs H1)) as (b & s2 & E2 & H2).
  exists b, s2. split; [by rewrite (bind_Ok _ _ _ _ _ E1) | by eapply hush_trans].
Qed.

Lemma runs_when b m : runs m -> runs (when b m).
Proof. destruct b; [done | intros _; apply runs_ret]. Qed.

Lemma runs_get_host {A} (f : ql_xrsp_host -> A) : runs (get_host f).
Proof.
  intros s _. exists (f (st_host s)), s.
  split; [reflexivity | apply hush_refl].
Qed.

Lemma runs_ts : runs xrsp_ts_ns.
Proof.
  intros s _. do 2 eexists. split; [reflexivity|]. exists [].
  split; ssimpl; auto. by rewrite app_nil_r.
Qed.

Lemma runs_set_host f :
  (forall h, pipe_view (f h) = pipe_view h /\
             pairing_state (f h) = pairing_state h /\
             usb_valid (f h) = usb_valid h) ->
  runs (set_host f).
Proof.
  intros Hf s _. do 2 eexists. split; [reflexivity|]. exists [].
  destruct (Hf (st_host s)) as (H1 & H2 & H3).
  split; ssimpl; auto. by rewrite app_nil_r.
Qed.

Lemma runs_has_hmd : runs has_hmd.
Proof. intros s _. do 2 eexists. split; [reflexivity | apply hush_refl]. Qed.

Lemma runs_get_hmd : runs get_hmd.
Proof.
  intros s (_ & _ & [hmd Hh]). exists hmd, s. unfold get_hmd. rewrite Hh.
  split; [reflexivity | apply hush_refl].
Qed.

Lemma runs_set_hmd f :
  (forall hmd, hmd_view (Some (f hmd)) = hmd_view (Some hmd)) -> runs (set_hmd f).
Proof.
  intros Hf s (_ & _ & [hmd Hh]). unfold set_hmd. rewrite Hh.
  do 2 eexists. split; [reflexivity|]. exists [].
  split; ssimpl; auto.
  - by rewrite Hh, Hf.
  - by rewrite app_nil_r.
Qed.

Lemma runs_read_usb : runs xrsp_read_usb.
Proof.
  intros s _. destruct (read_usb_idle HX s) as [b E]. exists b, s.
  split; [done | apply hush_refl].
Qed.

Lemma runs_send_to_topic tp data n :
  size_of data = n -> sendable n -> runs (xrsp_send_to_topic tp data n).
Proof.
  intros Hn Hs s (Hu & _ & _).
  destruct (xrsp_send_to_topic_spec tp data n s Hu Hn Hs) as (evs & s' & E & W & _).
  exists tt, s'. split; [done|]. eexists. by apply wired_quiet.
Qed.


Ltac runs_step :=
  lazymatch goal with
  | |- runs (mbind _ _) => apply runs_bind; [|intros ?]
  | |- runs (mret _) => apply runs_ret
  | |- runs (when _ _) => apply runs_when
  | |- runs (get_host _) => apply runs_get_host
  | |- runs get_hmd => apply runs_get_hmd
  | |- runs has_hmd => apply runs_has_hmd
  | |- runs xrsp_ts_ns => apply runs_ts
  | |- runs xrsp_read_usb => apply runs_read_usb
  | |- runs (set_host _) => apply runs_set_host; intros; repeat split
  | |- runs (set_hmd _) => apply runs_set_hmd; intros; reflexivity
  | |- runs (if ?b then _ else _) => destruct b
  | |- runs (let _ := _ in _) => cbv zeta
  | |- runs (xrsp_send_to_topic _ _ _) =>
      apply runs_send_to_topic; [try reflexivity|]
  | |- runs _ => solve [auto with runs]
  end.
Ltac runs_go := repeat runs_step.

Lemma sendable_8 : sendable (4 * 2).
Proof. unfold sendable, INT32_MAX. lia. Qed.

Lemma runs_capnp_wrapped tp idx data n :
  size_of data = n -> sendable n ->
  runs (xrsp_send_to_topic_capnp_wrapped tp idx data n).
Proof.
  intros Hn Hs. unfold xrsp_send_to_topic_capnp_wrapped. runs_go.
  - apply sendable_8.
  - done.
  - done.
Qed.

Lemma runs_send_each tp segs :
  Forall (fun seg => sendable (size_of seg)) segs -> runs (send_each tp segs).
Proof.
  induction 1 as [|seg segs Hs _ IH]; cbn [send_each]; [apply runs_ret|].
  apply runs_bind; [|intros _; exact IH].
  assert (E : i32 (Z.of_nat (length seg)) = size_of seg).
  { apply i32_small. unfold sendable, size_of, INT32_MAX in *. lia. }
  rewrite E. by apply runs_send_to_topic.
Qed.

Lemma length_le32 x : length (le32 x) = 4%nat.
Proof. reflexivity. Qed.

Lemma length_seg_sizes (data : list (list Z)) :
  length (concat (map (fun seg => le32 (Z.shiftr (Z.of_nat (length seg)) 3)) data))
  = (4 * length data)%nat.
Proof.
  induction data as [|seg data IH]; [done|]. cbn [map concat].
  rewrite length_app, IH. cbn [length le32]. lia.
Qed.

Lemma runs_capnp_segments tp idx m :
  runs (xrsp_send_to_topic_capnp_segments tp idx (getSegmentsForOutput m)).
Proof.
  destruct (segments_ok HX m) as [Hs Hn].
  unfold xrsp_send_to_topic_capnp_segments. cbv zeta.
  set (n := Z.of_nat (length (getSegmentsForOutput m))) in *.
  assert (E : i32 (4 * (n + 1)) = 4 * (n + 1)).
  { apply i32_small. unfold INT32_MAX. lia. }
  rewrite E. apply runs_bind; [|intros _; by apply runs_send_each].
  apply runs_send_to_topic.
  - unfold size_of. rewrite length_app, length_seg_sizes, length_le32. lia.
  - unfold sendable, INT32_MAX. lia.
Qed.

Lemma runs_send_ripc c : runs (xrsp_send_ripc c).
Proof.
  destruct (ripc_ok HX c) as [H1 H2]. unfold xrsp_send_ripc. cbv zeta.
  apply runs_bind; [by apply runs_capnp_wrapped|intros _].
  by apply runs_send_to_topic.
Qed.
Hint Resolve runs_capnp_segments runs_send_ripc : runs.

Lemma runs_reset_echo : runs xrsp_reset_echo.
Proof. unfold xrsp_reset_echo. runs_go. Qed.

Lemma runs_send_ping : runs xrsp_send_ping.
Proof. unfold xrsp_send_ping. runs_go. apply (craft_echo_ok HX). Qed.
Hint Resolve runs_reset_echo runs_send_ping : runs.

Lemma runs_handle_echo pkt : runs (xrsp_handle_echo pkt).
Proof. unfold xrsp_handle_echo. runs_go; apply (craft_echo_ok HX). Qed.

Lemma runs_capnp t r u payload :
  size_of payload < 0x10000 ->
  runs (xrsp_send_to_topic TOPIC_HOSTINFO_ADV (ql_xrsp_craft_capnp t r u payload)
          (size_of (ql_xrsp_craft_capnp t r u payload))).
Proof.
  intros H. apply runs_send_to_topic; [done | by apply (craft_capnp_ok HX)].
Qed.

Lemma runs_init_session pkt : runs (xrsp_init_session pkt).
Proof. unfold xrsp_init_session. cbv zeta. apply runs_capnp. by vm_compute. Qed.
Lemma runs_send_codegen_1 pkt : runs (xrsp_send_codegen_1 pkt).
Proof.
  unfold xrsp_send_codegen_1. cbv zeta. apply runs_capnp. by vm_compute.
Qed.
Lemma runs_send_pairing_1 pkt : runs (xrsp_send_pairing_1 pkt).
Proof.
  unfold xrsp_send_pairing_1. cbv zeta. apply runs_capnp. by vm_compute.
Qed.
Lemma runs_send_codegen_2 pkt : runs (xrsp_send_codegen_2 pkt).
Proof.
  unfold xrsp_send_codegen_2. cbv zeta. apply runs_capnp. by vm_compute.
Qed.
Lemma runs_send_pairing_2 pkt : runs (xrsp_send_pairing_2 pkt).
Proof.
  unfold xrsp_send_pairing_2. cbv zeta. apply runs_capnp. by vm_compute.
Qed.

Lemma sendable_request_video_idk : sendable (size_of request_video_idk).
Proof. by vm_compute. Qed.

Lemma runs_finish_pairing_1 pkt : runs (xrsp_finish_pairing_1 pkt).
Proof.
  unfold xrsp_finish_pairing_1. runs_go.
  apply runs_capnp_wrapped; [done | apply sendable_request_video_idk].
Qed.

Lemma runs_init_session_2 pkt : runs (xrsp_init_session_2 pkt).
Proof.
  unfold xrsp_init_session_2. runs_go; try apply (craft_capnp_ok HX); by vm_compute.
Qed.

Lemma sendable_cmd a i b c d e f :
  sendable (size_of (cmd_pkt_idk a i b c d e f)).
Proof. by vm_compute. Qed.

Lemma runs_finish_pairing_2 pkt : runs (xrsp_finish_pairing_2 pkt).
Proof.
  unfold xrsp_finish_pairing_2, xrsp_send_audio_control, xrsp_send_input_control,
    xrsp_send_mesh.
  runs_go; apply sendable_cmd.
Qed.


Lemma xrsp_handle_invite_spec pkt s :
  calm s ->
  exists s', xrsp_handle_invite pkt s = Ok tt s' /\ calm s' /\
    pairing_state (st_host s') = pairing_state (st_host s) /\
    st_bulk_out s' = st_bulk_out s.
Proof.
  intros Hs. pose proof Hs as (Hu & Hp & [hmd Hh]).
  unfold xrsp_handle_invite. destruct (host_info pkt); [|by exists s].
  unfold get_hmd, set_hmd, os_mutex_lock, os_mutex_unlock, mutex_held, mutex_store.
  mrun. rewrite Hh. mrun. rewrite Hp. mrun. rewrite Hh. mrun.
  destruct (usb_slow_cable (st_host s)); mrun;
    (destruct (0 <? debug_get_num_option_force_fps); mrun;
     (eexists; split; [reflexivity|]; split; [|split; reflexivity];
      repeat split; ssimpl; hsimpl; eauto)).
Qed.

Lemma hush_linked s s' : hush s s' -> linked s s'.
Proof.
  intros [evs [_ _ _ [[H _]|H] _]]; [by left | by right].
Qed.

Lemma runs_linked (m : M unit) s :
  runs m -> calm s -> exists s', m s = Ok tt s' /\ calm s' /\ linked s s'.
Proof.
  intros Hm Hs. destruct (Hm s Hs) as ([] & s' & E & H).
  exists s'. split; [done|]. split; [by eapply hush_calm | by apply hush_linked].
Qed.

Lemma xrsp_handle_hostinfo_adv_spec pkt s :
  calm s ->
  exists s',
    xrsp_handle_hostinfo_adv pkt s = Ok tt s' /\
    (pairing_state (st_host s') =
       pairing_step (pairing_state (st_host s)) (message_type pkt) \/
     (message_type pkt <> BUILTIN_PAIRING_ACK /\
      pairing_state (st_host s') = PAIRINGSTATE_WAIT_FIRST /\
      usb_valid (st_host s') = false /\
      exists k, (st_bulk_out s <= k < st_bulk_out s')%nat /\
        send_failed (libusb_bulk_transfer_out k))).
Proof.
  intros Hs. unfold xrsp_handle_hostinfo_adv.
  destruct (decide (message_type pkt = BUILTIN_ECHO)) as [He|He].
  { rewrite bool_decide_eq_true_2 by done.
    destruct (runs_linked _ s (runs_handle_echo pkt) Hs) as (s' & E & _ & L).
    exists s'. split; [done|]. rewrite He.
    destruct L as [L|L]; [left | right; split; [discriminate | done]].
    rewrite L. by destruct (pairing_state (st_host s)). }
  rewrite bool_decide_eq_false_2 by done.
  assert (H1 : exists s1,
    when (bool_decide (message_type pkt = BUILTIN_INVITE)) (xrsp_handle_invite pkt) s
      = Ok tt s1 /\ calm s1 /\
    pairing_state (st_host s1) = pairing_state (st_host s) /\
    st_bulk_out s1 = st_bulk_out s).
  { destruct (bool_decide _); [by apply xrsp_handle_invite_spec | by exists s]. }
  destruct H1 as (s1 & E1 & Hs1 & Hp1 & Hb1).
  rewrite (bind_Ok _ _ _ _ _ E1). rewrite <- Hp1, <- Hb1.
  clear E1 Hp1 Hb1 Hs s. revert Hs1. generalize s1. clear s1. intros s Hs.
  unfold mbind at 1, M_bind at 1, get_host at 1.
  assert (Hnop : forall st, pairing_state (st_host s) = st ->
    pairing_step st (message_type pkt) = st ->
    exists s', (mret tt : M unit) s = Ok tt s' /\
      (pairing_state (st_host s') = pairing_step st (message_type pkt) \/
       (message_type pkt <> BUILTIN_PAIRING_ACK /\
        pairing_state (st_host s') = PAIRINGSTATE_WAIT_FIRST /\
        usb_valid (st_host s') = false /\
        exists k, (st_bulk_out s <= k < st_bulk_out s')%nat /\
          send_failed (libusb_bulk_transfer_out k)))).
  { intros st Hst Ht. exists s. split; [reflexivity|]. left. congruence. }
  assert (Hsend : forall (m : M unit) st, runs m ->
    pairing_state (st_host s) = st ->
    pairing_step st (message_type pkt) = st ->
    message_type pkt <> BUILTIN_PAIRING_ACK ->
    exists s', m s = Ok tt s' /\
      (pairing_state (st_host s') = pairing_step st (message_type pkt) \/
       (message_type pkt <> BUILTIN_PAIRING_ACK /\
        pairing_state (st_host s') = PAIRINGSTATE_WAIT_FIRST /\
        usb_valid (st_host s') = false /\
        exists k, (st_bulk_out s <= k < st_bulk_out s')%nat /\
          send_failed (libusb_bulk_transfer_out k)))).
  { intros m st Hm Hst Ht Hne.
    destruct (runs_linked m s Hm Hs) as (s' & E & _ & [L|L]); exists s';
      (split; [exact E|]); [left; congruence | by right]. }
  destruct (pairing_state (st_host s)) eqn:Hst;
    destruct (message_type pkt) eqn:Hmsg;
    try (by apply Hnop);
    try (apply Hsend; [ | done | done | discriminate];
         first [ apply runs_init_session | apply runs_send_codegen_1
               | apply runs_send_pairing_1 | apply runs_send_codegen_2
               | apply runs_send_pairing_2 ]).
  all: try match goal with
  | |- context [xrsp_finish_pairing_1] =>
      destruct (runs_linked _ s (runs_finish_pairing_1 pkt) Hs) as (s1 & E & _ & _);
      rewrite (bind_Ok _ _ _ _ _ E); eexists; split; [reflexivity|]; by left
  | |- context [xrsp_finish_pairing_2] =>
      destruct (runs_linked _ s (runs_finish_pairing_2 pkt) Hs) as (s1 & E & _ & _);
      rewrite (bind_Ok _ _ _ _ _ E); eexists; split; [reflexivity|]; by left
  | |- context [xrsp_init_session_2] =>
      rewrite (bind_Ok _ _ s tt
                 (set_st_host (set_pairing_state PAIRINGSTATE_PAIRING (st_host s)) s))
        by reflexivity;
      destruct (runs_linked _
                  (set_st_host (set_pairing_state PAIRINGSTATE_PAIRING (st_host s)) s)
                  (runs_init_session_2 pkt)) as (s1 & E & _ & [L|L]);
      [ by destruct Hs as (? & ? & ?)
      | exists s1; split; [exact E|]; left; exact L
      | exists s1; split; [exact E|]; right; split; [discriminate | exact L] ]
  end.
Qed.

Lemma pairing_step_advances st msg :
  (pairing_rank st <= pairing_rank (pairing_step st msg))%nat.
Proof. destruct st, msg; cbn; lia. Qed.

Lemma usb_init_reopen_pairing n :
  steps (same pairing_state) (usb_init_reopen n).
Proof. induction n; cbn [usb_init_reopen]; unfold os_nanosleep; steps_go. Qed.
Lemma usb_init_endpoints_pairing eps :
  steps (same pairing_state) (usb_init_endpoints eps).
Proof.
  induction eps; cbn [usb_init_endpoints]; unfold usb_init_endpoint; steps_go.
Qed.
Lemma usb_init_cleanup_pairing : steps (same pairing_state) usb_init_cleanup.
Proof.
  unfold usb_init_cleanup, os_mutex_unlock, mutex_store. steps_go.
Qed.
Lemma usb_init_claim_pairing : steps (same pairing_state) usb_init_claim.
Proof.
  pose proof usb_init_cleanup_pairing. pose proof usb_init_endpoints_pairing.
  unfold usb_init_claim, libusb_clear_halt, os_mutex_unlock, mutex_store. steps_go.
Qed.

Lemma steps_then {A B} (Q : state -> Prop) (m : M A) (k : A -> M B) :
  steps (fun _ s' => Q s') m -> (forall a, steps (keeps Q) (k a)) ->
  steps (fun _ s' => Q s') (m ≫= k).
Proof.
  intros Hm Hk s b s'' E. apply bind_inv in E as (a & s' & E1 & E2).
  exact (Hk a s' b s'' E2 (Hm s a s' E1)).
Qed.

Lemma steps_after {A B} (Q : state -> Prop) (m : M A) (k : A -> M B) :
  (forall a, steps (fun _ s' => Q s') (k a)) ->
  steps (fun _ s' => Q s') (m ≫= k).
Proof.
  intros Hk s b s'' E. apply bind_inv in E as (a & s' & _ & E2).
  exact (Hk a s' b s'' E2).
Qed.

Lemma same_keeps {V A} (view : ql_xrsp_host -> V) v (m : M A) :
  steps (same view) m -> steps (keeps (fun s => view (st_host s) = v)) m.
Proof. intros H s a s' E Hs. rewrite <- Hs. exact (H s a s' E). Qed.

Lemma ql_xrsp_usb_init_pairing do_reset :
  steps (fun _ s' => pairing_state (st_host s') = PAIRINGSTATE_WAIT_FIRST)
    (ql_xrsp_usb_init do_reset).
Proof.
  pose proof usb_init_cleanup_pairing. pose proof usb_init_claim_pairing.
  pose proof usb_init_reopen_pairing.
  unfold ql_xrsp_usb_init. do 5 (apply steps_after; intros ?).
  apply steps_then; [by intros ? ? ? [= _ <-]|]. intros _.
  apply same_keeps. unfold libusb_close. steps_go.
Qed.

End Runs.

Lemma sample_externs_ok : externs_ok (X := sample_externs).
Proof.
  split; cbn [sample_externs ql_xrsp_craft_capnp ql_xrsp_craft_echo
              getSegmentsForOutput ripc_segments xrsp_read_usb].
  - intros _ _ _ payload H. unfold sendable, size_of, INT32_MAX in *.
    rewrite length_app, length_replicate. lia.
  - intros. by vm_compute.
  - intros _. split; [|by vm_compute]. repeat constructor; by vm_compute.
  - intros _. split; by vm_compute.
  - intros s. by eexists.
Qed.



(** * The video pipeline *)

#[export] Hint Resolve xrsp_send_usb_frames xrsp_send_to_topic_raw_frames
  xrsp_send_to_topic_loop_frames xrsp_send_to_topic_frames
  xrsp_send_to_topic_capnp_wrapped_frames send_each_frames
  xrsp_send_to_topic_capnp_segments_frames xrsp_send_ripc_frames
  xrsp_reset_echo_frames xrsp_send_ping_frames xrsp_handle_echo_frames
  xrsp_handle_invite_frames xrsp_finish_pairing_2_frames : steps.

#[local] Instance meet_preorder R1 R2 :
  PreOrder R1 -> PreOrder R2 -> PreOrder (meet R1 R2).
Proof.
  intros H1 H2. split.
  - intros s. split; reflexivity.
  - intros s1 s2 s3 [A1 A2] [B1 B2]. split; etransitivity; eauto.
Qed.

Lemma steps_meet {A} R1 R2 (m : M A) :
  steps R1 m -> steps R2 m -> steps (meet R1 R2) m.
Proof.
  intros H1 H2 s a s' E. split; [exact (H1 s a s' E) | exact (H2 s a s' E)].
Qed.

#[local] Instance held_preorder p : PreOrder (held p).
Proof.
  split.
  - intros s Hs. split; [done | reflexivity].
  - intros s1 s2 s3 H12 H23 Hs. destruct (H12 Hs) as [Hs2 M12].
    destruct (H23 Hs2) as [Hs3 M23]. split; [done | by etransitivity].
Qed.

Lemma steps_held {A} p (m : M A) :
  steps (keeps unsent) m -> steps (mute p) m -> steps (held p) m.
Proof.
  intros H1 H2 s a s' E Hs. split; [exact (H1 s a s' E Hs) | exact (H2 s a s' E)].
Qed.

Lemma steps_lands_keeps {A} (Q : state -> Prop) (m : M A) :
  steps (fun _ s' => Q s') m -> steps (keeps Q) m.
Proof. intros H s a s' E _. exact (H s a s' E). Qed.

Lemma same_flag_unsent {A} (m : M A) :
  steps (same sent_first_frame) m -> steps (keeps unsent) m.
Proof.
  intros H s a s' E Hs. unfold unsent. rewrite <- Hs. exact (H s a s' E).
Qed.

Lemma os_mutex_lock_same {V} (view : ql_xrsp_host -> V) m :
  (forall b h, view (set_usb_mutex b h) = view h) ->
  (forall b h, view (set_pose_mutex b h) = view h) ->
  (forall l h, view (set_stream_mutex l h) = view h) ->
  steps (same view) (os_mutex_lock m).
Proof.
  intros H1 H2 H3. unfold os_mutex_lock, mutex_held, mutex_store.
  destruct m; steps_go; first [apply steps_set_host | apply steps_wr]; done.
Qed.

Lemma os_mutex_unlock_same {V} (view : ql_xrsp_host -> V) m :
  (forall b h, view (set_usb_mutex b h) = view h) ->
  (forall b h, view (set_pose_mutex b h) = view h) ->
  (forall l h, view (set_stream_mutex l h) = view h) ->
  steps (same view) (os_mutex_unlock m).
Proof.
  intros H1 H2 H3. unfold os_mutex_unlock, mutex_held, mutex_store.
  destruct m; steps_go; first [apply steps_set_host | apply steps_wr]; done.
Qed.

Create HintDb traces discriminated.
#[local] Instance mute_preorder p : PreOrder (mute p).
Proof.
  split; unfold mute; [intros s; reflexivity | intros s1 s2 s3; congruence].
Qed.

#[local] Instance same_trace_preorder : PreOrder same_trace.
Proof.
  split; unfold same_trace; [intros s; reflexivity | intros s1 s2 s3; congruence].
Qed.

Lemma steps_mute_pure {A} p (m : M A) : steps same_trace m -> steps (mute p) m.
Proof. intros H s a s' E. unfold mute. by rewrite (H s a s' E). Qed.

Lemma steps_mute_log p e : p e = false -> steps (mute p) (log e).
Proof.
  intros He s a s' [= _ <-]. unfold mute. ssimpl.
  rewrite List.filter_app. cbn. rewrite He. apply app_nil_r.
Qed.

Lemma trace_set_host f : steps same_trace (set_host f).
Proof. by intros s a s' [= _ <-]. Qed.

Lemma trace_wr {A} (a : ql_xrsp_host -> list A) set_a i v :
  steps same_trace (wr a set_a i v).
Proof.
  unfold wr. apply steps_bind; [apply _ | apply steps_rd; apply _ |].
  intros _. apply trace_set_host.
Qed.

Lemma trace_set_hmd f : steps same_trace (set_hmd f).
Proof.
  intros s a s'. unfold set_hmd. destruct (st_hmd s); [|done].
  by intros [= _ <-].
Qed.

Section TracePrims.
Context {P : platform} {X : externs}.
Lemma trace_ts : steps same_trace xrsp_ts_ns.
Proof. by intros s a s' [= _ <-]. Qed.
Lemma trace_bulk : steps same_trace libusb_bulk_transfer.
Proof. by intros s a s' [= _ <-]. Qed.
Lemma trace_config : steps same_trace libusb_config.
Proof. by intros s a s' [= _ <-]. Qed.
Lemma trace_speed : steps same_trace libusb_speed.
Proof. by intros s a s' [= _ <-]. Qed.

Lemma mute_open topics b : steps (mute (watch topics b)) libusb_open.
Proof.
  intros s a s' [= _ <-]. unfold mute. ssimpl.
  rewrite List.filter_app. apply app_nil_r.
Qed.
Lemma mute_reset topics b : steps (mute (watch topics b)) libusb_reset.
Proof.
  intros s a s' [= _ <-]. unfold mute. ssimpl.
  rewrite List.filter_app. apply app_nil_r.
Qed.
Lemma mute_claim topics b : steps (mute (watch topics b)) libusb_claim.
Proof.
  intros s a s' [= _ <-]. unfold mute. ssimpl.
  rewrite List.filter_app. apply app_nil_r.
Qed.
End TracePrims.

#[export] Hint Resolve trace_set_host trace_wr trace_set_hmd trace_ts trace_bulk
  trace_config trace_speed : traces.
#[export] Hint Resolve mute_open mute_reset mute_claim : steps.

(** ** Shrinking queues *)

#[local] Instance shrink_preorder : PreOrder shrink.
Proof.
  split.
  - intros s. split; [reflexivity | auto].
  - intros s1 s2 s3 [A1 A2] [B1 B2]. split; [congruence | auto].
Qed.

Lemma same_queue_shrink {A} (m : M A) :
  steps (same queue_view) m -> steps shrink m.
Proof.
  intros H s a s' E. specialize (H s a s' E). unfold same, queue_view in H.
  injection H as H1 H2. split; [done|]. intros k. by rewrite H1.
Qed.

Lemma same_queue_shrink_at s s' : same queue_view s s' -> shrink s s'.
Proof.
  unfold same, queue_view. intros [= H1 H2]. split; [done|]. intros k.
  by rewrite H1.
Qed.

Lemma wr_needs_flush_shrink i :
  steps shrink (wr needs_flush set_needs_flush i false).
Proof.
  intros s a s' E. unfold wr in E. apply bind_inv in E as (x & s1 & E1 & E2).
  apply rd_inv in E1 as ->. injection E2 as E2. subst s'.
  split; [reflexivity|]. intros k. ssimpl. hsimpl.
  destruct (decide (k = Z.to_nat i)) as [->|Hne].
  - intros H. apply list_lookup_insert_Some in H as [(_ & H & _)|(H & _)]; done.
  - by rewrite list_lookup_insert_ne.
Qed.

Lemma presents_app tr1 tr2 :
  presents (tr1 ++ tr2) = presents tr1 ++ presents tr2.
Proof. apply omap_app. Qed.

Lemma presents_choices tr : presents (List.filter choices tr) = presents tr.
Proof.
  unfold presents. induction tr as [|e tr IH]; [done|].
  destruct e; cbn; try exact IH. by rewrite IH.
Qed.

Lemma mute_presents s s' :
  mute choices s s' -> presents (st_trace s') = presents (st_trace s).
Proof. intros H. rewrite <- presents_choices, H. apply presents_choices. Qed.

Ltac steps_atom ::=
  lazymatch goal with
  | |- steps (same _) (set_host _) => apply steps_set_host; intros; reflexivity
  | |- steps (same _) (wr _ _ _ _) => apply steps_wr; intros; reflexivity
  | |- steps (same _) (os_mutex_lock _) =>
      apply os_mutex_lock_same; intros; reflexivity
  | |- steps (same _) (os_mutex_unlock _) =>
      apply os_mutex_unlock_same; intros; reflexivity
  | |- steps (same ?v) _ =>
      first [ solve [auto with steps]
            | apply steps_same_host; solve [auto with steps]
            | apply (steps_coarser stream_view v);
              [ let E := fresh in intros ? ? E; exact (f_equal v E)
              | solve [auto with steps] ] ]
  | |- steps (keeps unsent) _ =>
      first [ solve [auto with steps] | apply same_flag_unsent; steps_atom ]
  | |- steps shrink _ =>
      first [ solve [auto with steps] | apply same_queue_shrink; steps_atom ]
  | |- steps (meet _ _) _ => apply steps_meet
  | |- steps (held _) _ =>
      first [ solve [auto with steps] | apply steps_held ]
  | |- steps (mute _) _ =>
      first [ apply steps_mute_log; reflexivity
            | solve [auto with steps]
            | apply steps_mute_pure; solve [auto with traces] ]
  end.

Lemma steps_at {A} (R : state -> state -> Prop) (m : M A) s a s' :
  steps R m -> m s = Ok a s' -> R s s'.
Proof. intros H E. exact (H s a s' E). Qed.

Ltac step_of R E A :=
  match type of E with
  | ?m ?s = Ok ?a ?s' =>
      assert (A : R s s');
      [apply (steps_at R m s a s'); [solve [steps_go] | exact E]|]
  end.
Ltac queue_of E A := step_of (same queue_view) E A.

Section Muted.
Context {P : platform} {X : externs}.
Variables (topics : Z -> bool) (present : bool).
Hypothesis Hread : read_usb_still.
Hypothesis Hoff : off_control topics.

Lemma read_usb_mute : steps (mute (watch topics present)) xrsp_read_usb.
Proof. intros s a s' E. by rewrite (Hread s a s' E). Qed.
Hint Resolve read_usb_mute : steps.

Lemma xrsp_send_usb_mute msg :
  topics (topic (msg_header msg)) = false ->
  steps (mute (watch topics present)) (xrsp_send_usb msg).
Proof.
  intros Ht. unfold xrsp_send_usb.
  assert (Hl : forall r, steps (mute (watch topics present)) (log (EvSendUsb msg r))).
  { intros r. by apply steps_mute_log. }
  steps_go.
Qed.

Lemma xrsp_send_to_topic_raw_mute tp data n :
  topics tp = false ->
  steps (mute (watch topics present)) (xrsp_send_to_topic_raw tp data n).
Proof.
  intros Ht. unfold xrsp_send_to_topic_raw.
  assert (Hs : forall seq, steps (mute (watch topics present))
                 (xrsp_send_usb (xrsp_topic_msg seq tp data n))).
  { intros seq. apply xrsp_send_usb_mute. by rewrite xrsp_topic_msg_topic. }
  steps_go.
Qed.

Lemma xrsp_send_to_topic_loop_mute fuel tp data idx n :
  topics tp = false ->
  steps (mute (watch topics present)) (xrsp_send_to_topic_loop fuel tp data idx n).
Proof.
  intros Ht. revert idx.
  induction fuel as [|fuel IH]; intros idx; cbn [xrsp_send_to_topic_loop].
  - steps_go.
  - pose proof (xrsp_send_to_topic_raw_mute tp) as Hraw. steps_go.
Qed.

Lemma os_mutex_lock_mute m :
  steps (mute (watch topics present)) (os_mutex_lock m).
Proof. unfold os_mutex_lock, mutex_held, mutex_store. destruct m; steps_go. Qed.
Lemma os_mutex_unlock_mute m :
  steps (mute (watch topics present)) (os_mutex_unlock m).
Proof.
  unfold os_mutex_unlock, mutex_held, mutex_store. destruct m; steps_go.
Qed.
Hint Resolve os_mutex_lock_mute os_mutex_unlock_mute : steps.

Lemma xrsp_send_to_topic_mute tp data n :
  topics tp = false ->
  steps (mute (watch topics present)) (xrsp_send_to_topic tp data n).
Proof.
  intros Ht. pose proof (xrsp_send_to_topic_loop_mute) as Hloop.
  unfold xrsp_send_to_topic. steps_go.
Qed.

Hint Resolve xrsp_send_to_topic_mute : steps.

Lemma off_hostinfo : topics TOPIC_HOSTINFO_ADV = false.
Proof. by inversion Hoff. Qed.
Lemma off_command : topics TOPIC_COMMAND = false.
Proof.
  unfold off_control, control_topics in Hoff. rewrite !Forall_cons in Hoff.
  tauto.
Qed.
Lemma off_audio : topics TOPIC_AUDIO_CONTROL = false.
Proof.
  unfold off_control, control_topics in Hoff. rewrite !Forall_cons in Hoff.
  tauto.
Qed.
Lemma off_input : topics TOPIC_INPUT_CONTROL = false.
Proof.
  unfold off_control, control_topics in Hoff. rewrite !Forall_cons in Hoff.
  tauto.
Qed.
Lemma off_video : topics TOPIC_VIDEO = false.
Proof.
  unfold off_control, control_topics in Hoff. rewrite !Forall_cons in Hoff.
  tauto.
Qed.
Lemma off_mesh : topics TOPIC_MESH = false.
Proof.
  unfold off_control, control_topics in Hoff. rewrite !Forall_cons in Hoff.
  tauto.
Qed.
Lemma off_ripc : topics TOPIC_RUNTIME_IPC = false.
Proof.
  unfold off_control, control_topics in Hoff. rewrite !Forall_cons in Hoff.
  tauto.
Qed.
Hint Resolve off_hostinfo off_command off_audio off_input off_video off_mesh
  off_ripc : steps.

Lemma xrsp_send_to_topic_capnp_wrapped_mute tp idx data n :
  topics tp = false ->
  steps (mute (watch topics present)) (xrsp_send_to_topic_capnp_wrapped tp idx data n).
Proof. intros Ht. unfold xrsp_send_to_topic_capnp_wrapped. steps_go. Qed.

Lemma send_each_mute tp segs :
  topics tp = false -> steps (mute (watch topics present)) (send_each tp segs).
Proof. intros Ht. induction segs; cbn [send_each]; steps_go. Qed.

Lemma xrsp_send_to_topic_capnp_segments_mute tp idx data :
  topics tp = false ->
  steps (mute (watch topics present)) (xrsp_send_to_topic_capnp_segments tp idx data).
Proof.
  intros Ht. pose proof (send_each_mute tp).
  unfold xrsp_send_to_topic_capnp_segments. steps_go.
Qed.
Hint Resolve xrsp_send_to_topic_capnp_wrapped_mute
  xrsp_send_to_topic_capnp_segments_mute : steps.

Lemma xrsp_send_ripc_mute c :
  steps (mute (watch topics present)) (xrsp_send_ripc c).
Proof. unfold xrsp_send_ripc. steps_go. Qed.
Hint Resolve xrsp_send_ripc_mute : steps.

Lemma xrsp_reset_echo_mute :
  steps (mute (watch topics present)) xrsp_reset_echo.
Proof. unfold xrsp_reset_echo. steps_go. Qed.
Lemma xrsp_send_ping_mute : steps (mute (watch topics present)) xrsp_send_ping.
Proof. unfold xrsp_send_ping. steps_go. Qed.
Hint Resolve xrsp_reset_echo_mute xrsp_send_ping_mute : steps.
Lemma xrsp_handle_echo_mute pkt :
  steps (mute (watch topics present)) (xrsp_handle_echo pkt).
Proof. unfold xrsp_handle_echo. steps_go. Qed.
Lemma xrsp_handle_invite_mute pkt :
  steps (mute (watch topics present)) (xrsp_handle_invite pkt).
Proof. unfold xrsp_handle_invite. steps_go. Qed.
Hint Resolve xrsp_handle_echo_mute xrsp_handle_invite_mute : steps.

Lemma xrsp_finish_pairing_2_mute pkt :
  steps (mute (watch topics present)) (xrsp_finish_pairing_2 pkt).
Proof.
  unfold xrsp_finish_pairing_2, xrsp_send_audio_control, xrsp_send_input_control,
    xrsp_send_mesh. steps_go.
Qed.
Hint Resolve xrsp_finish_pairing_2_mute : steps.

Lemma xrsp_handle_hostinfo_adv_mute pkt :
  steps (mute (watch topics present)) (xrsp_handle_hostinfo_adv pkt).
Proof.
  unfold xrsp_handle_hostinfo_adv, xrsp_init_session, xrsp_send_codegen_1,
    xrsp_send_pairing_1, xrsp_finish_pairing_1, xrsp_init_session_2,
    xrsp_send_codegen_2, xrsp_send_pairing_2.
  steps_go.
Qed.

Lemma usb_init_reopen_mute n :
  steps (mute (watch topics present)) (usb_init_reopen n).
Proof. induction n; cbn [usb_init_reopen]; unfold os_nanosleep; steps_go. Qed.
Lemma usb_init_endpoints_mute eps :
  steps (mute (watch topics present)) (usb_init_endpoints eps).
Proof.
  induction eps; cbn [usb_init_endpoints]; unfold usb_init_endpoint; steps_go.
Qed.
Hint Resolve usb_init_reopen_mute usb_init_endpoints_mute : steps.
Lemma ql_xrsp_usb_init_mute do_reset :
  steps (mute (watch topics present)) (ql_xrsp_usb_init do_reset).
Proof.
  unfold ql_xrsp_usb_init, usb_init_claim, usb_init_cleanup, libusb_close,
    libusb_clear_halt. steps_go.
Qed.
Hint Resolve ql_xrsp_usb_init_mute : steps.

Lemma ql_xrsp_read_thread_iter_mute :
  steps (mute (watch topics present)) ql_xrsp_read_thread_iter.
Proof. unfold ql_xrsp_read_thread_iter, os_nanosleep. steps_go. Qed.

Lemma xrsp_flush_stream_mute t i j :
  steps (mute (watch topics present)) (xrsp_flush_stream t i j).
Proof. unfold xrsp_flush_stream. steps_go. Qed.
Lemma write_thread_select_mute :
  steps (mute (watch topics present)) write_thread_select.
Proof. unfold write_thread_select, write_thread_select_turn. steps_go. Qed.
Lemma write_thread_arm_mute :
  steps (mute (watch topics present)) write_thread_arm.
Proof. unfold write_thread_arm. steps_go. Qed.

Lemma xrsp_send_video_mute i j f t c cl v vl b :
  topics (u8 (TOPIC_SLICE_0 + j)) = false ->
  steps (mute (watch topics present)) (xrsp_send_video i j f t c cl v vl b).
Proof. intros Ht. unfold xrsp_send_video, xrsp_ts_ns_to_target. steps_go. Qed.


(** *** The flag *)

Lemma rd_inv_lookup {A} (a : ql_xrsp_host -> list A) i v s s' :
  rd a i s = Ok v s' -> s' = s /\ a (st_host s) !! Z.to_nat i = Some v.
Proof.
  unfold rd. destruct (i <? 0); [done|]. destruct (_ !! _) eqn:E; [|done].
  by intros [= <- <-].
Qed.

Lemma xrsp_send_video_flag i j f t c cl v vl b s s' :
  unsent s ->
  xrsp_send_video i j f t c cl v vl b s = Ok tt s' ->
  (unsent s' /\ mute (watch topics present) s s') \/
  (cl <> 0 /\ pairing_state (st_host s) = PAIRINGSTATE_PAIRED /\
   ready_to_send_frames (st_host s) = true).
Proof.
  intros Hs E. unfold xrsp_send_video in E.
  apply bind_inv in E as (pose & s1 & E1 & E). apply rd_inv in E1 as ->.
  apply bind_inv in E as (h & s1 & [= <- <-] & E). unfold id in E.
  assert (Hgo : forall m : M unit,
    steps (meet (keeps unsent) (mute (watch topics present))) m -> m s = Ok tt s' ->
    unsent s' /\ mute (watch topics present) s s').
  { intros m Hm Em. destruct (Hm _ _ _ Em) as [K Mu]. split; [by apply K | done]. }
  destruct (decide (cl = 0)) as [->|Hcl].
  - left. revert E. change (0 =? 0) with true. rewrite Hs. cbn [negb andb].
    change (negb (0 =? 0)) with false. cbn [when].
    apply Hgo. apply steps_meet; unfold xrsp_ts_ns_to_target; steps_go.
  - destruct (negb (bool_decide (pairing_state (st_host s) = PAIRINGSTATE_PAIRED))
              || negb (ready_to_send_frames (st_host s))) eqn:Hc.
    + left. revert E. apply Hgo. apply steps_meet; steps_go.
    + right. apply orb_false_elim in Hc as [Hc1 Hc2].
      apply negb_false_iff in Hc1, Hc2. apply bool_decide_eq_true_1 in Hc1.
      done.
Qed.

Lemma write_thread_arm_unsent :
  steps (fun _ s' => unsent s') write_thread_arm.
Proof.
  unfold write_thread_arm. apply steps_after. intros _.
  apply steps_then; [by intros ? ? ? [= _ <-]|]. intros _. steps_go.
Qed.

Lemma usb_init_reopen_flag n :
  steps (same sent_first_frame) (usb_init_reopen n).
Proof. induction n; cbn [usb_init_reopen]; unfold os_nanosleep; steps_go. Qed.
Lemma usb_init_endpoints_flag eps :
  steps (same sent_first_frame) (usb_init_endpoints eps).
Proof.
  induction eps; cbn [usb_init_endpoints]; unfold usb_init_endpoint; steps_go.
Qed.
Hint Resolve usb_init_reopen_flag usb_init_endpoints_flag : steps.

Lemma ql_xrsp_usb_init_unsent do_reset :
  steps (fun _ s' => unsent s') (ql_xrsp_usb_init do_reset).
Proof.
  unfold ql_xrsp_usb_init. do 7 (apply steps_after; intros ?).
  apply steps_then; [by intros ? ? ? [= _ <-]|]. intros _.
  unfold usb_init_claim, usb_init_cleanup, libusb_close, libusb_clear_halt.
  steps_go.
Qed.
End Muted.

(** ** The writer's scan *)

Section Select.
Context {P : platform} {X : externs}.

Lemma write_thread_select_queue : steps (same queue_view) write_thread_select.
Proof. unfold write_thread_select, write_thread_select_turn. steps_go. Qed.

Lemma write_thread_select_turn_spec nf st i (ns tp : Z) s acc' s' :
  queue_view (st_host s) = (nf, st) ->
  write_thread_select_turn i (ns, tp) s = Ok acc' s' ->
  queue_view (st_host s') = (nf, st) /\
  exists fl t, nf !! Z.to_nat i = Some fl /\ st !! Z.to_nat i = Some t /\
    acc' = if fl && (t <? ns) then (t, i) else (ns, tp).
Proof.
  intros Hq E. unfold write_thread_select_turn in E.
  change (seqZ 0 QL_NUM_SLICES) with [0] in E. cbn [for_up] in E. cbv zeta in E.
  change (QL_IDX_SLICE 0 i) with (0 * QL_SWAPCHAIN_DEPTH + i) in E.
  rewrite Z.mul_0_l, Z.add_0_l in E.
  apply bind_inv in E as (asp & s1 & E1 & E).
  apply bind_inv in E1 as (asp0 & s1' & E1 & [= <- <-]).
  apply bind_inv in E1 as ([] & s2 & L1 & E1).
  apply bind_inv in E1 as (fl & s3 & R1 & E1).
  apply bind_inv in E1 as ([] & s4 & U1 & [= <- <-]).
  apply bind_inv in E as ([] & s5 & L2 & E).
  apply bind_inv in E as (t & s6 & R2 & E).
  apply bind_inv in E as ([] & s7 & U2 & [= <- <-]).
  apply rd_inv_lookup in R1 as [-> R1]. apply rd_inv_lookup in R2 as [-> R2].
  assert (Q2 : queue_view (st_host s2) = (nf, st)).
  { rewrite <- Hq. eapply (os_mutex_lock_same queue_view); [done..|exact L1]. }
  assert (Q4 : queue_view (st_host s4) = (nf, st)).
  { rewrite <- Q2. eapply (os_mutex_unlock_same queue_view); [done..|exact U1]. }
  assert (Q5 : queue_view (st_host s5) = (nf, st)).
  { rewrite <- Q4. eapply (os_mutex_lock_same queue_view); [done..|exact L2]. }
  assert (Q7 : queue_view (st_host s7) = (nf, st)).
  { rewrite <- Q5. eapply (os_mutex_unlock_same queue_view); [done..|exact U2]. }
  split; [exact Q7|]. exists fl, t.
  injection Q2 as Q2 _. injection Q5 as _ Q5. rewrite Q2 in R1. rewrite Q5 in R2.
  split; [exact R1|]. split; [exact R2|]. by destruct fl.
Qed.

Lemma write_thread_select_spec s r s' :
  write_thread_select s = Ok r s' ->
  queue_view (st_host s') = queue_view (st_host s) /\
  selected (needs_flush (st_host s)) (stream_started_ns (st_host s)) r.
Proof.
  intros E. split; [exact (write_thread_select_queue s r s' E)|].
  unfold write_thread_select in E.
  change (seqZ 0 QL_SWAPCHAIN_DEPTH) with [0; 1; 2] in E. cbn [for_up] in E.
  set (nf := needs_flush (st_host s)). set (st := stream_started_ns (st_host s)).
  assert (Q0 : queue_view (st_host s) = (nf, st)) by reflexivity.
  apply bind_inv in E as ([n1 p1] & s1 & E1 & E).
  apply (write_thread_select_turn_spec nf st 0) in E1
    as (Q1 & f0 & t0 & N0 & S0 & A1); [|done].
  apply bind_inv in E as ([n2 p2] & s2 & E2 & E).
  apply (write_thread_select_turn_spec nf st 1) in E2
    as (Q2 & f1 & t1 & N1 & S1 & A2); [|done].
  apply bind_inv in E as ([n3 p3] & s3 & E3 & [= <- <-]).
  apply (write_thread_select_turn_spec nf st 2) in E3
    as (Q3 & f2 & t2 & N2 & S2 & A3); [|done].
  clear Q0 Q1 Q2 Q3. unfold selected, QL_SWAPCHAIN_DEPTH, INT64_MAX.
  assert (Hk : forall k t, 0 <= k < 3 -> nf !! Z.to_nat k = Some true ->
            st !! Z.to_nat k = Some t ->
            (k = 0 /\ f0 = true /\ t = t0) \/ (k = 1 /\ f1 = true /\ t = t1) \/
            (k = 2 /\ f2 = true /\ t = t2)).
  { intros k t Hk Hn Ht.
    assert (k = 0 \/ k = 1 \/ k = 2) as [-> | [-> | ->]] by lia.
    - left. split; [done|]. split; congruence.
    - right. left. split; [done|]. split; congruence.
    - right. right. split; [done|]. split; congruence. }
  cbn [fst snd].
  unfold INT64_MAX in A1.
  match type of A1 with _ = (if ?c then _ else _) => destruct c eqn:C1 end;
  injection A1 as -> ->;
  (match type of A2 with _ = (if ?c then _ else _) => destruct c eqn:C2 end;
   injection A2 as -> ->);
  (match type of A3 with _ = (if ?c then _ else _) => destruct c eqn:C3 end;
   injection A3 as -> ->);
  repeat match goal with
  | C : _ && _ = true |- _ =>
      apply andb_true_iff in C as [? C]; apply Z.ltb_lt in C
  | C : _ && _ = false |- _ =>
      apply andb_false_iff in C as [C|C]; [|apply Z.ltb_ge in C]
  end; subst;
  first [ left; split; [reflexivity|]; split; [reflexivity|];
          intros k t Hk1 Hn Ht;
          destruct (Hk k t Hk1 Hn Ht)
            as [(-> & Hf & ->)|[(-> & Hf & ->)|(-> & Hf & ->)]];
          first [discriminate | lia]
        | right; split; [lia|]; split; [assumption|]; split; [assumption|];
          split; [lia|];
          intros k t Hk1 Hn Ht;
          destruct (Hk k t Hk1 Hn Ht)
            as [(-> & Hf & ->)|[(-> & Hf & ->)|(-> & Hf & ->)]];
          first [discriminate | lia] ].
Qed.
End Select.


Lemma QL_IDX_SLICE_0 i : QL_IDX_SLICE 0 i = i.
Proof. unfold QL_IDX_SLICE. lia. Qed.

(** ** The scan returns *)

Lemma stream_mutex_set l h : stream_mutex (set_stream_mutex l h) = l.
Proof. reflexivity. Qed.

Lemma set_stream_mutex_twice l l' h :
  set_stream_mutex l (set_stream_mutex l' h) = set_stream_mutex l h.
Proof. reflexivity. Qed.

Lemma set_stream_mutex_id' h : set_stream_mutex (stream_mutex h) h = h.
Proof. by destruct h. Qed.

Lemma locked_rd {A B} (a : ql_xrsp_host -> list A) i (k : A -> M B) s v :
  (forall l h, a (set_stream_mutex l h) = a h) ->
  0 <= i ->
  stream_mutex (st_host s) !! Z.to_nat i = Some false ->
  a (st_host s) !! Z.to_nat i = Some v ->
  (os_mutex_lock (stream_mutex_id i) ≫= fun _ =>
   rd a i ≫= fun x => os_mutex_unlock (stream_mutex_id i) ≫= fun _ => k x) s
  = k v (set_st_trace (st_trace s ++ [EvLock (stream_mutex_id i);
                                      EvUnlock (stream_mutex_id i)]) s).
Proof.
  intros Ha Hi Hm Hv.
  unfold os_mutex_lock, os_mutex_unlock, mutex_held, mutex_store, wr, rd.
  replace (i <? 0) with false by lia. munfold. ssimpl.
  repeat (first [ rewrite Hm | rewrite Ha | rewrite Hv | rewrite stream_mutex_set
                | rewrite list_lookup_insert_eq
                    by (eapply lookup_lt_Some; eassumption) ]; ssimpl).
  rewrite stream_lock_unlock by done.
  destruct s. ssimpl.
  rewrite set_stream_mutex_twice, set_stream_mutex_id', <- app_assoc.
  reflexivity.
Qed.

Section Returns.
Context {P : platform} {X : externs}.

Lemma write_thread_select_turn_returns i ns tp s fl t :
  0 <= i ->
  stream_mutex (st_host s) !! Z.to_nat i = Some false ->
  needs_flush (st_host s) !! Z.to_nat i = Some fl ->
  stream_started_ns (st_host s) !! Z.to_nat i = Some t ->
  exists s',
    write_thread_select_turn i (ns, tp) s
      = Ok (if fl && (t <? ns) then (t, i) else (ns, tp)) s' /\
    st_host s' = st_host s.
Proof.
  intros Hi Hm Hn Hs. unfold write_thread_select_turn.
  change (seqZ 0 QL_NUM_SLICES) with [0]. cbn [for_up]. cbv zeta.
  rewrite !QL_IDX_SLICE_0.
  pose proof (locked_rd needs_flush i
                (fun flush => mret (if negb flush then false else true))
                s fl (fun _ _ => eq_refl) Hi Hm Hn) as E1.
  rewrite (bind_Ok _ _ _ _ _ (bind_Ok _ _ _ _ _ E1)).
  erewrite (locked_rd stream_started_ns i);
    [|by intros | done | exact Hm | exact Hs].
  replace (if negb fl then false else true) with fl by (by destruct fl).
  eexists. split; reflexivity.
Qed.

Lemma write_thread_select_returns s :
  (forall k, (k < 3)%nat ->
     stream_mutex (st_host s) !! k = Some false /\
     is_Some (needs_flush (st_host s) !! k) /\
     is_Some (stream_started_ns (st_host s) !! k)) ->
  exists r s', write_thread_select s = Ok r s' /\ st_host s' = st_host s.
Proof.
  intros H.
  destruct (H 0%nat) as (M0 & [f0 N0] & [t0 S0]); [lia|].
  destruct (H 1%nat) as (M1 & [f1 N1] & [t1 S1]); [lia|].
  destruct (H 2%nat) as (M2 & [f2 N2] & [t2 S2]); [lia|].
  unfold write_thread_select.
  change (seqZ 0 QL_SWAPCHAIN_DEPTH) with [0; 1; 2]. cbn [for_up].
  destruct (write_thread_select_turn_returns 0 INT64_MAX (-1) s f0 t0)
    as (s1 & E1 & H1); [done..|].
  rewrite (bind_Ok _ _ _ _ _ E1).
  destruct (if f0 && (t0 <? INT64_MAX) then (t0, 0) else (INT64_MAX, -1))
    as [n1 p1].
  destruct (write_thread_select_turn_returns 1 n1 p1 s1 f1 t1)
    as (s2 & E2 & H2); [by rewrite ?H1..|].
  rewrite (bind_Ok _ _ _ _ _ E2).
  destruct (if f1 && (t1 <? n1) then (t1, 1) else (n1, p1)) as [n2 p2].
  destruct (write_thread_select_turn_returns 2 n2 p2 s2 f2 t2)
    as (s3 & E3 & H3); [by rewrite ?H2, ?H1..|].
  rewrite (bind_Ok _ _ _ _ _ E3).
  do 2 eexists. split; [reflexivity|]. congruence.
Qed.
End Returns.

(** ** One turn of the writer *)

Lemma off_control_none {X : externs} : off_control (fun _ => false).
Proof. unfold off_control. by apply Forall_forall. Qed.

Lemma read_usb_still_frames {X : externs} :
  read_usb_still -> steps (same stream_view) xrsp_read_usb.
Proof. intros H s a s' E. by rewrite (H s a s' E). Qed.

Section Turn.
Context {P : platform} {X : externs}.
Hypothesis Hread : read_usb_still.

Lemma choices_send_video i j f t c cl v vl b :
  steps (mute choices) (xrsp_send_video i j f t c cl v vl b).
Proof.
  exact (xrsp_send_video_mute (fun _ => false) true off_control_none
           i j f t c cl v vl b eq_refl).
Qed.
Lemma choices_trigger_bye : steps (mute choices) xrsp_trigger_bye.
Proof.
  exact (xrsp_send_to_topic_capnp_wrapped_mute (fun _ => false) true
           TOPIC_VIDEO 0 request_video_idk (size_of request_video_idk) eq_refl).
Qed.
Lemma choices_lock m : steps (mute choices) (os_mutex_lock m).
Proof. exact (os_mutex_lock_mute (fun _ => false) true m). Qed.
Lemma choices_unlock m : steps (mute choices) (os_mutex_unlock m).
Proof. exact (os_mutex_unlock_mute (fun _ => false) true m). Qed.
Lemma choices_select : steps (mute choices) write_thread_select.
Proof. exact (write_thread_select_mute (fun _ => false) true). Qed.
Lemma choices_arm : steps (mute choices) write_thread_arm.
Proof. exact (write_thread_arm_mute (fun _ => false) true). Qed.
Hint Resolve choices_send_video choices_trigger_bye choices_lock choices_unlock
  choices_select choices_arm : steps.

Lemma xrsp_trigger_bye_frames : steps (same stream_view) xrsp_trigger_bye.
Proof. unfold xrsp_trigger_bye. steps_go. Qed.
Hint Resolve xrsp_trigger_bye_frames : steps.

Lemma xrsp_send_video_queue i j f t c cl v vl b :
  steps (same queue_view) (xrsp_send_video i j f t c cl v vl b).
Proof. unfold xrsp_send_video, xrsp_ts_ns_to_target. steps_go. Qed.
Hint Resolve xrsp_send_video_queue : steps.

Lemma write_thread_arm_shrink : steps shrink write_thread_arm.
Proof.
  unfold write_thread_arm. steps_go. apply wr_needs_flush_shrink.
Qed.
Hint Resolve write_thread_arm_shrink : steps.



Lemma presents_log s i ns :
  presents (st_trace s ++ [EvPresent i ns]) = presents (st_trace s) ++ [ns].
Proof. by rewrite presents_app. Qed.

Lemma shrink_keeps_cleared {A} k (m : M A) :
  steps shrink m ->
  steps (keeps (fun s => needs_flush (st_host s) !! k <> Some true)) m.
Proof. intros H s a s' E Hs Hk. apply Hs. by apply (H s a s' E). Qed.

Lemma wr_needs_flush_cleared i :
  steps (fun _ s' => needs_flush (st_host s') !! Z.to_nat i <> Some true)
    (wr needs_flush set_needs_flush i false).
Proof.
  intros s a s' E. unfold wr in E. apply bind_inv in E as (x & s1 & E1 & E2).
  apply rd_inv in E1 as ->. injection E2 as E2. subst s'. ssimpl. hsimpl.
  intros H. apply list_lookup_insert_Some in H as [(_ & H & _)|(H & _)]; done.
Qed.


(** Presenting the slot [i]: the choice is recorded and the slot stops
    waiting. *)
Lemma write_thread_present_turn i ns s s' :
  write_thread_present i ns s = Ok tt s' ->
  presents (st_trace s') = presents (st_trace s) ++ [ns] /\
  shrink s s' /\
  needs_flush (st_host s') !! Z.to_nat i <> Some true.
Proof.
  intros E. unfold write_thread_present in E.
  apply bind_inv in E as ([] & s0 & E0 & E). injection E0 as E0. subst s0.
  change (seqZ 0 QL_NUM_SLICES) with [0] in E. cbn [for_up] in E.
  rewrite QL_IDX_SLICE_0 in E.
  match type of E with ?m _ = _ =>
    assert (H1 : steps (meet (mute choices) shrink) m);
    [|assert (H2 : steps (fun _ s' =>
                      needs_flush (st_host s') !! Z.to_nat i <> Some true) m)]
  end.
  - steps_go. apply wr_needs_flush_shrink.
  - apply steps_then; [|intros ?; apply shrink_keeps_cleared; steps_go].
    apply steps_then; [|intros ?; apply shrink_keeps_cleared; steps_go].
    do 7 (apply steps_after; intros ?).
    apply steps_then; [apply wr_needs_flush_cleared|].
    intros _. apply shrink_keeps_cleared. steps_go.
  - destruct (H1 _ _ _ E) as [Mu Sh]. apply mute_presents in Mu.
    split; [|split].
    + rewrite Mu. ssimpl. apply presents_log.
    + exact Sh.
    + exact (H2 _ _ _ E).
Qed.

(** What one turn of the writer does to the queue and to the record of
    its choices *)
Lemma ql_xrsp_write_thread_iter_turn s s' :
  ql_xrsp_write_thread_iter s = Ok tt s' ->
  exists r,
    selected (needs_flush (st_host s)) (stream_started_ns (st_host s)) r /\
    presents (st_trace s') =
      presents (st_trace s) ++ (if 0 <=? r.2 then [r.1] else []) /\
    shrink s s' /\
    (0 <= r.2 -> needs_flush (st_host s') !! Z.to_nat r.2 <> Some true).
Proof.
  intros E. unfold ql_xrsp_write_thread_iter in E.
  apply bind_inv in E as (r & s1 & E1 & E). exists r.
  pose proof (steps_at _ _ _ _ _ choices_select E1) as M1.
  pose proof (steps_at _ _ _ _ _ write_thread_select_queue E1) as Q1.
  apply same_queue_shrink_at in Q1.
  apply write_thread_select_spec in E1 as [_ Hsel]. split; [exact Hsel|].
  apply mute_presents in M1.
  apply bind_inv in E as ([] & s2 & E2 & E).
  match type of E with ?m _ = _ =>
    assert (Hrest : steps (meet (mute choices) shrink) m)
  end.
  { unfold os_nanosleep. steps_go. }
  destruct (Hrest _ _ _ E) as [M3 S3]. apply mute_presents in M3.
  destruct (Z.leb_spec 0 r.2) as [Hr|Hr]; cbn [when] in E2.
  - apply write_thread_present_turn in E2 as (M2 & S2 & C2).
    split; [by rewrite M3, M2, M1|]. split.
    + by do 2 (etransitivity; [eassumption|]).
    + intros _ Hk. apply C2. by apply S3.
  - injection E2 as <-. split; [by rewrite M3, M1, app_nil_r|]. split.
    + by etransitivity.
    + lia.
Qed.

(** ** The other calls and the queue *)

Lemma usb_init_reopen_queue n : steps (same queue_view) (usb_init_reopen n).
Proof. induction n; cbn [usb_init_reopen]; unfold os_nanosleep; steps_go. Qed.
Lemma usb_init_endpoints_queue eps :
  steps (same queue_view) (usb_init_endpoints eps).
Proof.
  induction eps; cbn [usb_init_endpoints]; unfold usb_init_endpoint; steps_go.
Qed.
Hint Resolve usb_init_reopen_queue usb_init_endpoints_queue : steps.
Lemma ql_xrsp_usb_init_queue do_reset :
  steps (same queue_view) (ql_xrsp_usb_init do_reset).
Proof.
  unfold ql_xrsp_usb_init, usb_init_claim, usb_init_cleanup, libusb_close,
    libusb_clear_halt. steps_go.
Qed.
Hint Resolve ql_xrsp_usb_init_queue : steps.

Lemma read_usb_queue : steps (same queue_view) xrsp_read_usb.
Proof. intros s a s' E. by rewrite (Hread s a s' E). Qed.
Hint Resolve read_usb_queue : steps.


Lemma xrsp_flush_stream_queue t index slice_idx s s' :
  xrsp_flush_stream t index slice_idx s = Ok tt s' ->
  let k := Z.to_nat (QL_IDX_SLICE slice_idx index) in
  queue_view (st_host s') = queue_view (st_host s) \/
  queue_view (st_host s') =
    (<[k := true]> (needs_flush (st_host s)),
     <[k := t]> (stream_started_ns (st_host s))).
Proof.
  intros E k. unfold xrsp_flush_stream in E.
  apply bind_inv in E as (ready & s0 & [= <- <-] & E).
  destruct (negb _); [left; by injection E as <-|].
  apply bind_inv in E as (now & s1 & E1 & E).
  apply bind_inv in E as ([] & s2 & E2 & E).
  apply bind_inv in E as ([] & s3 & E3 & E).
  apply bind_inv in E as (csd_len & s4 & E4 & E). apply rd_inv in E4 as ->.
  apply bind_inv in E as (idr_len & s4 & E4 & E). apply rd_inv in E4 as ->.
  assert (Q3 : queue_view (st_host s3) = queue_view (st_host s)).
  { queue_of E1 A1. queue_of E2 A2. queue_of E3 A3.
    unfold same in *. congruence. }
  destruct (_ || _).
  - right. apply bind_inv in E as ([] & s5 & E5 & E).
    apply bind_inv in E as ([] & s6 & E6 & E).
    unfold wr in E5, E6.
    apply bind_inv in E5 as (? & ? & R5 & E5). apply rd_inv in R5 as ->.
    apply bind_inv in E6 as (? & ? & R6 & E6). apply rd_inv in R6 as ->.
    injection E5 as E5. injection E6 as E6.
    match type of E with ?m _ = _ =>
      assert (Hm : steps (same queue_view) m) by steps_go
    end.
    rewrite (Hm _ _ _ E). subst s6 s5. ssimpl. hsimpl. unfold queue_view. hsimpl.
    injection Q3 as -> ->. reflexivity.
  - left. rewrite <- Q3. queue_of E A. exact A.
Qed.

Lemma run_call_quiet c s s' :
  (forall t i j, c <> CallFlushStream t i j) -> c <> CallWriteThread ->
  run_call c s = Ok tt s' ->
  queue_view (st_host s') = queue_view (st_host s) /\
  presents (st_trace s') = presents (st_trace s).
Proof.
  intros Hf Hw E.
  assert (H : steps (meet (same queue_view) (mute choices)) (run_call c)).
  { destruct c; cbn [run_call]; try done.
    - apply steps_meet; unfold xrsp_start_encode, wait_flushed; steps_go.
    - apply steps_meet; unfold xrsp_send_csd, wait_flushed; steps_go.
    - apply steps_meet; unfold xrsp_send_idr, wait_flushed; steps_go.
    - by destruct (Hf target_ns index slice_idx).
    - apply steps_meet.
      + unfold ql_xrsp_read_thread_iter, os_nanosleep. steps_go.
      + exact (ql_xrsp_read_thread_iter_mute (fun _ => false) true Hread).
    - apply steps_meet.
      + apply (steps_coarser stream_view queue_view);
          [intros ? ? H; exact (f_equal queue_view H)|].
        apply xrsp_handle_hostinfo_adv_frames, read_usb_still_frames, Hread.
      + exact (xrsp_handle_hostinfo_adv_mute (fun _ => false) true Hread
                 off_control_none pkt).
    - apply steps_meet; [steps_go|].
      pose proof (ql_xrsp_usb_init_mute (fun _ => false) true do_reset).
      steps_go. }
  destruct (H _ _ _ E) as [Q Mu]. split; [exact Q | by apply mute_presents].
Qed.

(** ** First in, first out *)

Lemma waiting_queue s s' k t :
  queue_view (st_host s') = queue_view (st_host s) ->
  waiting s' k t <-> waiting s k t.
Proof. unfold queue_view, waiting. intros [= -> ->]. reflexivity. Qed.

Lemma fifo_inv_quiet F s s' :
  fifo_inv F s ->
  queue_view (st_host s') = queue_view (st_host s) ->
  presents (st_trace s') = presents (st_trace s) ->
  fifo_inv F s'.
Proof.
  intros (I1 & I2 & I3 & I4) Q Pr. unfold fifo_inv. rewrite Pr.
  split; [done|]. split; [done|]. split.
  - intros k t W. apply (waiting_queue _ _ _ _ Q) in W. eauto.
  - intros k k' t W W'. apply (waiting_queue _ _ _ _ Q) in W, W'. eauto.
Qed.

Lemma fifo_inv_mono F F' s :
  fifo_inv F s -> (forall t, t ∈ F -> t ∈ F') -> fifo_inv F' s.
Proof.
  intros (I1 & I2 & I3 & I4) Sub. split; [done|]. split; [|split; [|done]].
  - eapply Forall_impl; [exact I2 | auto].
  - intros k t W. destruct (I3 k t W). auto.
Qed.

Lemma fifo_inv_flush F t index slice_idx s s' :
  fifo_inv F s -> Forall (fun u => u < t) F ->
  xrsp_flush_stream t index slice_idx s = Ok tt s' ->
  fifo_inv (F ++ [t]) s'.
Proof.
  intros I Hlt E.
  pose proof (steps_at _ _ _ _ _ (xrsp_flush_stream_mute (fun _ => false) true
                                   t index slice_idx) E) as Mu.
  apply mute_presents in Mu.
  apply xrsp_flush_stream_queue in E as [Q|Q].
  { apply (fifo_inv_mono F); [|intros u Hu; apply elem_of_app; by left].
    by apply (fifo_inv_quiet F s). }
  destruct I as (I1 & I2 & I3 & I4). unfold fifo_inv. rewrite Mu.
  set (k0 := Z.to_nat (QL_IDX_SLICE slice_idx index)) in *.
  assert (Hw : forall k u, waiting s' k u ->
            (Z.to_nat k = k0 /\ u = t) \/ (Z.to_nat k <> k0 /\ waiting s k u)).
  { intros k u (Hk & Hn & Hs). unfold queue_view in Q. injection Q as Qn Qs.
    rewrite Qn in Hn. rewrite Qs in Hs.
    destruct (decide (Z.to_nat k = k0)) as [Hk0|Hk0].
    - left. split; [done|]. rewrite Hk0 in Hs.
      apply list_lookup_insert_Some in Hs as [(_ & Hs & _)|(Hs & _)]; done.
    - right. split; [done|].
      rewrite list_lookup_insert_ne in Hn by done.
      rewrite list_lookup_insert_ne in Hs by done. done. }
  assert (Hold : forall k u, waiting s k u -> u < t).
  { intros k u W. destruct (I3 k u W) as [Hu _].
    by apply (proj1 (Forall_forall _ _) Hlt). }
  split; [done|]. split; [|split].
  - eapply Forall_impl; [exact I2|]. intros u Hu. apply elem_of_app. by left.
  - intros k u W. destruct (Hw k u W) as [(_ & ->)|(_ & W0)].
    + split; [apply elem_of_app; right; constructor|].
      eapply Forall_impl; [exact I2|].
      intros p Hp. by apply (proj1 (Forall_forall _ _) Hlt).
    + destruct (I3 k u W0). split; [apply elem_of_app; by left | done].
  - intros k k' u W W'. pose proof W as (Hk & _). pose proof W' as (Hk' & _).
    destruct (Hw k u W) as [(E1 & ->)|(_ & W0)];
      destruct (Hw k' _ W') as [(E2 & Eu)|(_ & W0')].
    + lia.
    + pose proof (Hold _ _ W0'). lia.
    + subst u. pose proof (Hold _ _ W0). lia.
    + eauto.
Qed.

Lemma StronglySorted_snoc (l : list Z) x :
  StronglySorted Z.lt l -> Forall (fun p => p < x) l ->
  StronglySorted Z.lt (l ++ [x]).
Proof.
  intros Hl Hx. induction Hl as [|y l Hl IH Hy]; cbn.
  - repeat constructor.
  - apply Forall_cons in Hx as [Hyx Hx]. constructor; [by apply IH|].
    apply Forall_app. split; [done | by constructor].
Qed.

Lemma fifo_inv_writer F s s' :
  fifo_inv F s -> ql_xrsp_write_thread_iter s = Ok tt s' -> fifo_inv F s'.
Proof.
  intros (I1 & I2 & I3 & I4) E.
  apply ql_xrsp_write_thread_iter_turn in E as (r & Hsel & Pr & [Ss Sn] & Cl).
  assert (Hw : forall k u, waiting s' k u -> waiting s k u).
  { intros k u (Hk & Hn & Hs). split; [done|]. split; [by apply Sn|].
    by rewrite <- Ss. }
  unfold fifo_inv. rewrite Pr.
  destruct (Z.leb_spec 0 r.2) as [Hr|Hr].
  - destruct Hsel as [(Hneg & _)|(Hr2 & Hn & Hs & _ & Hmin)]; [lia|].
    assert (W0 : waiting s r.2 r.1) by done.
    destruct (I3 _ _ W0) as [HF Hlt].
    split; [by apply StronglySorted_snoc|].
    split; [apply Forall_app; split; [done | by constructor]|].
    split.
    + intros k u W. pose proof (Hw _ _ W) as W1.
      destruct (I3 _ _ W1) as [HuF Hult]. split; [done|].
      apply Forall_app. split; [done|]. constructor; [|constructor].
      destruct W1 as (Hk & Hn1 & Hs1).
      destruct (Hmin k u Hk Hn1 Hs1) as [Hle Htie].
      destruct (decide (u = r.1)) as [->|Hne]; [|lia].
      assert (k = r.2) as -> by (eapply I4; [split; eauto | done]).
      destruct W as (_ & Hn' & _). by destruct (Cl Hr).
    + intros k k' u W W'. eauto.
  - rewrite app_nil_r. split; [done|]. split; [done|]. split.
    + intros k u W. eauto.
    + intros k k' u W W'. eauto.
Qed.

Lemma run_calls_fifo cs : forall F s s',
  fifo_inv F s -> StronglySorted Z.lt (F ++ flushes cs) ->
  run_calls cs s = Ok tt s' ->
  fifo_inv (F ++ flushes cs) s'.
Proof.
  induction cs as [|c cs IH]; intros F s s' I Hs E.
  - injection E as <-. cbn. by rewrite app_nil_r.
  - cbn [run_calls] in E. apply bind_inv in E as ([] & s1 & E1 & E).
    assert (Hq : (forall t i j, c <> CallFlushStream t i j) ->
                 c <> CallWriteThread -> flushes (c :: cs) = flushes cs ->
                 fifo_inv (F ++ flushes (c :: cs)) s').
    { intros H1 H2 H3. rewrite H3 in *. apply (IH F s1); [|done..].
      destruct (run_call_quiet c s s1 H1 H2 E1) as [Q Pr].
      by apply (fifo_inv_quiet F s). }
    destruct c; try (by apply Hq).
    + change (flushes (CallFlushStream target_ns index slice_idx :: cs))
        with ([target_ns] ++ flushes cs) in *.
      cbn [run_call] in E1. rewrite app_assoc in *.
      apply (IH _ s1); [|done..].
      apply (fifo_inv_flush F target_ns index slice_idx s); [done| |done].
      apply StronglySorted_app_1_l in Hs.
      apply Forall_forall. intros u Hu.
      eapply (StronglySorted_app_1_elem_of _ F [target_ns]); [done..|].
      constructor.
    + change (flushes (CallWriteThread :: cs)) with (flushes cs) in *.
      apply (IH F s1); [|done..].
      by apply (fifo_inv_writer F s).
Qed.

Lemma sorted_sublist (l2 : list Z) : forall l1,
  StronglySorted Z.lt l1 -> StronglySorted Z.lt l2 ->
  Forall (fun x => x ∈ l2) l1 -> sublist l1 l2.
Proof.
  induction l2 as [|y l2 IH]; intros l1 H1 H2 Hin.
  - destruct l1 as [|x l1]; [constructor|].
    apply Forall_cons in Hin as [Hx _]. by apply elem_of_nil in Hx.
  - destruct l1 as [|x l1]; [apply sublist_nil_l|].
    apply StronglySorted_cons in H1 as [Hx1 H1].
    apply StronglySorted_cons in H2 as [Hy2 H2].
    apply Forall_cons in Hin as [Hx Hin].
    assert (Htail : forall z, x < z -> z ∈ y :: l2 -> y <= x -> z ∈ l2).
    { intros z Hz Hzin Hyx. apply elem_of_cons in Hzin as [->|]; [lia | done]. }
    apply elem_of_cons in Hx as [->|Hx].
    + apply sublist_skip. apply IH; [done..|].
      apply Forall_forall. intros z Hz.
      apply (Htail z); [|by apply (proj1 (Forall_forall _ _) Hin)|lia].
      by apply (proj1 (Forall_forall _ _) Hx1).
    + assert (y < x) by (by apply (proj1 (Forall_forall _ _) Hy2)).
      apply sublist_cons. apply IH; [by constructor | done |].
      constructor; [done|]. apply Forall_forall. intros z Hz.
      apply (Htail z); [|by apply (proj1 (Forall_forall _ _) Hin)|lia].
      by apply (proj1 (Forall_forall _ _) Hx1).
Qed.

(** A host just created has presented nothing and has nothing waiting. *)
Lemma created_fifo_inv s : created s -> fifo_inv [] s.
Proof.
  intros (hmd & vid & pid & ifn & ret & E).
  assert (Hm : presents (st_trace s) = []).
  { assert (Hc : steps (mute choices) (ql_xrsp_host_create vid pid ifn)).
    { pose proof (ql_xrsp_usb_init_mute (fun _ => false) true).
      pose proof (xrsp_reset_echo_mute (fun _ => false) true).
      unfold ql_xrsp_host_create. steps_go. }
    exact (mute_presents _ _ (Hc _ _ _ E)). }
  assert (Hn : Forall (fun b => b = false) (needs_flush (st_host s))).
  { revert E. unfold ql_xrsp_host_create.
    apply (steps_then (fun s => Forall (fun b => b = false) (needs_flush (st_host s)))).
    - intros ? ? ? [= _ <-]. cbn. repeat constructor.
    - intros _.
      assert (Hk : forall A (m : M A), steps (same needs_flush) m ->
                steps (keeps (fun s => Forall (fun b => b = false)
                                         (needs_flush (st_host s)))) m).
      { intros A m H s0 a s1 E Hs. by rewrite (H s0 a s1 E). }
      apply Hk.
      assert (Hu : forall d, steps (same needs_flush) (ql_xrsp_usb_init d)).
      { intros d. apply (steps_coarser queue_view needs_flush);
          [by intros ? ? [= ? ?] | apply ql_xrsp_usb_init_queue]. }
      steps_go. }
  rewrite Forall_forall in Hn.
  unfold fifo_inv. rewrite Hm. split; [constructor|]. split; [constructor|].
  assert (Hw : forall k t, ~ waiting s k t).
  { intros k t (_ & Hk & _). apply list_elem_of_lookup_2 in Hk.
    by apply Hn in Hk. }
  split.
  - intros k t W. by destruct (Hw k t).
  - intros k k' t W. by destruct (Hw k t).
Qed.

End Turn.


(** ** Sending a slice returns *)

Section Returning.
Context {P : platform} {X : externs}.
Hypothesis HX : externs_ok.

Lemma returns_ret {A} (a : A) : returns (mret a).
Proof. intros s Hs. by exists a, s. Qed.

Lemma returns_bind {A B} (m : M A) (k : A -> M B) :
  returns m -> (forall a, returns (k a)) -> returns (m ≫= k).
Proof.
  intros Hm Hk s Hs. destruct (Hm s Hs) as (a & s1 & E1 & H1).
  destruct (Hk a s1 H1) as (b & s2 & E2 & H2).
  exists b, s2. split; [by rewrite (bind_Ok _ _ _ _ _ E1) | done].
Qed.

Lemma returns_when b m : returns m -> returns (when b m).
Proof. destruct b; [done | intros _; apply returns_ret]. Qed.

Lemma returns_get_host {A} (f : ql_xrsp_host -> A) : returns (get_host f).
Proof. intros s Hs. by exists (f (st_host s)), s. Qed.

Lemma returns_ts : returns xrsp_ts_ns.
Proof. intros s Hs. do 2 eexists. split; [reflexivity | exact Hs]. Qed.

Lemma returns_get_hmd : returns get_hmd.
Proof.
  intros s Hs. pose proof Hs as [(_ & _ & [hmd Hh]) _]. exists hmd, s.
  unfold get_hmd. by rewrite Hh.
Qed.

Lemma returns_runs (m : M unit) : runs m -> returns m.
Proof.
  intros Hm s [Hc Hv]. destruct (Hm s Hc) as ([] & s' & E & Hh).
  exists tt, s'. split; [done|]. split; [by eapply hush_calm|].
  destruct Hh as [evs [qh _ _ _ _]]. unfold video_arrays in *.
  pose proof (f_equal stream_pose_ns qh) as E1.
  pose proof (f_equal encode_started_ns qh) as E2.
  pose proof (f_equal encode_done_ns qh) as E3.
  pose proof (f_equal tx_started_ns qh) as E4.
  pose proof (f_equal tx_done_ns qh) as E5.
  pose proof (f_equal tx_duration_ns qh) as E6.
  cbn in E1, E2, E3, E4, E5, E6. by rewrite E1, E2, E3, E4, E5, E6.
Qed.

Lemma returns_set_host f :
  (forall h, usb_mutex (f h) = usb_mutex h /\ pose_mutex (f h) = pose_mutex h /\
             (video_arrays h -> video_arrays (f h))) ->
  returns (set_host f).
Proof.
  intros Hf s [(Hu & Hp & Hh) Hv]. do 2 eexists. split; [reflexivity|].
  destruct (Hf (st_host s)) as (F1 & F2 & F3).
  split; [|by apply F3]. repeat split; ssimpl; congruence.
Qed.

Lemma returns_rd (a : ql_xrsp_host -> list Z) i :
  0 <= i < QL_SWAPCHAIN_DEPTH * QL_NUM_SLICES ->
  (forall h, video_arrays h -> length (a h) = slots) ->
  returns (rd a i).
Proof.
  intros Hi Ha s Hs. pose proof Hs as [_ Hv].
  destruct (lookup_lt_is_Some_2 (a (st_host s)) (Z.to_nat i)) as [v Hl].
  { rewrite (Ha _ Hv). unfold slots. lia. }
  exists v, s. unfold rd. replace (i <? 0) with false by lia. by rewrite Hl.
Qed.

Lemma returns_wr (a : ql_xrsp_host -> list Z) set_a i v :
  0 <= i < QL_SWAPCHAIN_DEPTH * QL_NUM_SLICES ->
  (forall h, video_arrays h -> length (a h) = slots) ->
  (forall l h, usb_mutex (set_a l h) = usb_mutex h /\
               pose_mutex (set_a l h) = pose_mutex h /\
               (length l = length (a h) -> video_arrays h ->
                video_arrays (set_a l h))) ->
  returns (wr a set_a i v).
Proof.
  intros Hi Ha Hset. unfold wr. apply returns_bind; [by apply returns_rd|].
  intros _ s [(Hu & Hp & Hh) Hv]. do 2 eexists. split; [reflexivity|].
  destruct (Hset (<[Z.to_nat i := v]> (a (st_host s))) (st_host s))
    as (F1 & F2 & F3).
  split; [repeat split; ssimpl; congruence|].
  ssimpl. apply F3; [apply length_insert | done].
Qed.

Ltac returns_step :=
  lazymatch goal with
  | |- returns (mbind _ _) => apply returns_bind; [|intros ?]
  | |- returns (mret _) => apply returns_ret
  | |- returns (when _ _) => apply returns_when
  | |- returns (get_host _) => apply returns_get_host
  | |- returns get_hmd => apply returns_get_hmd
  | |- returns xrsp_ts_ns => apply returns_ts
  | |- returns (if ?b then _ else _) => destruct b eqn:?
  | |- returns (let _ := _ in _) => cbv zeta
  | |- returns (rd _ _) =>
      apply returns_rd; [assumption | by intros ? (? & ? & ? & ? & ? & ?)]
  | |- returns (wr _ _ _ _) =>
      apply returns_wr;
      [ assumption | by intros ? (? & ? & ? & ? & ? & ?)
      | intros ? ?; split; [reflexivity|]; split; [reflexivity|];
        unfold video_arrays; cbn; intros; intuition congruence ]
  | |- returns (set_host _) =>
      apply returns_set_host; intros ?; split; [reflexivity|];
      split; [reflexivity | done]
  end.

Lemma xrsp_send_video_returns i j f t c cl v vl b :
  0 <= QL_IDX_SLICE j i < QL_SWAPCHAIN_DEPTH * QL_NUM_SLICES ->
  0 <= QL_IDX_SLICE 0 i < QL_SWAPCHAIN_DEPTH * QL_NUM_SLICES ->
  cl = 0 \/ (sendable cl /\ size_of c = cl) ->
  sendable vl -> size_of v = vl ->
  returns (xrsp_send_video i j f t c cl v vl b).
Proof.
  intros Hj H0 Hc Hvl Hv.
  assert (Hi32 : forall n, sendable n -> i32 n = n).
  { intros n [? ?]. apply i32_small. unfold INT32_MAX in *. lia. }
  assert (Hseg : forall tp idx m,
            returns (xrsp_send_to_topic_capnp_segments tp idx
                       (getSegmentsForOutput m))).
  { intros. apply returns_runs, runs_capnp_segments, HX. }
  assert (Hripc : forall call, returns (xrsp_send_ripc call)).
  { intros. apply returns_runs, runs_send_ripc, HX. }
  assert (Hvid : forall tp, returns (xrsp_send_to_topic tp v (i32 vl))).
  { intros. rewrite Hi32 by done. by apply returns_runs, runs_send_to_topic. }
  unfold xrsp_send_video, xrsp_ts_ns_to_target.
  destruct Hc as [->|[Hc1 Hc2]].
  - change (negb (0 =? 0)) with false. cbn [when]. repeat returns_step; auto.
  - assert (Hcsd : forall tp, returns (xrsp_send_to_topic tp c (i32 cl))).
    { intros. rewrite Hi32 by done. by apply returns_runs, runs_send_to_topic. }
    repeat returns_step; auto.
Qed.
End Returning.

(** ** The keyframe rule *)

Section Keyframe.
Context {P : platform} {X : externs}.
Variable topics : Z -> bool.
Hypothesis Hread : read_usb_still.
Hypothesis Hoff : off_control topics.

Lemma xrsp_send_video_drop i j f t c v vl b :
  steps (held (watch topics false)) (xrsp_send_video i j f t c 0 v vl b).
Proof.
  intros s [] s' E Hs.
  by destruct (xrsp_send_video_flag topics false Hoff _ _ _ _ _ _ _ _ _ _ _ Hs E)
    as [?|[? _]].
Qed.

Lemma kf_lock m : steps (mute (watch topics false)) (os_mutex_lock m).
Proof. exact (os_mutex_lock_mute topics false m). Qed.
Lemma kf_unlock m : steps (mute (watch topics false)) (os_mutex_unlock m).
Proof. exact (os_mutex_unlock_mute topics false m). Qed.
Lemma kf_select : steps (mute (watch topics false)) write_thread_select.
Proof. exact (write_thread_select_mute topics false). Qed.
Lemma kf_arm : steps (mute (watch topics false)) write_thread_arm.
Proof. exact (write_thread_arm_mute topics false). Qed.
Lemma kf_trigger_bye : steps (mute (watch topics false)) xrsp_trigger_bye.
Proof.
  exact (xrsp_send_to_topic_capnp_wrapped_mute topics false TOPIC_VIDEO 0
           request_video_idk (size_of request_video_idk)
           (off_video topics Hoff)).
Qed.
Lemma kf_usb_init d : steps (mute (watch topics false)) (ql_xrsp_usb_init d).
Proof. exact (ql_xrsp_usb_init_mute topics false d). Qed.
Lemma kf_arm_unsent : steps (keeps unsent) write_thread_arm.
Proof. apply steps_lands_keeps, write_thread_arm_unsent. Qed.
Lemma kf_usb_init_unsent d : steps (keeps unsent) (ql_xrsp_usb_init d).
Proof. apply steps_lands_keeps, ql_xrsp_usb_init_unsent. Qed.
Lemma kf_read_usb : steps (held (watch topics false)) xrsp_read_usb.
Proof. intros s a s' E. rewrite (Hread s a s' E). reflexivity. Qed.
Hint Resolve kf_lock kf_unlock kf_select kf_arm kf_trigger_bye kf_usb_init
  kf_arm_unsent kf_usb_init_unsent kf_read_usb xrsp_send_video_drop : steps.

Lemma write_thread_select_flag :
  steps (same sent_first_frame) write_thread_select.
Proof. unfold write_thread_select, write_thread_select_turn. steps_go. Qed.
Hint Resolve write_thread_select_flag xrsp_trigger_bye_frames : steps.

(** Presenting the slot [i] while the first frame has not gone out:
    nothing goes out, unless the slot holds codec-specific data. *)
Lemma write_thread_present_flag i ns s s' :
  unsent s ->
  write_thread_present i ns s = Ok tt s' ->
  (unsent s' /\ mute (watch topics false) s s') \/
  (exists len, csd_stream_len (st_host s) !! Z.to_nat i = Some len /\ len <> 0).
Proof.
  intros Hs E. unfold write_thread_present in E.
  change (seqZ 0 QL_NUM_SLICES) with [0] in E. cbn [for_up] in E.
  rewrite QL_IDX_SLICE_0 in E.
  apply bind_inv in E as ([] & s0 & E0 & E).
  apply bind_inv in E as ([] & s3 & E3 & E).
  apply bind_inv in E3 as ([] & s3' & E3 & [= <-]).
  apply bind_inv in E3 as ([] & s1 & E1 & E3).
  apply bind_inv in E3 as (csd_len & s2 & E2 & E3).
  apply rd_inv_lookup in E2 as [-> E2].
  assert (H01 : held (watch topics false) s s1 /\
                csd_stream_len (st_host s1) = csd_stream_len (st_host s)).
  { step_of (held (watch topics false)) E0 A0.
    step_of (held (watch topics false)) E1 A1.
    step_of (same csd_stream_len) E1 B1.
    split; [by transitivity s0|]. rewrite B1. by injection E0 as <-. }
  destruct H01 as [H01 L01]. rewrite L01 in E2.
  destruct (decide (csd_len = 0)) as [->|Hne]; [left | right; eauto].
  match type of E3 with ?m _ = _ =>
    assert (H13 : steps (held (watch topics false)) m) by steps_go
  end.
  match type of E with ?m _ = _ =>
    assert (H3 : steps (held (watch topics false)) m) by steps_go
  end.
  assert (H : held (watch topics false) s s').
  { transitivity s1; [done|]. transitivity s3'; [exact (H13 _ _ _ E3)|].
    exact (H3 _ _ _ E). }
  exact (H Hs).
Qed.

Lemma ql_xrsp_write_thread_iter_flag s s' :
  unsent s ->
  ql_xrsp_write_thread_iter s = Ok tt s' ->
  (unsent s' /\ mute (watch topics false) s s') \/
  (exists i len,
     needs_flush (st_host s) !! i = Some true /\
     csd_stream_len (st_host s) !! i = Some len /\ len <> 0).
Proof.
  intros Hs E. unfold ql_xrsp_write_thread_iter in E.
  apply bind_inv in E as (r & s1 & E1 & E).
  step_of (held (watch topics false)) E1 A1.
  assert (B1 : same csd_stream_len s s1).
  { apply (steps_at _ _ _ _ _ write_thread_select_lens) in E1 as B1.
    unfold same, lens_view in *. by injection B1. }
  apply write_thread_select_spec in E1 as [_ Hsel].
  apply bind_inv in E as ([] & s2 & E2 & E).
  match type of E with ?m _ = _ =>
    assert (Hrest : steps (held (watch topics false)) m)
  end.
  { unfold os_nanosleep. steps_go. }
  destruct (A1 Hs) as [Hs1 M1].
  destruct (Z.leb_spec 0 r.2) as [Hr|Hr]; cbn [when] in E2.
  - destruct (write_thread_present_flag _ _ _ _ Hs1 E2) as [[Hs2 M2]|(len & Hl & Hne)].
    + left. destruct (Hrest _ _ _ E Hs2) as [Hs3 M3].
      split; [done|]. by do 2 (etransitivity; [eassumption|]).
    + right. exists (Z.to_nat r.2), len. rewrite B1 in Hl.
      destruct Hsel as [(? & _)|(_ & Hn & _)]; [lia | done].
  - left. injection E2 as <-. destruct (Hrest _ _ _ E Hs1) as [Hs3 M3].
    split; [done | by etransitivity].
Qed.

Lemma run_call_flag c :
  c <> CallWriteThread -> steps (held (watch topics false)) (run_call c).
Proof.
  intros Hc. destruct c; cbn [run_call]; try done.
  - unfold xrsp_start_encode, wait_flushed. steps_go.
  - unfold xrsp_send_csd, wait_flushed. steps_go.
  - unfold xrsp_send_idr, wait_flushed. steps_go.
  - unfold xrsp_flush_stream. steps_go.
  - unfold ql_xrsp_read_thread_iter, os_nanosleep. steps_go.
  - apply steps_held.
    + apply same_flag_unsent.
      apply (steps_coarser stream_view sent_first_frame);
        [intros ? ? H; exact (f_equal sent_first_frame H)|].
      apply xrsp_handle_hostinfo_adv_frames, read_usb_still_frames, Hread.
    + exact (xrsp_handle_hostinfo_adv_mute topics false Hread Hoff pkt).
  - steps_go.
Qed.

End Keyframe.

(** ** The sample runs *)

Lemma sample_read_usb_still : read_usb_still (X := sample_externs).
Proof. by intros s a s' [= _ <-]. Qed.

Lemma sample_off_control :
  off_control (X := sample_externs) (slice_topics (X := sample_externs)).
Proof. unfold off_control. repeat constructor. Qed.

Lemma state_armed_fifo_inv : fifo_inv [] state_armed.
Proof.
  assert (Hw : forall k t, ~ waiting state_armed k t).
  { intros k t (Hk & Hn & _). unfold QL_SWAPCHAIN_DEPTH in Hk.
    assert (k = 0 \/ k = 1 \/ k = 2) as [-> | [-> | ->]] by lia; discriminate. }
  split; [constructor|]. split; [constructor|]. split.
  - intros k t W. by destruct (Hw k t).
  - intros k k' t W. by destruct (Hw k t).
Qed.


Lemma state_armed_sound : sound state_armed.
Proof. split; [repeat split; by eexists | by repeat split]. Qed.


(** With codec-specific data the slice goes out, as the message, the
    codec-specific data and the video data, and the flag is set. *)
Lemma xrsp_send_video_keyframe_example :
  exists s',
    xrsp_send_video (P := sample_world) (X := sample_externs)
      0 0 0 0 [9; 9] 2 [1; 2; 3; 4] 4 0 state_armed = Ok tt s' /\
    sent_first_frame (st_host s') = true /\
    map frame_data
      (List.filter (watch (slice_topics (X := sample_externs)) false)
         (st_trace s'))
      = [[0; 0; 0; 0; 8; 0; 0; 0]; replicate 64 0; [9; 9]; [1; 2; 3; 4]].
Proof. vm_compute. eexists. split; [reflexivity|]. split; reflexivity. Qed.
